(** * Version Consistency Checker: a shallow embedding and its properties

    Embedding of [scripts/check_version_consistency.py].  The script reads
    five project files, recovers a version token from each with a regular
    expression, and reconciles the tokens into an exit code.

    - Python [str] values are lists of Unicode code points ([N]).
    - [re] patterns are terms of [Re.regex]; [Re.exec] is a backtracking
      matcher with the priorities of CPython's [sre] engine (greedy
      repetition, leftmost start position for [re.search]).  The tables of
      [\d] and [\s] are those of CPython 3.11 (Unicode 14).
    - The filesystem is a function from paths to file states; a file can be
      absent, readable text, or present and unreadable ([read_text] raises).
      The text of a file is the [str] that [read_text] returns.  Paths are
      printed in POSIX form.
    - Effects ([print], exceptions) live in the small monad [IO].  Standard
      output is the list of the arguments of the [print] calls, in order; it
      is taken to encode every character.

    Layout: the model (strings, patterns and matcher, the grammar of the
    specification, extractors, reconciler, [main]), then the properties. *)

From Stdlib Require Import List NArith ZArith Bool Lia.
From Stdlib Require String Ascii.
Import ListNotations.
Import String.StringSyntax Ascii.AsciiSyntax.
Delimit Scope string_scope with string.
Delimit Scope char_scope with char.

Set Implicit Arguments.

Local Open Scope list_scope.
Local Open Scope N_scope.

(** ** Strings *)

Definition char := N.
Definition str := list char.

(** [lit] turns an ASCII literal of the source into its code points. *)
Definition lit (s : String.string) : str :=
  map Ascii.N_of_ascii (String.list_ascii_of_string s).
Arguments lit s%_string.

Definition DQUOTE : char := 34.
Definition SQUOTE : char := 39.
Definition NEWLINE : char := 10.

Fixpoint str_eqb (a b : str) : bool :=
  match a, b with
  | [], [] => true
  | x :: a', y :: b' => N.eqb x y && str_eqb a' b'
  | _, _ => false
  end.

(** [sep.join(parts)] *)
Fixpoint join (sep : str) (parts : list str) : str :=
  match parts with
  | [] => []
  | [p] => p
  | p :: ps => p ++ sep ++ join sep ps
  end.

Fixpoint starts_with (p s : str) : bool :=
  match p, s with
  | [], _ => true
  | x :: p', y :: s' => N.eqb x y && starts_with p' s'
  | _ :: _, [] => false
  end.

(** [needle in haystack] for strings *)
Fixpoint contains (needle hay : str) : bool :=
  starts_with needle hay ||
  match hay with
  | [] => false
  | _ :: hay' => contains needle hay'
  end.

(** ** Regular expressions, as CPython's [re] module runs them *)

Module Re.

(** Code points for which [\d] matches a [str] pattern
    ([Py_UNICODE_ISDECIMAL], Unicode 14). *)
Definition decimal_ranges : list (N * N) :=
  [ (48, 57); (1632, 1641); (1776, 1785); (1984, 1993); (2406, 2415);
    (2534, 2543); (2662, 2671); (2790, 2799); (2918, 2927); (3046, 3055);
    (3174, 3183); (3302, 3311); (3430, 3439); (3558, 3567); (3664, 3673);
    (3792, 3801); (3872, 3881); (4160, 4169); (4240, 4249); (6112, 6121);
    (6160, 6169); (6470, 6479); (6608, 6617); (6784, 6793); (6800, 6809);
    (6992, 7001); (7088, 7097); (7232, 7241); (7248, 7257); (42528, 42537);
    (43216, 43225); (43264, 43273); (43472, 43481); (43504, 43513);
    (43600, 43609); (44016, 44025); (65296, 65305); (66720, 66729);
    (68912, 68921); (69734, 69743); (69872, 69881); (69942, 69951);
    (70096, 70105); (70384, 70393); (70736, 70745); (70864, 70873);
    (71248, 71257); (71360, 71369); (71472, 71481); (71904, 71913);
    (72016, 72025); (72784, 72793); (73040, 73049); (73120, 73129);
    (92768, 92777); (92864, 92873); (93008, 93017); (120782, 120831);
    (123200, 123209); (123632, 123641); (125264, 125273); (130032, 130041) ].

(** Code points for which [\s] matches a [str] pattern
    ([Py_UNICODE_ISSPACE]). *)
Definition space_ranges : list (N * N) :=
  [ (9, 13); (28, 32); (133, 133); (160, 160); (5760, 5760); (8192, 8202);
    (8232, 8233); (8239, 8239); (8287, 8287); (12288, 12288) ].

Definition in_ranges (t : list (N * N)) (c : char) : bool :=
  existsb (fun r => (fst r <=? c) && (c <=? snd r)) t.

(** Members of a bracketed set; [\d] and [\s] alone are one-item sets. *)
Inductive item : Type :=
| Chr (c : char)
| Rng (lo hi : char)
| Digit
| Space.

Definition item_matches (i : item) (c : char) : bool :=
  match i with
  | Chr x => N.eqb c x
  | Rng lo hi => (lo <=? c) && (c <=? hi)
  | Digit => in_ranges decimal_ranges c
  | Space => in_ranges space_ranges c
  end.

Definition in_set (negate : bool) (items : list item) (c : char) : bool :=
  xorb negate (existsb (fun i => item_matches i c) items).

Inductive regex : Type :=
| Eps
| Lit (c : char)
| In (negate : bool) (items : list item)
| Cat (r1 r2 : regex)
| Star (r : regex)            (* r*   greedy *)
| Plus (r : regex)            (* r+   greedy *)
| Opt (r : regex)             (* r?   greedy *)
| Group (r : regex)           (* (r)  capturing group 1 *)
| AtBeginning                 (* ^    without re.MULTILINE *)
| AtBeginningLine             (* ^    with re.MULTILINE *)
| AtEnd.                      (* $    without re.MULTILINE *)

(** A literal run of characters of the pattern. *)
Fixpoint lits (s : str) : regex :=
  match s with
  | [] => Eps
  | c :: s' => Cat (Lit c) (lits s')
  end.

(** Matcher state: the character before the current position (none at the
    start of the string), the text from the current position on, and the
    text captured by group 1 so far. *)
Record state : Type := mkState
  { prev : option char;
    rest : str;
    group1 : option str }.

Definition start (s : str) : state :=
  {| prev := None; rest := s; group1 := None |}.

Definition step (c : char) (t : str) (st : state) : state :=
  {| prev := Some c; rest := t; group1 := group1 st |}.

(** The text between the positions of [st] and of the later [st']. *)
Definition consumed (st st' : state) : str :=
  firstn (length (rest st) - length (rest st')) (rest st).

Definition capture (st st' : state) : state :=
  {| prev := prev st'; rest := rest st'; group1 := Some (consumed st st') |}.

Definition at_beginning (st : state) : bool :=
  match prev st with None => true | Some _ => false end.

Definition at_beginning_line (st : state) : bool :=
  match prev st with None => true | Some c => N.eqb c NEWLINE end.

(** [$] holds at the end of the string and just before a newline that is
    the last character of the string. *)
Definition at_end (st : state) : bool :=
  match rest st with
  | [] => true
  | [c] => N.eqb c NEWLINE
  | _ => false
  end.

Section Exec.
Variable A : Type.

Definition cont := state -> option A.

(** Greedy repetition of [body]: one more iteration is tried first, and
    an iteration has to consume text; [fuel] bounds the iterations by the
    length of the remaining text. *)
Fixpoint iterate (body : state -> cont -> option A) (fuel : nat)
         (st : state) (k : cont) : option A :=
  match fuel with
  | O => k st
  | S fuel' =>
      match body st (fun st' =>
               if (length (rest st') <? length (rest st))%nat
               then iterate body fuel' st' k
               else None) with
      | Some x => Some x
      | None => k st
      end
  end.

Fixpoint exec (r : regex) (st : state) (k : cont) {struct r} : option A :=
  match r with
  | Eps => k st
  | Lit c =>
      match rest st with
      | x :: t => if N.eqb x c then k (step x t st) else None
      | [] => None
      end
  | In negate items =>
      match rest st with
      | x :: t => if in_set negate items x then k (step x t st) else None
      | [] => None
      end
  | Cat r1 r2 => exec r1 st (fun st1 => exec r2 st1 k)
  | Star r1 => iterate (exec r1) (length (rest st)) st k
  | Plus r1 =>
      exec r1 st (fun st1 => iterate (exec r1) (length (rest st1)) st1 k)
  | Opt r1 =>
      match exec r1 st k with
      | Some x => Some x
      | None => k st
      end
  | Group r1 => exec r1 st (fun st1 => k (capture st st1))
  | AtBeginning => if at_beginning st then k st else None
  | AtBeginningLine => if at_beginning_line st then k st else None
  | AtEnd => if at_end st then k st else None
  end.
End Exec.

(** [re.match(pattern, s)]: a match starting at position 0. *)
Definition match_ (r : regex) (s : str) : option state :=
  exec r (start s) (@Some state).

(** [re.search(pattern, s)]: the match at the leftmost start position. *)
Fixpoint search_from (r : regex) (p : option char) (s : str) : option state :=
  match exec r {| prev := p; rest := s; group1 := None |} (@Some state) with
  | Some m => Some m
  | None =>
      match s with
      | [] => None
      | c :: t => search_from r (Some c) t
      end
  end.

Definition search (r : regex) (s : str) : option state :=
  search_from r None s.

(** *** What a pattern matches

    [matches r p w f]: the pattern [r] matches the text [w] when [p] is the
    character before [w] (none at the start of the string) and [f] is the
    text that follows [w].  An iteration of a starred pattern consumes
    text, as in [iterate]. *)

(** The character before the position reached after reading [w]. *)
Fixpoint last_char (p : option char) (w : str) : option char :=
  match w with
  | [] => p
  | c :: w' => last_char (Some c) w'
  end.

Inductive matches : regex -> option char -> str -> str -> Prop :=
| M_Eps p f : matches Eps p [] f
| M_Lit c p f : matches (Lit c) p [c] f
| M_In negate items c p f :
    in_set negate items c = true -> matches (In negate items) p [c] f
| M_Cat r1 r2 p w1 w2 f :
    matches r1 p w1 (w2 ++ f) ->
    matches r2 (last_char p w1) w2 f ->
    matches (Cat r1 r2) p (w1 ++ w2) f
| M_Star_done r p f : matches (Star r) p [] f
| M_Star_more r p w1 w2 f :
    w1 <> [] ->
    matches r p w1 (w2 ++ f) ->
    matches (Star r) (last_char p w1) w2 f ->
    matches (Star r) p (w1 ++ w2) f
| M_Plus r p w1 w2 f :
    matches r p w1 (w2 ++ f) ->
    matches (Star r) (last_char p w1) w2 f ->
    matches (Plus r) p (w1 ++ w2) f
| M_Opt_some r p w f : matches r p w f -> matches (Opt r) p w f
| M_Opt_none r p f : matches (Opt r) p [] f
| M_Group r p w f : matches r p w f -> matches (Group r) p w f
| M_AtBeginning f : matches AtBeginning None [] f
| M_AtBeginningLine p f :
    p = None \/ p = Some NEWLINE -> matches AtBeginningLine p [] f
| M_AtEnd p f : f = [] \/ f = [NEWLINE] -> matches AtEnd p [] f.

(** Patterns without a capturing group. *)
Fixpoint group_free (r : regex) : bool :=
  match r with
  | Group _ => false
  | Cat r1 r2 => group_free r1 && group_free r2
  | Star r1 | Plus r1 | Opt r1 => group_free r1
  | _ => true
  end.

(** The state reached from [st] after reading [w], with [f] left. *)
Definition after (st : state) (w f : str) : state :=
  {| prev := last_char (prev st) w; rest := f; group1 := group1 st |}.

(** [exec r] succeeds with a continuation exactly when [r] matches a prefix
    of the remaining text after which the continuation succeeds. *)
Definition accepts (A : Type) (r : regex) : Prop :=
  forall st (k : state -> option A),
    exec r st k <> None <->
    exists w f,
      rest st = w ++ f /\ matches r (prev st) w f /\ k (after st w f) <> None.

End Re.

(** *** Matches with the capture

    [captures r p g w f g']: [r] matches [w] between [p] and [f] as in
    [Re.matches], and group 1, which held [g] before, holds [g'] after. *)

Module ReCapture.
Import Re.

Inductive captures :
  regex -> option char -> option str -> str -> str -> option str -> Prop :=
| C_Eps p g f : captures Eps p g [] f g
| C_Lit c p g f : captures (Lit c) p g [c] f g
| C_In negate items c p g f :
    in_set negate items c = true -> captures (In negate items) p g [c] f g
| C_Cat r1 r2 p g w1 w2 f g1 g2 :
    captures r1 p g w1 (w2 ++ f) g1 ->
    captures r2 (last_char p w1) g1 w2 f g2 ->
    captures (Cat r1 r2) p g (w1 ++ w2) f g2
| C_Star_done r p g f : captures (Star r) p g [] f g
| C_Star_more r p g w1 w2 f g1 g2 :
    w1 <> [] ->
    captures r p g w1 (w2 ++ f) g1 ->
    captures (Star r) (last_char p w1) g1 w2 f g2 ->
    captures (Star r) p g (w1 ++ w2) f g2
| C_Plus r p g w1 w2 f g1 g2 :
    captures r p g w1 (w2 ++ f) g1 ->
    captures (Star r) (last_char p w1) g1 w2 f g2 ->
    captures (Plus r) p g (w1 ++ w2) f g2
| C_Opt_some r p g w f g1 : captures r p g w f g1 -> captures (Opt r) p g w f g1
| C_Opt_none r p g f : captures (Opt r) p g [] f g
| C_Group r p g w f g1 :
    captures r p g w f g1 -> captures (Group r) p g w f (Some w)
| C_AtBeginning g f : captures AtBeginning None g [] f g
| C_AtBeginningLine p g f :
    p = None \/ p = Some NEWLINE -> captures AtBeginningLine p g [] f g
| C_AtEnd p g f : f = [] \/ f = [NEWLINE] -> captures AtEnd p g [] f g.

(** The state reached from [st] after reading [w], with [f] left and [g]
    in group 1. *)
Definition reached (st : state) (w f : str) (g : option str) : state :=
  {| prev := last_char (prev st) w; rest := f; group1 := g |}.

(** Where a run of characters of a set stops: at the end of the text or
    before a character outside the set. *)
Definition stops (negate : bool) (items : list item) (f : str) : Prop :=
  match f with
  | [] => True
  | c :: _ => in_set negate items c = false
  end.

(** What [exec r] returns was returned by the continuation at a state
    that [r] reaches. *)
Definition sound (A : Type) (r : regex) : Prop :=
  forall st (k : state -> option A) x,
    exec r st k = Some x ->
    exists w f g',
      rest st = w ++ f /\
      captures r (prev st) (group1 st) w f g' /\
      k (reached st w f g') = Some x.

End ReCapture.

(** Code point of an ASCII character of the source. *)
Definition ord (a : Ascii.ascii) : char := Ascii.N_of_ascii a.
Arguments ord a%_char.

Declare Scope re_scope.
Delimit Scope re_scope with re.
Infix "@@" := Re.Cat (at level 60, right associativity) : re_scope.
Local Open Scope re_scope.

(** ** The patterns of the script

    In the comments the double quote of a pattern is written [\x22]. *)

Definition ws : Re.regex := Re.In false [Re.Space].               (* \s *)
Definition digit : Re.regex := Re.In false [Re.Digit].            (* \d *)
Definition quote : Re.regex :=                                    (* [\x22\'] *)
  Re.In false [Re.Chr DQUOTE; Re.Chr SQUOTE].
Definition not_quote : Re.regex :=                                (* [^\x22\'] *)
  Re.In true [Re.Chr DQUOTE; Re.Chr SQUOTE].
Definition not_quote_space : Re.regex :=                          (* [^\x22\'\s] *)
  Re.In true [Re.Chr DQUOTE; Re.Chr SQUOTE; Re.Space].
Definition ident_char : Re.regex :=                               (* [a-zA-Z0-9-] *)
  Re.In false [Re.Rng (ord "a") (ord "z"); Re.Rng (ord "A") (ord "Z");
               Re.Rng (ord "0") (ord "9"); Re.Chr (ord "-")].

(** [r'^__version__\s*=\s*[\x22\']([^\x22\']+)[\x22\']'] with [re.MULTILINE] *)
Definition init_pattern : Re.regex :=
  Re.AtBeginningLine @@ Re.lits (lit "__version__") @@ Re.Star ws @@
  Re.Lit (ord "=") @@ Re.Star ws @@ quote @@
  Re.Group (Re.Plus not_quote) @@ quote.

(** [r'^version\s*=\s*[\x22\']([^\x22\']+)[\x22\']'] with [re.MULTILINE] *)
Definition pyproject_pattern : Re.regex :=
  Re.AtBeginningLine @@ Re.lits (lit "version") @@ Re.Star ws @@
  Re.Lit (ord "=") @@ Re.Star ws @@ quote @@
  Re.Group (Re.Plus not_quote) @@ quote.

(** [r'version\s*=\s*[\x22\']([^\x22\']+)[\x22\']'] *)
Definition setup_pattern : Re.regex :=
  Re.lits (lit "version") @@ Re.Star ws @@
  Re.Lit (ord "=") @@ Re.Star ws @@ quote @@
  Re.Group (Re.Plus not_quote) @@ quote.

(** [r'ARG\s+VERSION\s*=\s*[\x22\']?([^\x22\'\s]+)'] *)
Definition dockerfile_pattern : Re.regex :=
  Re.lits (lit "ARG") @@ Re.Plus ws @@ Re.lits (lit "VERSION") @@
  Re.Star ws @@ Re.Lit (ord "=") @@ Re.Star ws @@ Re.Opt quote @@
  Re.Group (Re.Plus not_quote_space).

(** [r'VERSION:\s*[\x22\']?([^\x22\'\s]+)'] *)
Definition workflow_pattern : Re.regex :=
  Re.lits (lit "VERSION:") @@ Re.Star ws @@ Re.Opt quote @@
  Re.Group (Re.Plus not_quote_space).

(** Dot-separated identifiers: [[a-zA-Z0-9-]+(?:\.[a-zA-Z0-9-]+)*] *)
Definition identifiers : Re.regex :=
  Re.Plus ident_char @@ Re.Star (Re.Lit (ord ".") @@ Re.Plus ident_char).

(** [r'^\d+\.\d+\.\d+(?:-IDS)?(?:\+IDS)?$'], where [IDS] stands for the
    dot-separated identifiers above, written out twice in the source. *)
Definition semver_pattern : Re.regex :=
  Re.AtBeginning @@
  Re.Plus digit @@ Re.Lit (ord ".") @@
  Re.Plus digit @@ Re.Lit (ord ".") @@
  Re.Plus digit @@
  Re.Opt (Re.Lit (ord "-") @@ identifiers) @@
  Re.Opt (Re.Lit (ord "+") @@ identifiers) @@
  Re.AtEnd.

(** ** Shapes of the text the patterns look for *)

Module Shape.

Definition EQUALS : char := ord "=".

Definition is_quote (c : char) : Prop := c = DQUOTE \/ c = SQUOTE.

(** The characters of [\s]. *)
Definition is_space (c : char) : bool := Re.in_ranges Re.space_ranges c.

(** A possibly empty run of whitespace. *)
Definition blank (s : str) : Prop := Forall (fun c => is_space c = true) s.

Definition quote_free (v : str) : Prop := ~ In DQUOTE v /\ ~ In SQUOTE v.

(** No quote and no whitespace. *)
Definition bare (v : str) : Prop :=
  quote_free v /\ Forall (fun c => is_space c = false) v.

(** The position after [pre] is the start of the text or follows a
    newline. *)
Definition at_line_start (pre : str) : Prop :=
  pre = [] \/ exists pre', pre = pre' ++ [NEWLINE].

(** [key = "v"]: the key, [=] between optional whitespace, and [v] between
    two quote characters, which need not be the same. *)
Definition quoted_assignment (key v w : str) : Prop :=
  exists gap1 gap2 q1 q2,
    blank gap1 /\ blank gap2 /\ is_quote q1 /\ is_quote q2 /\
    w = key ++ gap1 ++ [EQUALS] ++ gap2 ++ [q1] ++ v ++ [q2].

(** An optional opening quote. *)
Definition opening (oq : str) : Prop :=
  oq = [] \/ exists q, is_quote q /\ oq = [q].

(** [ARG VERSION=v]: whitespace after [ARG], [=] between optional
    whitespace, an optional opening quote and [v]. *)
Definition arg_version (v w : str) : Prop :=
  exists gap0 gap1 gap2 oq,
    gap0 <> [] /\ blank gap0 /\ blank gap1 /\ blank gap2 /\ opening oq /\
    w = lit "ARG" ++ gap0 ++ lit "VERSION" ++ gap1 ++ [EQUALS] ++ gap2
            ++ oq ++ v.

(** [VERSION: v]: optional whitespace, an optional opening quote and [v]. *)
Definition version_key (v w : str) : Prop :=
  exists gap oq,
    blank gap /\ opening oq /\ w = lit "VERSION:" ++ gap ++ oq ++ v.

(** The text [f] does not go on with a character of a bare value. *)
Definition ends_value (f : str) : Prop :=
  match f with
  | [] => True
  | c :: _ => is_quote c \/ is_space c = true
  end.

(** [key] does not occur in [pre ++ s] at a position inside [pre]. *)
Fixpoint not_before (key pre s : str) : bool :=
  match pre with
  | [] => true
  | _ :: pre' => negb (starts_with key (pre ++ s)) && not_before key pre' s
  end.

(** Lines, none of which starts with [key]. *)
Definition lines_without (key : str) (ls : list str) : Prop :=
  Forall (fun l => ~ In NEWLINE l /\ starts_with key l = false) ls.

End Shape.

(** [version_match.group(1)] of an optional match object. *)
Definition group_1 (m : option Re.state) : option str :=
  match m with
  | Some st => Re.group1 st
  | None => None
  end.

(** ** The grammar of the Format Validator, in the words of the
       specification

    [MAJOR.MINOR.PATCH], each component one or more decimal digits, then an
    optional pre-release suffix ([-] and one or more dot-separated
    identifiers) and an optional build-metadata suffix ([+] and one or more
    dot-separated identifiers); an identifier is one or more characters that
    are alphanumeric or a hyphen; nothing before and nothing after.  The
    decimal digits are read as the characters of [\d] and the alphanumeric
    characters as those of [[a-zA-Z0-9]], the readings closest to the
    code. *)

Module Semver.

Definition DOT : char := ord ".".
Definition HYPHEN : char := ord "-".
Definition PLUS : char := ord "+".

Definition decimal_digit (c : char) : bool :=
  Re.in_ranges Re.decimal_ranges c.

Definition alphanumeric_or_hyphen (c : char) : bool :=
  ((ord "a" <=? c) && (c <=? ord "z")) ||
  ((ord "A" <=? c) && (c <=? ord "Z")) ||
  ((ord "0" <=? c) && (c <=? ord "9")) ||
  (c =? HYPHEN).

Definition all_of (pred : char -> bool) (s : str) : Prop :=
  Forall (fun c => pred c = true) s.

Definition component (s : str) : Prop :=
  s <> [] /\ all_of decimal_digit s.

Definition identifier (s : str) : Prop :=
  s <> [] /\ all_of alphanumeric_or_hyphen s.

(** The empty suffix, or [mark] and dot-separated identifiers. *)
Definition suffix (mark : char) (s : str) : Prop :=
  s = [] \/
  exists ids,
    ids <> [] /\ Forall identifier ids /\ s = mark :: join [DOT] ids.

Definition well_formed (s : str) : Prop :=
  exists major minor patch pre build,
    component major /\ component minor /\ component patch /\
    suffix HYPHEN pre /\ suffix PLUS build /\
    s = major ++ [DOT] ++ minor ++ [DOT] ++ patch ++ pre ++ build.

(** [.id.id...]: identifiers, each after a dot. *)
Definition dotted_tail (ids : list str) : str :=
  flat_map (fun i => DOT :: i) ids.

(** Characters a well-formed version can hold. *)
Definition version_char (c : char) : bool :=
  decimal_digit c || alphanumeric_or_hyphen c ||
  (c =? DOT) || (c =? PLUS).

End Semver.

(** ** Filesystem, output and exceptions *)

Inductive exn : Type :=
| FileNotFoundError
| PermissionError
| IsADirectoryError
| UnicodeDecodeError
| StopIteration.

(** What a path of the working directory holds: nothing, a text file, or
    something that exists and whose [read_text] raises. *)
Inductive file : Type :=
| Absent
| Text (content : str)
| Unreadable (e : exn).

Definition filesystem := String.string -> file.

Inductive outcome (A : Type) : Type :=
| Returned (a : A)
| Raised (e : exn).
Arguments Returned {A} a.
Arguments Raised {A} e.

(** A computation prints lines to standard output (one entry per [print]
    call) and returns or raises. *)
Definition IO (A : Type) : Type := list str -> outcome A * list str.

Definition ret {A} (a : A) : IO A := fun out => (Returned a, out).

Definition bind {A B} (m : IO A) (f : A -> IO B) : IO B :=
  fun out =>
    match m out with
    | (Returned a, out') => f a out'
    | (Raised e, out') => (Raised e, out')
    end.

Definition raise {A} (e : exn) : IO A := fun out => (Raised e, out).

Definition print (line : str) : IO unit :=
  fun out => (Returned tt, out ++ [line]).

Declare Scope io_scope.
Delimit Scope io_scope with io.
Notation "x <- m ;; k" := (bind m (fun x => k))
  (at level 61, m at next level, right associativity) : io_scope.
Notation "m ;;; k" := (bind m (fun _ => k))
  (at level 61, right associativity) : io_scope.
Local Open Scope io_scope.

(** [for x in xs: body(x)] *)
Fixpoint for_each {A} (xs : list A) (body : A -> IO unit) : IO unit :=
  match xs with
  | [] => ret tt
  | x :: xs' => body x ;;; for_each xs' body
  end.

(** Glyphs of the status lines. *)
Definition CROSS : char := 0x274C.
Definition MAGNIFIER : char := 0x1F50D.
Definition BULB : char := 0x1F4A1.
Definition CHECK_MARK : char := 0x2705.
Definition FOLDER : char := 0x1F4C1.

Definition init_file : String.string := "ai_data_collector/__init__.py"%string.
Definition pyproject_file : String.string := "pyproject.toml"%string.
Definition setup_file : String.string := "setup.py"%string.
Definition dockerfile : String.string := "docker/Dockerfile"%string.
Definition workflow_file : String.string := ".github/workflows/ci.yml"%string.

(** The diagnostics of the two extractors that report failure. *)
Definition init_not_found_line : str :=
  CROSS :: lit " " ++ lit init_file ++ lit " not found".
Definition init_no_version_line : str :=
  CROSS :: lit " No __version__ found in " ++ lit init_file.
Definition pyproject_not_found_line : str :=
  CROSS :: lit " " ++ lit pyproject_file ++ lit " not found".
Definition pyproject_no_version_line : str :=
  CROSS :: lit " No version found in " ++ lit pyproject_file.

Section Script.
Variable fs : filesystem.

(** [Path(p).exists()] *)
Definition path_exists (p : String.string) : bool :=
  match fs p with
  | Absent => false
  | _ => true
  end.

(** [Path(p).read_text(encoding='utf-8')] *)
Definition read_text (p : String.string) : IO str :=
  match fs p with
  | Text content => ret content
  | Unreadable e => raise e
  | Absent => raise FileNotFoundError
  end.

Definition extract_version_from_init : IO (option str) :=
  if negb (path_exists init_file) then
    print init_not_found_line ;;;
    ret None
  else
    content <- read_text init_file ;;
    match Re.search init_pattern content with
    | Some m => ret (group_1 (Some m))
    | None =>
        print init_no_version_line ;;;
        ret None
    end.

Definition extract_version_from_pyproject : IO (option str) :=
  if negb (path_exists pyproject_file) then
    print pyproject_not_found_line ;;;
    ret None
  else
    content <- read_text pyproject_file ;;
    match Re.search pyproject_pattern content with
    | Some m => ret (group_1 (Some m))
    | None =>
        print pyproject_no_version_line ;;;
        ret None
    end.

Definition extract_version_from_setup : IO (option str) :=
  if negb (path_exists setup_file) then
    ret None
  else
    content <- read_text setup_file ;;
    match Re.search setup_pattern content with
    | Some m => ret (group_1 (Some m))
    | None =>
        if contains (lit "find_version()") content then
          extract_version_from_init
        else
          ret None
    end.

Definition extract_version_from_dockerfile : IO (option str) :=
  if negb (path_exists dockerfile) then
    ret None
  else
    content <- read_text dockerfile ;;
    match Re.search dockerfile_pattern content with
    | Some m => ret (group_1 (Some m))
    | None => ret None
    end.

Definition extract_version_from_github_workflow : IO (option str) :=
  if negb (path_exists workflow_file) then
    ret None
  else
    content <- read_text workflow_file ;;
    match Re.search workflow_pattern content with
    | Some m => ret (group_1 (Some m))
    | None => ret None
    end.
End Script.

(** [bool(re.match(semver_pattern, version))] *)
Definition validate_version_format (version : str) : bool :=
  match Re.match_ semver_pattern version with
  | Some _ => true
  | None => false
  end.

(** ** The reconciler *)

Definition str_eq_dec : forall a b : str, {a = b} + {a <> b} :=
  list_eq_dec N.eq_dec.

(** A [Dict[str, ...]] in insertion order; the keys of the script's
    dictionaries are pairwise distinct. *)
Definition dict (V : Type) : Type := list (str * V).

(** [{file: version for file, version in versions.items()
      if version is not None}] *)
Fixpoint found_of (versions : dict (option str)) : dict str :=
  match versions with
  | [] => []
  | (file, Some version) :: versions' => (file, version) :: found_of versions'
  | (_, None) :: versions' => found_of versions'
  end.

(** [set(values)]: the distinct values. *)
Definition set_of (values : list str) : list str := nodup str_eq_dec values.

(** [next(iter(s))] *)
Definition next_iter (s : list str) : IO str :=
  match s with
  | x :: _ => ret x
  | [] => raise StopIteration
  end.

(** [key in d] *)
Definition has_key {V} (key : str) (d : dict V) : bool :=
  existsb (fun kv => str_eqb (fst kv) key) d.

(** [not d], [not l] *)
Definition is_empty {X} (l : list X) : bool :=
  match l with
  | [] => true
  | _ :: _ => false
  end.

Definition banner : str :=
  MAGNIFIER :: lit " Checking version consistency across project files...".
Definition no_version_line : str :=
  CROSS :: lit " No version information found in any file".
Definition mismatch_line : str :=
  CROSS :: lit " Version mismatch detected:".
Definition pair_line (kv : str * str) : str :=
  lit "   " ++ fst kv ++ lit ": " ++ snd kv.
Definition ensure_line : str :=
  NEWLINE :: BULB :: lit " Please ensure all version numbers are consistent".
Definition invalid_line (version : str) : str :=
  CROSS :: lit " Invalid version format: " ++ version.
Definition semver_hint_line : str :=
  BULB :: lit " Version should follow semantic versioning (e.g., 1.0.0, 1.0.0-alpha.1)".
Definition missing_line (missing_files : list str) : str :=
  CROSS :: lit " Version missing from required files: " ++
  join (lit ", ") missing_files.
Definition consistent_line (version : str) : str :=
  CHECK_MARK :: lit " All versions are consistent: " ++ version.
Definition found_in_line (files : list str) : str :=
  FOLDER :: lit " Found in: " ++ join (lit ", ") files.

Definition required_files : list str :=
  [lit "__init__.py"; lit "pyproject.toml"].

(** [[file for file in required_files if file not in found_versions]] *)
Definition missing_of (found_versions : dict str) : list str :=
  filter (fun file => negb (has_key file found_versions)) required_files.

(** The body of [main] from the filtering of the dictionary on. *)
Definition reconcile (versions : dict (option str)) : IO Z :=
  let found_versions := found_of versions in
  if is_empty found_versions then
    print no_version_line ;;;
    ret 1%Z
  else
    let unique_versions := set_of (map snd found_versions) in
    if (1 <? length unique_versions)%nat then
      print mismatch_line ;;;
      for_each found_versions (fun kv => print (pair_line kv)) ;;;
      print ensure_line ;;;
      ret 1%Z
    else
      common_version <- next_iter unique_versions ;;
      if negb (validate_version_format common_version) then
        print (invalid_line common_version) ;;;
        print semver_hint_line ;;;
        ret 1%Z
      else
        let missing_files := missing_of found_versions in
        if negb (is_empty missing_files) then
          print (missing_line missing_files) ;;;
          ret 1%Z
        else
          print (consistent_line common_version) ;;;
          print (found_in_line (map fst found_versions)) ;;;
          ret 0%Z.

(** The five extractor calls of [main], in the order of the dictionary
    display. *)
Definition extract_all (fs : filesystem) : IO (dict (option str)) :=
  v_init <- extract_version_from_init fs ;;
  v_pyproject <- extract_version_from_pyproject fs ;;
  v_setup <- extract_version_from_setup fs ;;
  v_docker <- extract_version_from_dockerfile fs ;;
  v_workflow <- extract_version_from_github_workflow fs ;;
  ret [ (lit "__init__.py", v_init);
        (lit "pyproject.toml", v_pyproject);
        (lit "setup.py", v_setup);
        (lit "Dockerfile", v_docker);
        (lit "GitHub workflow", v_workflow) ].

Definition main (fs : filesystem) : IO Z :=
  print banner ;;;
  versions <- extract_all fs ;;
  reconcile versions.

(** One run of the script: [sys.exit(main())] on an empty standard output.
    An exception that leaves [main] is not caught anywhere; the interpreter
    then prints a traceback to standard error and exits with status 1. *)
Definition run (fs : filesystem) : outcome Z * list str := main fs [].

Definition exit_code (fs : filesystem) : Z :=
  match fst (run fs) with
  | Returned code => code
  | Raised _ => 1%Z
  end.

Definition stdout (fs : filesystem) : list str := snd (run fs).

(** The dictionary [versions] and the output so far, once the five
    extractor calls of a run have returned. *)
Definition collects (fs : filesystem) (versions : dict (option str))
           (diag : list str) : Prop :=
  extract_all fs [banner] = (Returned versions, diag).

(** Every line an extractor can print. *)
Definition extractor_diagnostics : list str :=
  [ init_not_found_line; init_no_version_line;
    pyproject_not_found_line; pyproject_no_version_line ].

(** [m] appends lines of [L] to the output and nothing else. *)
Definition emits_only (L : list str) {A} (m : IO A) : Prop :=
  forall out, exists d, snd (m out) = out ++ d /\ Forall (fun l => In l L) d.

(** The checks of the reconciler as the code performs them on the
    dictionary of a run: some value was found, the found values are one
    value, [validate_version_format] accepts that value, and both mandatory
    artifacts contributed. *)
Definition all_checks_pass (versions : dict (option str)) : Prop :=
  found_of versions <> [] /\
  (exists v,
      (forall file version,
          In (file, version) (found_of versions) -> version = v) /\
      validate_version_format v = true) /\
  has_key (lit "__init__.py") (found_of versions) = true /\
  has_key (lit "pyproject.toml") (found_of versions) = true.

(** The checks in the words of the specification: as above, with the
    format check being the grammar of the Format Validator. *)
Definition all_checks_pass_by_grammar (versions : dict (option str)) : Prop :=
  found_of versions <> [] /\
  (exists v,
      (forall file version,
          In (file, version) (found_of versions) -> version = v) /\
      Semver.well_formed v) /\
  has_key (lit "__init__.py") (found_of versions) = true /\
  has_key (lit "pyproject.toml") (found_of versions) = true.

(** The lines the extractor of the artifact at [p] can print.  The
    SetupScript extractor prints those of the PackageInit extractor, when it
    delegates; the ContainerFile and CIWorkflow extractors print nothing. *)
Definition diagnostics_of (p : String.string) : list str :=
  if String.eqb p init_file then
    [init_not_found_line; init_no_version_line]
  else if String.eqb p pyproject_file then
    [pyproject_not_found_line; pyproject_no_version_line]
  else if String.eqb p setup_file then
    [init_not_found_line; init_no_version_line]
  else [].

(** The lines the reconciler can add to the output. *)
Inductive verdict_lines : list str -> Prop :=
| Lines_no_version : verdict_lines [no_version_line]
| Lines_mismatch found :
    verdict_lines (mismatch_line :: map pair_line found ++ [ensure_line])
| Lines_invalid v : verdict_lines [invalid_line v; semver_hint_line]
| Lines_missing missing_files : verdict_lines [missing_line missing_files]
| Lines_success v files :
    verdict_lines [consistent_line v; found_in_line files].

(** The five artifact paths, in the order [main] visits them. *)
Definition artifact_files : list String.string :=
  [init_file; pyproject_file; setup_file; dockerfile; workflow_file].

Definition optional_files : list String.string :=
  [setup_file; dockerfile; workflow_file].

(** [m] prints nothing, and its outcome does not depend on the output so
    far. *)
Definition silent {A} (m : IO A) : Prop :=
  forall out, m out = (fst (m []), out).

(** The file at [p] is text in which [pattern] is found with group 1 equal
    to [v]. *)
Definition yields (fs : filesystem) (p : String.string) (pattern : Re.regex)
           (v : str) : Prop :=
  exists content,
    fs p = Text content /\ group_1 (Re.search pattern content) = Some v.

(** The two mandatory artifacts agree on the well-formed version [v]. *)
Definition mandatory_agree (fs : filesystem) (v : str) : Prop :=
  yields fs init_file init_pattern v /\
  yields fs pyproject_file pyproject_pattern v /\
  validate_version_format v = true.

(** The dictionary of a run whose mandatory artifacts carry [v]. *)
Definition agreeing (v : str) (c d e : option str) : dict (option str) :=
  [ (lit "__init__.py", Some v); (lit "pyproject.toml", Some v);
    (lit "setup.py", c); (lit "Dockerfile", d); (lit "GitHub workflow", e) ].

Definition absent_or (v : str) (x : option str) : Prop :=
  x = None \/ x = Some v.

(** The result [x] of an optional extractor [m] whose file at [p] is absent,
    or which returns the version [v]. *)
Definition absent_or_yields (fs : filesystem) (p : String.string)
           (m : IO (option str)) (v : str) (x : option str) : Prop :=
  (fs p = Absent /\ x = None) \/
  (fst (m []) = Returned (Some v) /\ x = Some v).

(** Positions at which [needle] occurs in [hay], counted from [i]. *)
Fixpoint occurrences_from (i : nat) (needle hay : str) : list nat :=
  (if starts_with needle hay then [i] else []) ++
  match hay with
  | [] => []
  | _ :: hay' => occurrences_from (S i) needle hay'
  end.

Definition occurrences (needle hay : str) : list nat :=
  occurrences_from 0 needle hay.

(** A filesystem given by the files it holds. *)
Definition fs_of (files : list (String.string * file)) : filesystem :=
  fun p =>
    match find (fun kv => String.eqb (fst kv) p) files with
    | Some kv => snd kv
    | None => Absent
    end.

(** [remove p fs]: the filesystem [fs] without the file at [p]. *)
Definition remove (p : String.string) (fs : filesystem) : filesystem :=
  fun q => if String.eqb q p then Absent else fs q.

(** Text of a file, line by line, each line ended by a newline. *)
Definition lines (ls : list str) : str :=
  flat_map (fun l => l ++ [NEWLINE]) ls.

(** [quoted s] is [s] between double quotes. *)
Definition quoted (s : str) : str := DQUOTE :: s ++ [DQUOTE].

Module Scenario.
Definition init_with (v : str) : file :=
  Text (lines [lit "# package"; lit "__version__ = " ++ quoted v]).
Definition pyproject_with (v : str) : file :=
  Text (lines [lit "[project]"; lit "name = " ++ quoted (lit "pkg");
               lit "version = " ++ quoted v]).

(** Both mandatory files, same version, nothing else. *)
Definition agree (v : str) : filesystem :=
  fs_of [(init_file, init_with v); (pyproject_file, pyproject_with v)].

(** The mandatory files disagree. *)
Definition disagree : filesystem :=
  fs_of [(init_file, init_with (lit "1.2.3"));
         (pyproject_file, pyproject_with (lit "1.2.4"))].

(** The files disagree and [pyproject.toml] is missing. *)
Definition disagree_and_missing : filesystem :=
  fs_of [(init_file, init_with (lit "1.2.3"));
         (dockerfile, Text (lines [lit "FROM python:3.11";
                                   lit "ARG VERSION=1.2.4"]))].

(** [pyproject.toml] is missing, the rest is consistent. *)
Definition missing_pyproject : filesystem :=
  fs_of [(init_file, init_with (lit "1.0.0"))].

(** No artifact at all. *)
Definition empty : filesystem := fs_of [].

(** All five artifacts, same version. *)
Definition all_agree (v : str) : filesystem :=
  fs_of [(init_file, init_with v);
         (pyproject_file, pyproject_with v);
         (setup_file, Text (lines [lit "setup(name='pkg', version=" ++ quoted v
                                       ++ lit ")"]));
         (dockerfile, Text (lines [lit "FROM python:3.11";
                                   lit "ARG VERSION=" ++ v]));
         (workflow_file, Text (lines [lit "env:";
                                      lit "  VERSION: " ++ quoted v]))].

(** The same project with a file the script does not look at. *)
Definition agree_with_readme (v : str) : filesystem :=
  fs_of [("README.md"%string, Text (lit "# pkg"));
         (init_file, init_with v); (pyproject_file, pyproject_with v)].

(** [__init__.py] exists and cannot be read. *)
Definition unreadable_init : filesystem :=
  fs_of [(init_file, Unreadable PermissionError);
         (pyproject_file, pyproject_with (lit "1.0.0"))].

(** A [setup.py] that calls [find_version()] and has no [version=]. *)
Definition setup_with_find_version : file :=
  Text (lines [lit "from setuptools import setup";
               lit "setup(name='pkg', version_info=find_version())"]).

(** No [__init__.py], and [setup.py] delegates to it. *)
Definition delegating_setup : filesystem :=
  fs_of [(pyproject_file, pyproject_with (lit "1.0.0"));
         (setup_file, setup_with_find_version)].

(** The same with a [pyproject.toml] that cannot be read. *)
Definition delegating_setup_unreadable_pyproject : filesystem :=
  fs_of [(pyproject_file, Unreadable PermissionError);
         (setup_file, setup_with_find_version)].

(** No [__init__.py], a delegating [setup.py], and a [docker/Dockerfile]
    that cannot be read. *)
Definition delegating_setup_unreadable_dockerfile : filesystem :=
  fs_of [(pyproject_file, pyproject_with (lit "1.0.0"));
         (setup_file, setup_with_find_version);
         (dockerfile, Unreadable PermissionError)].

(** Neither mandatory file; only a [docker/Dockerfile] with a version. *)
Definition only_dockerfile : filesystem :=
  fs_of [(dockerfile, Text (lines [lit "FROM python:3.11";
                                   lit "ARG VERSION=1.0.0"]))].

(** A workflow whose only [VERSION:] is the end of [PYTHON_VERSION:]. *)
Definition python_version_workflow : str :=
  lines [lit "env:"; lit "  PYTHON_VERSION: 3.11"].

Definition with_python_version_workflow : filesystem :=
  fs_of [(workflow_file, Text python_version_workflow)].
End Scenario.

(* ================================================================== *)
(** * Properties *)

(** ** Strings and sets of strings *)

Lemma str_eqb_eq (a b : str) : str_eqb a b = true <-> a = b.
Proof.
  revert b; induction a as [|x a IH]; intros [|y b]; simpl;
    try (split; congruence).
  rewrite andb_true_iff, N.eqb_eq, IH.
  split; [intros [-> ->]; reflexivity | intros H; inversion H; auto].
Qed.

Lemma str_eqb_refl (a : str) : str_eqb a a = true.
Proof. apply str_eqb_eq; reflexivity. Qed.

Lemma set_of_In (l : list str) (x : str) : In x (set_of l) <-> In x l.
Proof. apply nodup_In. Qed.

Lemma set_of_nonempty (l : list str) : l <> [] -> set_of l <> [].
Proof.
  destruct l as [|x l]; [congruence|]; intros _ H.
  assert (Hx : In x (set_of (x :: l))) by (apply set_of_In; left; reflexivity).
  rewrite H in Hx; inversion Hx.
Qed.

(** A non-empty list whose members all equal [v] has [{v}] as its set. *)
Lemma set_of_unanimous (l : list str) (v : str) :
  l <> [] -> (forall x, In x l -> x = v) -> set_of l = [v].
Proof.
  intros Hne Hall.
  pose proof (set_of_nonempty Hne) as Hs.
  pose proof (NoDup_nodup str_eq_dec l) as Hnd.
  fold (set_of l) in Hnd.
  destruct (set_of l) as [|a [|b s]] eqn:E; [congruence| |].
  - f_equal. apply Hall, set_of_In. rewrite E; left; reflexivity.
  - exfalso.
    assert (a = v) by (apply Hall, set_of_In; rewrite E; simpl; auto).
    assert (b = v) by (apply Hall, set_of_In; rewrite E; simpl; auto).
    subst. inversion Hnd; subst. simpl in *; tauto.
Qed.

(** The set has more than one member exactly when two members of the list
    differ. *)
Lemma set_of_size_gt_1 (l : list str) :
  (1 < length (set_of l))%nat <->
  exists a b, In a l /\ In b l /\ a <> b.
Proof.
  split.
  - intros H.
    pose proof (NoDup_nodup str_eq_dec l) as Hnd. fold (set_of l) in Hnd.
    destruct (set_of l) as [|a [|b s]] eqn:E; simpl in H; try lia.
    exists a, b. repeat split.
    + apply set_of_In; rewrite E; simpl; auto.
    + apply set_of_In; rewrite E; simpl; auto.
    + intros ->. inversion Hnd; subst. simpl in *; tauto.
  - intros (a & b & Ha & Hb & Hab).
    destruct (le_lt_dec (length (set_of l)) 1) as [Hle|]; [exfalso | assumption].
    apply set_of_In in Ha, Hb.
    destruct (set_of l) as [|x [|y s]]; simpl in *; try lia; try tauto.
    destruct Ha as [<-|[]], Hb as [<-|[]]. congruence.
Qed.

Lemma set_of_size_le_1 (l : list str) :
  l <> [] -> (length (set_of l) <= 1)%nat ->
  exists v, set_of l = [v] /\ forall x, In x l -> x = v.
Proof.
  intros Hne Hle.
  pose proof (set_of_nonempty Hne) as Hs.
  destruct (set_of l) as [|v [|b s]] eqn:E; simpl in Hle; try congruence; try lia.
  exists v; split; [reflexivity|].
  intros x Hx. apply set_of_In in Hx. rewrite E in Hx.
  destruct Hx as [<-|[]]; reflexivity.
Qed.

(** ** The monad *)

Lemma for_each_print {X} (f : X -> str) (xs : list X) (out : list str) :
  for_each xs (fun x => print (f x)) out = (Returned tt, out ++ map f xs).
Proof.
  revert out; induction xs as [|x xs IH]; intros out; simpl.
  - unfold ret. rewrite app_nil_r. reflexivity.
  - unfold bind, print at 1. rewrite IH, <- app_assoc. reflexivity.
Qed.

(** ** The reconciler, case by case *)

Lemma reconcile_no_version versions out :
  found_of versions = [] ->
  reconcile versions out = (Returned 1%Z, out ++ [no_version_line]).
Proof. intros H. unfold reconcile. rewrite H. reflexivity. Qed.

Lemma reconcile_mismatch versions out :
  (1 < length (set_of (map snd (found_of versions))))%nat ->
  reconcile versions out =
  (Returned 1%Z,
   out ++ [mismatch_line] ++ map pair_line (found_of versions) ++ [ensure_line]).
Proof.
  intros H. unfold reconcile.
  destruct (found_of versions) as [|kv found] eqn:E.
  - simpl in H; lia.
  - cbn [is_empty]. apply Nat.ltb_lt in H. rewrite H.
    unfold bind, print at 1. rewrite for_each_print.
    unfold print, ret. rewrite <- !app_assoc. reflexivity.
Qed.

Lemma reconcile_unanimous versions out v :
  found_of versions <> [] ->
  (forall kv, In kv (found_of versions) -> snd kv = v) ->
  reconcile versions out =
  if negb (validate_version_format v) then
    (Returned 1%Z, out ++ [invalid_line v; semver_hint_line])
  else if negb (is_empty (missing_of (found_of versions))) then
    (Returned 1%Z, out ++ [missing_line (missing_of (found_of versions))])
  else
    (Returned 0%Z,
     out ++ [consistent_line v; found_in_line (map fst (found_of versions))]).
Proof.
  intros Hne Hall. unfold reconcile.
  assert (Hset : set_of (map snd (found_of versions)) = [v]).
  { apply set_of_unanimous.
    - destruct (found_of versions); [congruence | discriminate].
    - intros x Hx. apply in_map_iff in Hx. destruct Hx as (kv & <- & Hkv); auto. }
  destruct (found_of versions) as [|kv found] eqn:E; [congruence|].
  cbn [is_empty]. rewrite Hset. cbn [length Nat.ltb Nat.leb next_iter].
  unfold bind at 1. unfold ret at 1.
  destruct (validate_version_format v); cbn [negb].
  - destruct (missing_of (kv :: found)); cbn [is_empty negb];
      unfold bind, print, ret; rewrite <- ?app_assoc; reflexivity.
  - unfold bind, print, ret; rewrite <- ?app_assoc; reflexivity.
Qed.

(** ** The extractors, by the state of their file *)

Section Extractors.
Variable fs : filesystem.
Variable out : list str.

Lemma init_absent :
  fs init_file = Absent ->
  extract_version_from_init fs out =
  (Returned None, out ++ [init_not_found_line]).
Proof.
  intros H. unfold extract_version_from_init, path_exists. rewrite H.
  reflexivity.
Qed.

Lemma init_text content :
  fs init_file = Text content ->
  extract_version_from_init fs out =
  match Re.search init_pattern content with
  | Some m => (Returned (Re.group1 m), out)
  | None => (Returned None, out ++ [init_no_version_line])
  end.
Proof.
  intros H. unfold extract_version_from_init, path_exists, read_text.
  rewrite H. cbn [negb]. unfold bind at 1, ret at 1.
  destruct (Re.search init_pattern content); reflexivity.
Qed.

Lemma init_unreadable e :
  fs init_file = Unreadable e ->
  extract_version_from_init fs out = (Raised e, out).
Proof.
  intros H. unfold extract_version_from_init, path_exists, read_text.
  rewrite H. reflexivity.
Qed.

Lemma pyproject_absent :
  fs pyproject_file = Absent ->
  extract_version_from_pyproject fs out =
  (Returned None, out ++ [pyproject_not_found_line]).
Proof.
  intros H. unfold extract_version_from_pyproject, path_exists. rewrite H.
  reflexivity.
Qed.

Lemma pyproject_text content :
  fs pyproject_file = Text content ->
  extract_version_from_pyproject fs out =
  match Re.search pyproject_pattern content with
  | Some m => (Returned (Re.group1 m), out)
  | None => (Returned None, out ++ [pyproject_no_version_line])
  end.
Proof.
  intros H. unfold extract_version_from_pyproject, path_exists, read_text.
  rewrite H. cbn [negb]. unfold bind at 1, ret at 1.
  destruct (Re.search pyproject_pattern content); reflexivity.
Qed.

Lemma pyproject_unreadable e :
  fs pyproject_file = Unreadable e ->
  extract_version_from_pyproject fs out = (Raised e, out).
Proof.
  intros H. unfold extract_version_from_pyproject, path_exists, read_text.
  rewrite H. reflexivity.
Qed.

Lemma setup_absent :
  fs setup_file = Absent ->
  extract_version_from_setup fs out = (Returned None, out).
Proof.
  intros H. unfold extract_version_from_setup, path_exists. rewrite H.
  reflexivity.
Qed.

Lemma setup_text content :
  fs setup_file = Text content ->
  extract_version_from_setup fs out =
  match Re.search setup_pattern content with
  | Some m => (Returned (Re.group1 m), out)
  | None =>
      if contains (lit "find_version()") content
      then extract_version_from_init fs out
      else (Returned None, out)
  end.
Proof.
  intros H. unfold extract_version_from_setup, path_exists, read_text.
  rewrite H. cbn [negb]. unfold bind at 1, ret at 1.
  destruct (Re.search setup_pattern content); [reflexivity|].
  destruct (contains _ content); reflexivity.
Qed.

Lemma setup_unreadable e :
  fs setup_file = Unreadable e ->
  extract_version_from_setup fs out = (Raised e, out).
Proof.
  intros H. unfold extract_version_from_setup, path_exists, read_text.
  rewrite H. reflexivity.
Qed.

Lemma dockerfile_absent :
  fs dockerfile = Absent ->
  extract_version_from_dockerfile fs out = (Returned None, out).
Proof.
  intros H. unfold extract_version_from_dockerfile, path_exists. rewrite H.
  reflexivity.
Qed.

Lemma dockerfile_text content :
  fs dockerfile = Text content ->
  extract_version_from_dockerfile fs out =
  (Returned (group_1 (Re.search dockerfile_pattern content)), out).
Proof.
  intros H. unfold extract_version_from_dockerfile, path_exists, read_text.
  rewrite H. cbn [negb]. unfold bind at 1, ret at 1.
  destruct (Re.search dockerfile_pattern content); reflexivity.
Qed.

Lemma dockerfile_unreadable e :
  fs dockerfile = Unreadable e ->
  extract_version_from_dockerfile fs out = (Raised e, out).
Proof.
  intros H. unfold extract_version_from_dockerfile, path_exists, read_text.
  rewrite H. reflexivity.
Qed.

Lemma workflow_absent :
  fs workflow_file = Absent ->
  extract_version_from_github_workflow fs out = (Returned None, out).
Proof.
  intros H. unfold extract_version_from_github_workflow, path_exists.
  rewrite H. reflexivity.
Qed.

Lemma workflow_text content :
  fs workflow_file = Text content ->
  extract_version_from_github_workflow fs out =
  (Returned (group_1 (Re.search workflow_pattern content)), out).
Proof.
  intros H.
  unfold extract_version_from_github_workflow, path_exists, read_text.
  rewrite H. cbn [negb]. unfold bind at 1, ret at 1.
  destruct (Re.search workflow_pattern content); reflexivity.
Qed.

Lemma workflow_unreadable e :
  fs workflow_file = Unreadable e ->
  extract_version_from_github_workflow fs out = (Raised e, out).
Proof.
  intros H.
  unfold extract_version_from_github_workflow, path_exists, read_text.
  rewrite H. reflexivity.
Qed.
End Extractors.

(** ** What a run prints before the reconciler *)

Lemma emits_ret L A (a : A) : emits_only L (ret a).
Proof. intros out; exists []; simpl; rewrite app_nil_r; auto. Qed.

Lemma emits_raise L A (e : exn) : emits_only L (@raise A e).
Proof. intros out; exists []; simpl; rewrite app_nil_r; auto. Qed.

Lemma emits_print L line : In line L -> emits_only L (print line).
Proof. intros H out; exists [line]; simpl; auto. Qed.

Lemma emits_bind L A B (m : IO A) (f : A -> IO B) :
  emits_only L m -> (forall a, emits_only L (f a)) -> emits_only L (bind m f).
Proof.
  intros Hm Hf out. unfold bind.
  destruct (Hm out) as (d1 & E1 & F1).
  destruct (m out) as [[a|e] o1]; simpl in E1; subst o1.
  - destruct (Hf a (out ++ d1)) as (d2 & E2 & F2).
    exists (d1 ++ d2). rewrite E2, app_assoc. split; [reflexivity|].
    apply Forall_app; auto.
  - exists d1; auto.
Qed.

Ltac emits :=
  repeat first
    [ apply emits_ret
    | apply emits_raise
    | apply emits_print; simpl; tauto
    | apply emits_bind; [|intros ?]
    | match goal with
      | |- emits_only _ (if ?b then _ else _) => destruct b
      | |- emits_only _ (match ?x with _ => _ end) => destruct x
      end ].

Lemma init_emits fs :
  emits_only extractor_diagnostics (extract_version_from_init fs).
Proof. unfold extract_version_from_init, read_text. emits. Qed.

Lemma pyproject_emits fs :
  emits_only extractor_diagnostics (extract_version_from_pyproject fs).
Proof. unfold extract_version_from_pyproject, read_text. emits. Qed.

Lemma setup_emits fs :
  emits_only extractor_diagnostics (extract_version_from_setup fs).
Proof.
  unfold extract_version_from_setup, read_text.
  pose proof (init_emits fs). emits; assumption.
Qed.

Lemma dockerfile_emits fs :
  emits_only extractor_diagnostics (extract_version_from_dockerfile fs).
Proof. unfold extract_version_from_dockerfile, read_text. emits. Qed.

Lemma workflow_emits fs :
  emits_only extractor_diagnostics (extract_version_from_github_workflow fs).
Proof. unfold extract_version_from_github_workflow, read_text. emits. Qed.

Lemma extract_all_emits fs :
  emits_only extractor_diagnostics (extract_all fs).
Proof.
  unfold extract_all.
  repeat (apply emits_bind; [|intros ?]);
    auto using init_emits, pyproject_emits, setup_emits, dockerfile_emits,
               workflow_emits, emits_ret.
Qed.

Lemma collects_output fs versions diag :
  collects fs versions diag ->
  exists d, diag = banner :: d /\ Forall (fun l => In l extractor_diagnostics) d.
Proof.
  unfold collects. intros H.
  destruct (extract_all_emits fs [banner]) as (d & E & F).
  rewrite H in E. simpl in E. eauto.
Qed.

(** The dictionary always has the five keys, in the order of the source. *)
Lemma collects_keys fs versions diag :
  collects fs versions diag ->
  exists a b c d e,
    versions = [ (lit "__init__.py", a); (lit "pyproject.toml", b);
                 (lit "setup.py", c); (lit "Dockerfile", d);
                 (lit "GitHub workflow", e) ].
Proof.
  unfold collects, extract_all, bind. intros H.
  destruct (extract_version_from_init fs _) as [[a|?] o1]; [|discriminate].
  destruct (extract_version_from_pyproject fs _) as [[b|?] o2]; [|discriminate].
  destruct (extract_version_from_setup fs _) as [[c|?] o3]; [|discriminate].
  destruct (extract_version_from_dockerfile fs _) as [[d|?] o4]; [|discriminate].
  destruct (extract_version_from_github_workflow fs _) as [[e|?] o5];
    [|discriminate].
  unfold ret in H. inversion H. eauto 10.
Qed.

Lemma run_collects fs versions diag :
  collects fs versions diag -> run fs = reconcile versions diag.
Proof.
  unfold collects, run, main, bind, print. simpl. intros ->. reflexivity.
Qed.

Lemma run_raises fs e diag :
  extract_all fs [banner] = (Raised e, diag) -> run fs = (Raised e, diag).
Proof.
  unfold run, main, bind, print. simpl. intros ->. reflexivity.
Qed.

Lemma exit_code_of_run fs code out :
  run fs = (Returned code, out) -> exit_code fs = code /\ stdout fs = out.
Proof. unfold exit_code, stdout. intros ->. auto. Qed.

Lemma unanimous_pairs (found : dict str) (v : str) :
  (forall file version, In (file, version) found -> version = v) ->
  forall kv, In kv found -> snd kv = v.
Proof. intros H [file version] Hin. simpl. eauto. Qed.

Lemma missing_of_spec (found : dict str) (file : str) :
  In file (missing_of found) <->
  In file required_files /\ has_key file found = false.
Proof.
  unfold missing_of. rewrite filter_In, negb_true_iff. reflexivity.
Qed.

(** ** The verdicts of a run *)

(** C1 (unanimity).  When the found extractor results of a run hold more than
    one distinct version value, [main] returns 1 and the output lists, after
    the mismatch headline, one line per contributing (artifact, value) pair. *)
Theorem mismatch_is_failure fs versions diag :
  collects fs versions diag ->
  (1 < length (set_of (map snd (found_of versions))))%nat ->
  run fs = (Returned 1%Z,
            diag ++ [mismatch_line] ++ map pair_line (found_of versions)
                 ++ [ensure_line])
  /\ exit_code fs = 1%Z
  /\ forall file version,
       In (file, version) (found_of versions) ->
       In (lit "   " ++ file ++ lit ": " ++ version) (stdout fs).
Proof.
  intros Hc Hgt.
  assert (Hrun := run_collects Hc). rewrite (reconcile_mismatch _ _ Hgt) in Hrun.
  destruct (exit_code_of_run fs Hrun) as [Hcode Hout].
  repeat split; try assumption.
  intros file version Hin. rewrite Hout.
  apply in_or_app; right. apply in_or_app; right. apply in_or_app; left.
  change (lit "   " ++ file ++ lit ": " ++ version)
    with (pair_line (file, version)).
  apply in_map; assumption.
Qed.

Lemma mismatch_is_failure_witness :
  let versions :=
    [ (lit "__init__.py", Some (lit "1.2.3"));
      (lit "pyproject.toml", Some (lit "1.2.4"));
      (lit "setup.py", None); (lit "Dockerfile", None);
      (lit "GitHub workflow", None) ] in
  collects Scenario.disagree versions [banner] /\
  (1 < length (set_of (map snd (found_of versions))))%nat /\
  run Scenario.disagree =
  (Returned 1%Z,
   [ banner; mismatch_line; lit "   __init__.py: 1.2.3";
     lit "   pyproject.toml: 1.2.4"; ensure_line ]).
Proof.
  intros versions.
  assert (H1 : collects Scenario.disagree versions [banner])
    by (vm_compute; reflexivity).
  assert (H2 : (1 < length (set_of (map snd (found_of versions))))%nat)
    by (vm_compute; lia).
  split; [exact H1|]. split; [exact H2|].
  exact (proj1 (mismatch_is_failure H1 H2)).
Defined.

(** The format gate as the code has it.  When the found results of a run are
    non-empty and all carry the same value, and [validate_version_format]
    rejects that value, [main] returns 1, whatever the number of artifacts
    that carry it. *)
Theorem invalid_format_is_failure fs versions diag v :
  collects fs versions diag ->
  found_of versions <> [] ->
  (forall file version, In (file, version) (found_of versions) -> version = v) ->
  validate_version_format v = false ->
  run fs = (Returned 1%Z, diag ++ [invalid_line v; semver_hint_line])
  /\ exit_code fs = 1%Z.
Proof.
  intros Hc Hne Hall Hbad.
  assert (Hrun := run_collects Hc).
  rewrite (reconcile_unanimous _ _ Hne (unanimous_pairs _ Hall)), Hbad in Hrun.
  cbn [negb] in Hrun.
  split; [assumption | apply (exit_code_of_run fs Hrun)].
Qed.

Lemma invalid_format_is_failure_witness :
  let versions :=
    [ (lit "__init__.py", Some (lit "1.2"));
      (lit "pyproject.toml", Some (lit "1.2"));
      (lit "setup.py", None); (lit "Dockerfile", None);
      (lit "GitHub workflow", None) ] in
  collects (Scenario.agree (lit "1.2")) versions [banner] /\
  validate_version_format (lit "1.2") = false /\
  exit_code (Scenario.agree (lit "1.2")) = 1%Z.
Proof.
  intros versions.
  assert (H1 : collects (Scenario.agree (lit "1.2")) versions [banner])
    by (vm_compute; reflexivity).
  assert (H2 : found_of versions <> []) by (vm_compute; discriminate).
  assert (H3 : forall file version,
             In (file, version) (found_of versions) -> version = lit "1.2").
  { intros file version H. vm_compute in H.
    destruct H as [H|[H|[]]]; inversion H; reflexivity. }
  assert (H4 : validate_version_format (lit "1.2") = false)
    by (vm_compute; reflexivity).
  split; [exact H1|]. split; [exact H4|].
  exact (proj2 (invalid_format_is_failure H1 H2 H3 H4)).
Defined.

(** C4 (mandatory gate).  When the found results of a run all carry one
    value that the Format Validator accepts, and [__init__.py] or
    [pyproject.toml] contributed no value, [main] returns 1 and its last line
    names exactly the mandatory artifacts that contributed none: the printed
    line ends in [__init__.py], in [pyproject.toml], or in
    [__init__.py, pyproject.toml] when both are missing. *)
Theorem missing_mandatory_is_failure fs versions diag v :
  collects fs versions diag ->
  found_of versions <> [] ->
  (forall file version, In (file, version) (found_of versions) -> version = v) ->
  validate_version_format v = true ->
  has_key (lit "__init__.py") (found_of versions) = false \/
  has_key (lit "pyproject.toml") (found_of versions) = false ->
  run fs = (Returned 1%Z, diag ++ [missing_line (missing_of (found_of versions))])
  /\ exit_code fs = 1%Z
  /\ missing_of (found_of versions) <> []
  /\ (forall file,
       In file (missing_of (found_of versions)) <->
       In file required_files /\ has_key file (found_of versions) = false)
  /\ (has_key (lit "__init__.py") (found_of versions) = false ->
      has_key (lit "pyproject.toml") (found_of versions) = true ->
      stdout fs =
      diag ++
      [CROSS :: lit " Version missing from required files: __init__.py"])
  /\ (has_key (lit "__init__.py") (found_of versions) = true ->
      has_key (lit "pyproject.toml") (found_of versions) = false ->
      stdout fs =
      diag ++
      [CROSS :: lit " Version missing from required files: pyproject.toml"])
  /\ (has_key (lit "__init__.py") (found_of versions) = false ->
      has_key (lit "pyproject.toml") (found_of versions) = false ->
      stdout fs =
      diag ++
      [CROSS ::
       lit " Version missing from required files: __init__.py, pyproject.toml"]).
Proof.
  intros Hc Hne Hall Hok Hmiss.
  assert (Hm : missing_of (found_of versions) <> []).
  { intros E.
    assert (Hin : exists f, In f required_files /\
                            has_key f (found_of versions) = false).
    { destruct Hmiss as [H|H]; eexists; (split; [|exact H]); simpl; auto. }
    destruct Hin as (f & Hf). apply missing_of_spec in Hf.
    rewrite E in Hf. inversion Hf. }
  assert (Hrun := run_collects Hc).
  rewrite (reconcile_unanimous _ _ Hne (unanimous_pairs _ Hall)), Hok in Hrun.
  cbn [negb] in Hrun.
  assert (Hne' : negb (is_empty (missing_of (found_of versions))) = true)
    by (destruct (missing_of (found_of versions)); [congruence | reflexivity]).
  rewrite Hne' in Hrun.
  split; [assumption|]. split; [apply (exit_code_of_run fs Hrun)|].
  split; [assumption|]. split; [intros file; apply missing_of_spec|].
  unfold stdout. rewrite Hrun. cbn [snd].
  unfold missing_of, required_files. cbn [filter].
  repeat split; intros Hi Hp; rewrite Hi, Hp; reflexivity.
Qed.

Lemma missing_mandatory_is_failure_witness :
  let versions :=
    [ (lit "__init__.py", Some (lit "1.0.0"));
      (lit "pyproject.toml", None);
      (lit "setup.py", None); (lit "Dockerfile", None);
      (lit "GitHub workflow", None) ] in
  collects Scenario.missing_pyproject versions
           [banner; pyproject_not_found_line] /\
  validate_version_format (lit "1.0.0") = true /\
  has_key (lit "pyproject.toml") (found_of versions) = false /\
  run Scenario.missing_pyproject =
  (Returned 1%Z,
   [ banner; pyproject_not_found_line;
     CROSS :: lit " Version missing from required files: pyproject.toml" ]) /\
  let versions' :=
    [ (lit "__init__.py", None); (lit "pyproject.toml", None);
      (lit "setup.py", None); (lit "Dockerfile", Some (lit "1.0.0"));
      (lit "GitHub workflow", None) ] in
  collects Scenario.only_dockerfile versions'
           [banner; init_not_found_line; pyproject_not_found_line] /\
  has_key (lit "__init__.py") (found_of versions') = false /\
  has_key (lit "pyproject.toml") (found_of versions') = false /\
  stdout Scenario.only_dockerfile =
  [ banner; init_not_found_line; pyproject_not_found_line;
    CROSS ::
    lit " Version missing from required files: __init__.py, pyproject.toml" ].
Proof.
  intros versions.
  assert (H1 : collects Scenario.missing_pyproject versions
                        [banner; pyproject_not_found_line])
    by (vm_compute; reflexivity).
  assert (H2 : found_of versions <> []) by (vm_compute; discriminate).
  assert (H3 : forall file version,
             In (file, version) (found_of versions) -> version = lit "1.0.0").
  { intros file version H. vm_compute in H.
    destruct H as [H|[]]; inversion H; reflexivity. }
  assert (H4 : validate_version_format (lit "1.0.0") = true)
    by (vm_compute; reflexivity).
  assert (H5 : has_key (lit "pyproject.toml") (found_of versions) = false)
    by (vm_compute; reflexivity).
  split; [exact H1|]. split; [exact H4|]. split; [exact H5|].
  split;
    [exact (proj1 (missing_mandatory_is_failure H1 H2 H3 H4 (or_intror H5)))|].
  intros versions'.
  assert (K1 : collects Scenario.only_dockerfile versions'
                        [banner; init_not_found_line; pyproject_not_found_line])
    by (vm_compute; reflexivity).
  assert (K2 : found_of versions' <> []) by (vm_compute; discriminate).
  assert (K3 : forall file version,
             In (file, version) (found_of versions') -> version = lit "1.0.0").
  { intros file version H. vm_compute in H.
    destruct H as [H|[]]; inversion H; reflexivity. }
  assert (K5 : has_key (lit "__init__.py") (found_of versions') = false)
    by (vm_compute; reflexivity).
  assert (K6 : has_key (lit "pyproject.toml") (found_of versions') = false)
    by (vm_compute; reflexivity).
  split; [exact K1|]. split; [exact K5|]. split; [exact K6|].
  exact (proj2 (proj2 (proj2 (proj2 (proj2 (proj2
           (missing_mandatory_is_failure K1 K2 K3 H4 (or_introl K5)))))))
         K5 K6).
Defined.

(** ** Every way a run can end *)

Lemma missing_of_nil (found : dict str) :
  missing_of found = [] <->
  has_key (lit "__init__.py") found = true /\
  has_key (lit "pyproject.toml") found = true.
Proof.
  unfold missing_of, required_files. cbn [filter].
  destruct (has_key (lit "__init__.py") found),
           (has_key (lit "pyproject.toml") found); cbn [negb];
    split; try tauto; try discriminate; intros [? ?]; discriminate.
Qed.

(** The reconciler never raises: it returns 0 on the success path and 1 on
    the four failure paths. *)
Lemma reconcile_cases versions out :
  (found_of versions = [] /\
   reconcile versions out = (Returned 1%Z, out ++ [no_version_line]))
  \/ ((1 < length (set_of (map snd (found_of versions))))%nat /\
      reconcile versions out =
      (Returned 1%Z,
       out ++ [mismatch_line] ++ map pair_line (found_of versions)
           ++ [ensure_line]))
  \/ (exists v,
        found_of versions <> [] /\
        (forall file version,
            In (file, version) (found_of versions) -> version = v) /\
        ((validate_version_format v = false /\
          reconcile versions out =
          (Returned 1%Z, out ++ [invalid_line v; semver_hint_line]))
         \/ (validate_version_format v = true /\
             missing_of (found_of versions) <> [] /\
             reconcile versions out =
             (Returned 1%Z,
              out ++ [missing_line (missing_of (found_of versions))]))
         \/ (validate_version_format v = true /\
             missing_of (found_of versions) = [] /\
             reconcile versions out =
             (Returned 0%Z,
              out ++ [consistent_line v;
                      found_in_line (map fst (found_of versions))])))).
Proof.
  destruct (found_of versions) as [|kv0 found0] eqn:E.
  { left. split; [reflexivity|]. apply reconcile_no_version; assumption. }
  rewrite <- E.
  assert (Hne : found_of versions <> []) by (rewrite E; discriminate).
  destruct (le_lt_dec (length (set_of (map snd (found_of versions)))) 1)
    as [Hle|Hgt].
  2:{ right; left. split; [assumption|].
      apply reconcile_mismatch; assumption. }
  right; right.
  destruct (@set_of_size_le_1 (map snd (found_of versions))) as (v & _ & Hall);
    [rewrite E; discriminate | assumption |].
  assert (Hall' : forall file version,
             In (file, version) (found_of versions) -> version = v).
  { intros file version Hin. apply Hall.
    change version with (snd (file, version)). apply in_map; assumption. }
  exists v. split; [assumption|]. split; [assumption|].
  rewrite (reconcile_unanimous _ _ Hne (unanimous_pairs _ Hall')).
  destruct (validate_version_format v); cbn [negb]; [|left; auto].
  right.
  destruct (missing_of (found_of versions)); cbn [is_empty negb];
    [right | left]; repeat split; auto; discriminate.
Qed.

Lemma reconcile_emits versions out :
  exists code d,
    reconcile versions out = (Returned code, out ++ d) /\ verdict_lines d.
Proof.
  destruct (reconcile_cases versions out)
    as [[_ ->]|[[_ ->]|(v & _ & _ & [[_ ->]|[(_ & _ & ->)|(_ & _ & ->)]])]];
    eexists; eexists; (split; [reflexivity|]); constructor.
Qed.

(** A run either raises inside an extractor or reaches the reconciler. *)
Lemma run_cases fs :
  (exists e diag,
      extract_all fs [banner] = (Raised e, diag) /\ run fs = (Raised e, diag))
  \/ (exists versions diag,
         collects fs versions diag /\ run fs = reconcile versions diag).
Proof.
  destruct (extract_all fs [banner]) as [[versions|e] diag] eqn:E.
  - right. exists versions, diag. split; [exact E|]. apply run_collects; exact E.
  - left. exists e, diag. split; [reflexivity|]. apply run_raises; exact E.
Qed.

Lemma collects_fun fs versions diag versions' diag' :
  collects fs versions diag -> collects fs versions' diag' ->
  versions = versions' /\ diag = diag'.
Proof. unfold collects. intros -> H. inversion H; auto. Qed.

(** ** Telling the lines apart *)

Lemma missing_line_fresh (l : str) (missing_files : list str) :
  In l (banner :: extractor_diagnostics ++ [mismatch_line; ensure_line]) ->
  l <> missing_line missing_files.
Proof.
  intros H E. subst l. simpl in H.
  repeat (destruct H as [H|H]; [vm_compute in H; discriminate H|]).
  exact H.
Qed.

Lemma pair_line_not_missing_line kv missing_files :
  pair_line kv <> missing_line missing_files.
Proof. intros E. vm_compute in E. discriminate E. Qed.

(** C5 (ordering).  When the found results of a run hold more than one
    distinct value and a mandatory artifact contributed none, the run ends
    with the version-mismatch report and exit code 1, and no line of the
    output is the missing-mandatory-artifact report. *)
Theorem mismatch_reported_before_missing fs versions diag :
  collects fs versions diag ->
  (1 < length (set_of (map snd (found_of versions))))%nat ->
  has_key (lit "__init__.py") (found_of versions) = false \/
  has_key (lit "pyproject.toml") (found_of versions) = false ->
  run fs = (Returned 1%Z,
            diag ++ [mismatch_line] ++ map pair_line (found_of versions)
                 ++ [ensure_line])
  /\ In mismatch_line (stdout fs)
  /\ forall missing_files, ~ In (missing_line missing_files) (stdout fs).
Proof.
  intros Hc Hgt _.
  assert (Hrun := run_collects Hc). rewrite (reconcile_mismatch _ _ Hgt) in Hrun.
  destruct (exit_code_of_run fs Hrun) as [_ Hout].
  split; [assumption|]. rewrite Hout. split.
  - apply in_or_app; right. left; reflexivity.
  - intros missing_files Hin.
    destruct (collects_output Hc) as (d & -> & Hd).
    rewrite Forall_forall in Hd.
    assert (Hfresh : forall l, In l (banner :: d ++ [mismatch_line; ensure_line])
                          -> l <> missing_line missing_files).
    { intros l Hl. apply missing_line_fresh.
      destruct Hl as [<-|Hl]; [left; reflexivity|]. right.
      apply in_app_or in Hl. apply in_or_app.
      destruct Hl as [Hl|Hl]; [left; apply Hd; assumption | right; assumption]. }
    apply in_app_or in Hin. destruct Hin as [Hin|Hin].
    + apply (Hfresh (missing_line missing_files)); [|reflexivity].
      destruct Hin as [Hin|Hin]; [left; exact Hin|].
      right. apply in_or_app; left; assumption.
    + simpl in Hin. destruct Hin as [Hin|Hin].
      * apply (Hfresh (missing_line missing_files)); [|reflexivity].
        rewrite <- Hin. right. apply in_or_app; right. left; reflexivity.
      * apply in_app_or in Hin. destruct Hin as [Hin|[Hin|[]]].
        -- apply in_map_iff in Hin. destruct Hin as (kv & E & _).
           exact (pair_line_not_missing_line E).
        -- apply (Hfresh (missing_line missing_files)); [|reflexivity].
           rewrite <- Hin. right. apply in_or_app; right.
           right; left; reflexivity.
Qed.

Lemma mismatch_reported_before_missing_witness :
  let fs := Scenario.disagree_and_missing in
  let versions :=
    [ (lit "__init__.py", Some (lit "1.2.3"));
      (lit "pyproject.toml", None);
      (lit "setup.py", None); (lit "Dockerfile", Some (lit "1.2.4"));
      (lit "GitHub workflow", None) ] in
  collects fs versions [banner; pyproject_not_found_line] /\
  (1 < length (set_of (map snd (found_of versions))))%nat /\
  has_key (lit "pyproject.toml") (found_of versions) = false /\
  run fs =
  (Returned 1%Z,
   [ banner; pyproject_not_found_line; mismatch_line;
     lit "   __init__.py: 1.2.3"; lit "   Dockerfile: 1.2.4"; ensure_line ]).
Proof.
  intros fs versions.
  assert (H1 : collects fs versions [banner; pyproject_not_found_line])
    by (vm_compute; reflexivity).
  assert (H2 : (1 < length (set_of (map snd (found_of versions))))%nat)
    by (vm_compute; lia).
  assert (H3 : has_key (lit "pyproject.toml") (found_of versions) = false)
    by (vm_compute; reflexivity).
  split; [exact H1|]. split; [exact H2|]. split; [exact H3|].
  exact (proj1 (mismatch_reported_before_missing H1 H2 (or_intror H3))).
Defined.

(** The exit code as the code has it, the format check being
    [validate_version_format].  The exit code of a run is 0 exactly when the
    extractors returned and all checks of the code pass; it is 0 or 1 in
    every run; and each failure condition (no value found, more than one
    distinct value, a common value the validator rejects, a mandatory
    artifact without a value) gives 1. *)
Theorem exit_code_spec fs :
  (exit_code fs = 0%Z <->
   exists versions diag, collects fs versions diag /\ all_checks_pass versions)
  /\ (exit_code fs = 0%Z \/ exit_code fs = 1%Z)
  /\ forall versions diag,
       collects fs versions diag ->
       (found_of versions = [] -> exit_code fs = 1%Z)
       /\ ((1 < length (set_of (map snd (found_of versions))))%nat ->
           exit_code fs = 1%Z)
       /\ (forall v,
              found_of versions <> [] ->
              (forall file version,
                  In (file, version) (found_of versions) -> version = v) ->
              validate_version_format v = false -> exit_code fs = 1%Z)
       /\ (has_key (lit "__init__.py") (found_of versions) = false \/
           has_key (lit "pyproject.toml") (found_of versions) = false ->
           exit_code fs = 1%Z).
Proof.
  assert (Hiff : forall versions diag,
             collects fs versions diag ->
             (exit_code fs = 0%Z <-> all_checks_pass versions)
             /\ (exit_code fs = 0%Z \/ exit_code fs = 1%Z)).
  { intros versions diag Hc. unfold all_checks_pass.
    assert (Hrun := run_collects Hc).
    destruct (reconcile_cases versions diag)
      as [[He R]|[[Hgt R]|(v & Hne & Hall & [[Hbad R]|[(Hok & Hm & R)|(Hok & Hm & R)]])]];
      rewrite R in Hrun; destruct (exit_code_of_run fs Hrun) as [Hcode _];
      rewrite Hcode; (split; [|auto]); (split; [try discriminate|]).
    - intros (Hne & _); congruence.
    - intros (Hne & (v & Hall & _) & _).
      apply set_of_size_gt_1 in Hgt. destruct Hgt as (a & b & Ha & Hb & Hab).
      apply in_map_iff in Ha, Hb.
      destruct Ha as ([fa va] & <- & Ha), Hb as ([fb vb] & <- & Hb).
      simpl in Hab. apply Hall in Ha, Hb. congruence.
    - intros (_ & (v' & Hall' & Hok') & _).
      destruct (found_of versions) as [|[f0 v0] found] eqn:E; [congruence|].
      assert (v0 = v) by (apply (Hall f0); left; reflexivity).
      assert (v0 = v') by (apply (Hall' f0); left; reflexivity).
      congruence.
    - intros (_ & _ & Hkeys). apply missing_of_nil in Hkeys. congruence.
    - intros _. apply missing_of_nil in Hm.
      split; [assumption|]. split; [exists v; auto | assumption].
    - reflexivity. }
  split; [|split].
  - destruct (run_cases fs) as [(e & diag & _ & R)|(versions & diag & Hc & _)].
    + unfold exit_code. rewrite R. simpl. split; [discriminate|].
      intros (versions & diag' & Hc & _). unfold collects in Hc.
      unfold run, main, bind, print in R. simpl in R. rewrite Hc in R.
      destruct (reconcile_emits versions diag') as (code & d & R' & _).
      rewrite R' in R. discriminate.
    + destruct (Hiff _ _ Hc) as [[H1 H2] _]. split.
      * intros H0. eauto.
      * intros (versions' & diag' & Hc' & Hp).
        destruct (collects_fun Hc Hc') as [-> _]. auto.
  - destruct (run_cases fs) as [(e & diag & _ & R)|(versions & diag & Hc & _)].
    + right. unfold exit_code. rewrite R. reflexivity.
    + apply (Hiff _ _ Hc).
  - intros versions diag Hc. destruct (Hiff _ _ Hc) as [[Hpass _] [H0|H1]].
    2:{ repeat split; intros; assumption. }
    destruct (Hpass H0) as (Hne & (v & Hall & Hok) & Hk1 & Hk2).
    repeat split.
    + congruence.
    + intros Hgt. exfalso.
      apply set_of_size_gt_1 in Hgt. destruct Hgt as (a & b & Ha & Hb & Hab).
      apply in_map_iff in Ha, Hb.
      destruct Ha as ([fa va] & <- & Ha), Hb as ([fb vb] & <- & Hb).
      simpl in Hab. apply Hall in Ha, Hb. congruence.
    + intros v' _ Hall' Hbad. exfalso.
      destruct (found_of versions) as [|[f0 v0] found] eqn:E; [congruence|].
      assert (v0 = v) by (apply (Hall f0); left; reflexivity).
      assert (v0 = v') by (apply (Hall' f0); left; reflexivity).
      congruence.
    + intros [H|H]; congruence.
Qed.

Lemma exit_code_spec_witness :
  exit_code (Scenario.agree (lit "1.2.3")) = 0%Z /\
  exit_code Scenario.empty = 1%Z /\
  exit_code Scenario.disagree = 1%Z /\
  exit_code (Scenario.agree (lit "1.2")) = 1%Z /\
  exit_code Scenario.missing_pyproject = 1%Z.
Proof.
  split.
  - apply (proj1 (exit_code_spec (Scenario.agree (lit "1.2.3")))).
    exists [ (lit "__init__.py", Some (lit "1.2.3"));
             (lit "pyproject.toml", Some (lit "1.2.3"));
             (lit "setup.py", None); (lit "Dockerfile", None);
             (lit "GitHub workflow", None) ], [banner].
    split; [vm_compute; reflexivity|].
    split; [vm_compute; discriminate|].
    split; [|split; vm_compute; reflexivity].
    exists (lit "1.2.3"). split; [|vm_compute; reflexivity].
    intros file version H. vm_compute in H.
    destruct H as [H|[H|[]]]; inversion H; reflexivity.
  - repeat split; vm_compute; reflexivity.
Defined.

(** ** Unreadable files *)

Lemma bind_returned A B (m : IO A) (f : A -> IO B) out a out' :
  m out = (Returned a, out') -> bind m f out = f a out'.
Proof. unfold bind. intros ->. reflexivity. Qed.

Lemma bind_raised A B (m : IO A) (f : A -> IO B) out e out' :
  m out = (Raised e, out') -> bind m f out = (Raised e, out').
Proof. unfold bind. intros ->. reflexivity. Qed.

Lemma init_returns fs out :
  (forall e, fs init_file <> Unreadable e) ->
  exists r out', extract_version_from_init fs out = (Returned r, out').
Proof.
  intros H. destruct (fs init_file) as [|content|e] eqn:E.
  - rewrite (init_absent _ _ E). eauto.
  - rewrite (init_text _ _ E). destruct (Re.search _ _); eauto.
  - destruct (H e); reflexivity.
Qed.

Lemma pyproject_returns fs out :
  (forall e, fs pyproject_file <> Unreadable e) ->
  exists r out', extract_version_from_pyproject fs out = (Returned r, out').
Proof.
  intros H. destruct (fs pyproject_file) as [|content|e] eqn:E.
  - rewrite (pyproject_absent _ _ E). eauto.
  - rewrite (pyproject_text _ _ E). destruct (Re.search _ _); eauto.
  - destruct (H e); reflexivity.
Qed.

Lemma setup_returns fs out :
  (forall e, fs init_file <> Unreadable e) ->
  (forall e, fs setup_file <> Unreadable e) ->
  exists r out', extract_version_from_setup fs out = (Returned r, out').
Proof.
  intros Hi H. destruct (fs setup_file) as [|content|e] eqn:E.
  - rewrite (setup_absent _ _ E). eauto.
  - rewrite (setup_text _ _ E). destruct (Re.search _ _); eauto.
    destruct (contains _ _); eauto using init_returns.
  - destruct (H e); reflexivity.
Qed.

Lemma dockerfile_returns fs out :
  (forall e, fs dockerfile <> Unreadable e) ->
  exists r, extract_version_from_dockerfile fs out = (Returned r, out).
Proof.
  intros H. destruct (fs dockerfile) as [|content|e] eqn:E.
  - rewrite (dockerfile_absent _ _ E). eauto.
  - rewrite (dockerfile_text _ _ E). eauto.
  - destruct (H e); reflexivity.
Qed.

Lemma workflow_returns fs out :
  (forall e, fs workflow_file <> Unreadable e) ->
  exists r, extract_version_from_github_workflow fs out = (Returned r, out).
Proof.
  intros H. destruct (fs workflow_file) as [|content|e] eqn:E.
  - rewrite (workflow_absent _ _ E). eauto.
  - rewrite (workflow_text _ _ E). eauto.
  - destruct (H e); reflexivity.
Qed.

Lemma unreadable_dec (f : file) :
  (exists e, f = Unreadable e) \/ (forall e, f <> Unreadable e).
Proof. destruct f; eauto; right; discriminate. Qed.

(** What each extractor can print, by artifact. *)
Lemma init_emits_own fs :
  emits_only (diagnostics_of init_file) (extract_version_from_init fs).
Proof. unfold extract_version_from_init, read_text. emits. Qed.

Lemma pyproject_emits_own fs :
  emits_only (diagnostics_of pyproject_file)
             (extract_version_from_pyproject fs).
Proof. unfold extract_version_from_pyproject, read_text. emits. Qed.

Lemma setup_emits_own fs :
  emits_only (diagnostics_of setup_file) (extract_version_from_setup fs).
Proof.
  unfold extract_version_from_setup, read_text.
  pose proof (init_emits_own fs) as H.
  change (diagnostics_of init_file) with (diagnostics_of setup_file) in H.
  emits; assumption.
Qed.

Lemma returned_output L A (m : IO A) out a out' :
  emits_only L m -> m out = (Returned a, out') ->
  exists d, out' = out ++ d /\ Forall (fun l => In l L) d.
Proof.
  intros Hm R. destruct (Hm out) as (d & E & F). rewrite R in E. eauto.
Qed.

Lemma Forall_In_incl (L L' d : list str) :
  Forall (fun l => In l L) d -> incl L L' -> Forall (fun l => In l L') d.
Proof.
  intros F I. rewrite Forall_forall in *. intros l Hl. apply I, F, Hl.
Qed.

(** The extractor calls raise at the first unreadable artifact, after the
    extractors of the artifacts before it have run. *)
Lemma extract_all_raises_at_first fs out :
  (exists p e, In p artifact_files /\ fs p = Unreadable e) ->
  exists pre p post e diag,
    artifact_files = pre ++ p :: post /\
    (forall q e', In q pre -> fs q <> Unreadable e') /\
    fs p = Unreadable e /\
    extract_all fs out = (Raised e, out ++ diag) /\
    Forall (fun l => In l (flat_map diagnostics_of pre)) diag.
Proof.
  intros (p0 & e0 & Hp0 & He0). unfold extract_all.
  destruct (unreadable_dec (fs init_file)) as [[e E1]|N1].
  { exists [], init_file, [pyproject_file; setup_file; dockerfile; workflow_file],
           e, [].
    split; [reflexivity|]. split; [intros q e' []|]. split; [assumption|].
    split; [|constructor]. rewrite app_nil_r.
    apply bind_raised, init_unreadable; assumption. }
  destruct (init_returns fs out N1) as (a & o1 & R1).
  erewrite bind_returned by exact R1.
  destruct (@returned_output _ _ _ _ _ _ (init_emits_own fs) R1) as (d1 & -> & F1).
  destruct (unreadable_dec (fs pyproject_file)) as [[e E2]|N2].
  { exists [init_file], pyproject_file, [setup_file; dockerfile; workflow_file],
           e, d1.
    split; [reflexivity|].
    split; [intros q e' [<-|[]]; apply N1|]. split; [assumption|].
    split; [apply bind_raised, pyproject_unreadable; assumption|].
    cbn [flat_map]. rewrite app_nil_r. exact F1. }
  destruct (pyproject_returns fs (out ++ d1) N2) as (b & o2 & R2).
  erewrite bind_returned by exact R2.
  destruct (@returned_output _ _ _ _ _ _ (pyproject_emits_own fs) R2) as (d2 & -> & F2).
  assert (F12 : Forall (fun l => In l (flat_map diagnostics_of
                                         [init_file; pyproject_file]))
                       (d1 ++ d2)).
  { cbn [flat_map]. rewrite app_nil_r. apply Forall_app. split.
    - apply (@Forall_In_incl _ _ _ F1), incl_appl, incl_refl.
    - apply (@Forall_In_incl _ _ _ F2), incl_appr, incl_refl. }
  rewrite <- app_assoc in *.
  destruct (unreadable_dec (fs setup_file)) as [[e E3]|N3].
  { exists [init_file; pyproject_file], setup_file, [dockerfile; workflow_file],
           e, (d1 ++ d2).
    split; [reflexivity|].
    split; [intros q e' [<-|[<-|[]]]; [apply N1|apply N2]|].
    split; [assumption|].
    split; [apply bind_raised, setup_unreadable; assumption|]. exact F12. }
  destruct (setup_returns fs (out ++ d1 ++ d2) N1 N3) as (c & o3 & R3).
  erewrite bind_returned by exact R3.
  destruct (@returned_output _ _ _ _ _ _ (setup_emits_own fs) R3) as (d3 & -> & F3).
  assert (F123 : Forall (fun l => In l (flat_map diagnostics_of
                                          [init_file; pyproject_file;
                                           setup_file]))
                        ((d1 ++ d2) ++ d3)).
  { change (flat_map diagnostics_of [init_file; pyproject_file; setup_file])
      with (diagnostics_of init_file ++
            diagnostics_of pyproject_file ++
            flat_map diagnostics_of [setup_file]).
    cbn [flat_map] in *. rewrite app_nil_r in *. rewrite app_assoc.
    apply Forall_app. split.
    - apply (@Forall_In_incl _ _ _ F12), incl_appl, incl_refl.
    - apply (@Forall_In_incl _ _ _ F3), incl_appr, incl_refl. }
  replace ((out ++ d1 ++ d2) ++ d3) with (out ++ (d1 ++ d2) ++ d3) in *
    by (rewrite !app_assoc; reflexivity).
  destruct (unreadable_dec (fs dockerfile)) as [[e E4]|N4].
  { exists [init_file; pyproject_file; setup_file], dockerfile, [workflow_file],
           e, ((d1 ++ d2) ++ d3).
    split; [reflexivity|].
    split; [intros q e' [<-|[<-|[<-|[]]]]; [apply N1|apply N2|apply N3]|].
    split; [assumption|].
    split; [apply bind_raised, dockerfile_unreadable; assumption|]. exact F123. }
  destruct (dockerfile_returns fs (out ++ (d1 ++ d2) ++ d3) N4) as (d & R4).
  erewrite bind_returned by exact R4.
  destruct (unreadable_dec (fs workflow_file)) as [[e E5]|N5].
  { exists [init_file; pyproject_file; setup_file; dockerfile], workflow_file, [],
           e, ((d1 ++ d2) ++ d3).
    split; [reflexivity|].
    split; [intros q e' [<-|[<-|[<-|[<-|[]]]]];
            [apply N1|apply N2|apply N3|apply N4]|].
    split; [assumption|].
    split; [apply bind_raised, workflow_unreadable; assumption|].
    apply (@Forall_In_incl _ _ _ F123). intros l Hl.
    change (In l (flat_map diagnostics_of [init_file; pyproject_file;
                                           setup_file] ++
                  flat_map diagnostics_of [dockerfile])).
    apply in_or_app. left. exact Hl. }
  exfalso. simpl in Hp0.
  destruct Hp0 as [<-|[<-|[<-|[<-|[<-|[]]]]]];
    [ exact (N1 _ He0) | exact (N2 _ He0) | exact (N3 _ He0)
    | exact (N4 _ He0) | exact (N5 _ He0) ].
Qed.

(** C8 (unreadable files), as the code has it.  No extractor and no caller
    handles an error of [read_text]: when one of the five artifacts exists
    and cannot be read, the exception of the first such artifact, in the
    order [main] visits them, leaves [main], which returns no exit code; the
    output is the banner followed only by diagnostics of the extractors of
    the artifacts before it, and nothing is printed for the unreadable file
    itself. *)
Theorem unreadable_file_propagates fs :
  (exists p e, In p artifact_files /\ fs p = Unreadable e) ->
  exists pre p post e diag,
    artifact_files = pre ++ p :: post /\
    (forall q e', In q pre -> fs q <> Unreadable e') /\
    fs p = Unreadable e /\
    run fs = (Raised e, banner :: diag) /\
    (forall code out, run fs <> (Returned code, out)) /\
    Forall (fun l => In l (flat_map diagnostics_of pre)) diag.
Proof.
  intros H.
  destruct (extract_all_raises_at_first fs [banner] H)
    as (pre & p & post & e & diag & Hs & Hpre & He & R & F).
  exists pre, p, post, e, diag.
  assert (Hrun : run fs = (Raised e, banner :: diag))
    by (apply run_raises; exact R).
  repeat (split; [assumption|]).
  split; [|assumption]. intros code out E. rewrite Hrun in E. discriminate E.
Qed.

Lemma unreadable_file_propagates_witness :
  let fs := Scenario.delegating_setup_unreadable_dockerfile in
  (exists p e, In p artifact_files /\ fs p = Unreadable e) /\
  run fs = (Raised PermissionError,
            [banner; init_not_found_line; init_not_found_line]) /\
  exists pre p post e diag,
    artifact_files = pre ++ p :: post /\
    (forall q e', In q pre -> fs q <> Unreadable e') /\
    fs p = Unreadable e /\
    run fs = (Raised e, banner :: diag) /\
    (forall code out, run fs <> (Returned code, out)) /\
    Forall (fun l => In l (flat_map diagnostics_of pre)) diag.
Proof.
  intros fs.
  assert (H : exists p e, In p artifact_files /\ fs p = Unreadable e).
  { exists dockerfile, PermissionError.
    split; [right; right; right; left; reflexivity|].
    vm_compute; reflexivity. }
  split; [exact H|]. split; [vm_compute; reflexivity|].
  exact (unreadable_file_propagates fs H).
Defined.

(** C8 as the specification words it fails: with an unreadable
    [__init__.py] the run raises [PermissionError] right after the banner;
    [main] returns nothing and no diagnostic is printed. *)
Lemma unreadable_file_caught_counterexample :
  Scenario.unreadable_init init_file = Unreadable PermissionError /\
  run Scenario.unreadable_init = (Raised PermissionError, [banner]) /\
  ~ (exists code out, run Scenario.unreadable_init = (Returned code, out)).
Proof.
  split; [vm_compute; reflexivity|].
  assert (R : run Scenario.unreadable_init = (Raised PermissionError, [banner]))
    by (vm_compute; reflexivity).
  split; [exact R|]. intros (code & out & H). rewrite R in H. discriminate H.
Qed.

(** ** Silent computations *)

Lemma silent_ret A (a : A) : silent (ret a).
Proof. intros out; reflexivity. Qed.

Lemma silent_raise A e : silent (@raise A e).
Proof. intros out; reflexivity. Qed.

Lemma silent_bind A B (m : IO A) (f : A -> IO B) :
  silent m -> (forall a, silent (f a)) -> silent (bind m f).
Proof.
  intros Hm Hf out. unfold bind. rewrite (Hm out).
  pose proof (Hm []) as H0.
  destruct (m []) as [r0 o0]. simpl in H0. inversion H0; subst o0. simpl fst.
  destruct r0 as [a|e]; [apply Hf | reflexivity].
Qed.

Lemma dockerfile_silent fs : silent (extract_version_from_dockerfile fs).
Proof.
  intros out. destruct (fs dockerfile) as [|content|e] eqn:E.
  - rewrite !(dockerfile_absent _ _ E); reflexivity.
  - rewrite !(dockerfile_text _ _ E); reflexivity.
  - rewrite !(dockerfile_unreadable _ _ E); reflexivity.
Qed.

Lemma workflow_silent fs : silent (extract_version_from_github_workflow fs).
Proof.
  intros out. destruct (fs workflow_file) as [|content|e] eqn:E.
  - rewrite !(workflow_absent _ _ E); reflexivity.
  - rewrite !(workflow_text _ _ E); reflexivity.
  - rewrite !(workflow_unreadable _ _ E); reflexivity.
Qed.

(** ** The workflow pattern and longer keys *)

(** C9.  The workflow pattern is not anchored to a key: in a workflow whose
    only [VERSION:] is the end of the key [PYTHON_VERSION:], the CIWorkflow
    extractor returns the value of that key, [3.11]. *)
Theorem workflow_matches_key_suffix :
  contains (lit "PYTHON_VERSION: 3.11") Scenario.python_version_workflow = true
  /\ occurrences (lit "PYTHON_VERSION:") Scenario.python_version_workflow
     = [7%nat]
  /\ occurrences (lit "VERSION:") Scenario.python_version_workflow
     = [14%nat]
  /\ forall fs out,
       fs workflow_file = Text Scenario.python_version_workflow ->
       extract_version_from_github_workflow fs out =
       (Returned (Some (lit "3.11")), out).
Proof.
  split; [vm_compute; reflexivity|].
  split; [vm_compute; reflexivity|].
  split; [vm_compute; reflexivity|].
  intros fs out E. rewrite (workflow_text _ _ E).
  replace (group_1 (Re.search workflow_pattern Scenario.python_version_workflow))
    with (Some (lit "3.11")) by (vm_compute; reflexivity).
  reflexivity.
Qed.

Lemma workflow_matches_key_suffix_witness :
  Scenario.with_python_version_workflow workflow_file
  = Text Scenario.python_version_workflow /\
  extract_version_from_github_workflow Scenario.with_python_version_workflow []
  = (Returned (Some (lit "3.11")), []).
Proof.
  assert (H : Scenario.with_python_version_workflow workflow_file
              = Text Scenario.python_version_workflow)
    by (vm_compute; reflexivity).
  split; [exact H|].
  exact (proj2 (proj2 (proj2 workflow_matches_key_suffix)) _ [] H).
Defined.

(** ** Delegation from [setup.py] to [__init__.py] *)

Lemma extract_all_delegating fs content out :
  fs init_file = Absent ->
  fs setup_file = Text content ->
  Re.search setup_pattern content = None ->
  contains (lit "find_version()") content = true ->
  (forall e, fs pyproject_file <> Unreadable e) ->
  exists r d,
    extract_all fs out =
    (r, out ++ [init_not_found_line] ++ d ++ [init_not_found_line]) /\
    ~ In init_not_found_line d.
Proof.
  intros E1 E3 Hs Hc N2. unfold extract_all.
  erewrite bind_returned by (apply init_absent; exact E1).
  assert (R2 : exists b d,
             extract_version_from_pyproject fs (out ++ [init_not_found_line])
             = (Returned b, (out ++ [init_not_found_line]) ++ d) /\
             ~ In init_not_found_line d).
  { destruct (fs pyproject_file) as [|c|e] eqn:E2.
    - rewrite (pyproject_absent _ _ E2). eexists; eexists; split; [reflexivity|].
      intros [H|[]]. vm_compute in H. discriminate H.
    - rewrite (pyproject_text _ _ E2). destruct (Re.search _ c).
      + exists (Re.group1 s), []. rewrite app_nil_r. auto.
      + eexists; eexists; split; [reflexivity|].
        intros [H|[]]. vm_compute in H. discriminate H.
    - destruct (N2 e); reflexivity. }
  destruct R2 as (b & d & R2 & Hd).
  erewrite bind_returned by exact R2.
  erewrite bind_returned
    by (rewrite (setup_text _ _ E3), Hs, Hc; apply init_absent; exact E1).
  match goal with
  | |- exists r d', ?tail ?o = _ /\ _ =>
      assert (Ht : silent tail)
  end.
  { apply silent_bind; [apply dockerfile_silent|]. intros v4.
    apply silent_bind; [apply workflow_silent|]. intros v5. apply silent_ret. }
  rewrite Ht. eexists; exists d. split; [|exact Hd].
  f_equal. rewrite <- !app_assoc. reflexivity.
Qed.

Lemma verdict_lines_fresh d :
  verdict_lines d -> ~ In init_not_found_line d.
Proof.
  intros V Hin. destruct V; simpl in Hin.
  - destruct Hin as [H|[]]. vm_compute in H; discriminate H.
  - destruct Hin as [H|Hin]; [vm_compute in H; discriminate H|].
    apply in_app_or in Hin. destruct Hin as [Hin|[H|[]]].
    + apply in_map_iff in Hin. destruct Hin as (kv & H & _).
      vm_compute in H; discriminate H.
    + vm_compute in H; discriminate H.
  - destruct Hin as [H|[H|[]]]; vm_compute in H; discriminate H.
  - destruct Hin as [H|[]]. vm_compute in H; discriminate H.
  - destruct Hin as [H|[H|[]]]; vm_compute in H; discriminate H.
Qed.

(** C10, with the readability of [pyproject.toml] made explicit.  When
    [__init__.py] does not exist, [setup.py] exists without a [version=]
    assignment and with the text [find_version()], and [pyproject.toml] is
    absent or readable, the line [... __init__.py not found] is printed
    exactly twice in the run, and the PackageInit and SetupScript extractors
    both return nothing. *)
Theorem delegation_prints_twice fs content :
  fs init_file = Absent ->
  fs setup_file = Text content ->
  Re.search setup_pattern content = None ->
  contains (lit "find_version()") content = true ->
  (forall e, fs pyproject_file <> Unreadable e) ->
  count_occ str_eq_dec (stdout fs) init_not_found_line = 2%nat
  /\ (forall out,
         extract_version_from_init fs out =
         (Returned None, out ++ [init_not_found_line]))
  /\ (forall out,
         extract_version_from_setup fs out =
         (Returned None, out ++ [init_not_found_line])).
Proof.
  intros E1 E3 Hs Hc N2.
  split; [|split].
  - destruct (@extract_all_delegating fs content [banner] E1 E3 Hs Hc N2)
      as (r & d & R & Hd).
    assert (Hout : exists d',
               stdout fs = [banner] ++ [init_not_found_line] ++ d
                                    ++ [init_not_found_line] ++ d' /\
               ~ In init_not_found_line d').
    { unfold stdout. destruct r as [versions|e].
      - rewrite (run_collects R).
        destruct (reconcile_emits versions
                    ([banner] ++ [init_not_found_line] ++ d
                              ++ [init_not_found_line]))
          as (code & d' & -> & V).
        exists d'. split; [|apply verdict_lines_fresh; assumption].
        simpl. rewrite <- !app_assoc. reflexivity.
      - rewrite (run_raises _ R). exists []. split; [|intros []].
        simpl. reflexivity. }
    destruct Hout as (d' & -> & Hd').
    rewrite !count_occ_app.
    rewrite (proj1 (count_occ_not_In str_eq_dec d _) Hd).
    rewrite (proj1 (count_occ_not_In str_eq_dec d' _) Hd').
    vm_compute. reflexivity.
  - intros out. apply init_absent; assumption.
  - intros out. rewrite (setup_text _ _ E3), Hs, Hc.
    apply init_absent; assumption.
Qed.

Lemma delegation_prints_twice_witness :
  count_occ str_eq_dec (stdout Scenario.delegating_setup) init_not_found_line
  = 2%nat.
Proof.
  refine (proj1 (@delegation_prints_twice Scenario.delegating_setup
                   (lines [lit "from setuptools import setup";
                           lit "setup(name='pkg', version_info=find_version())"])
                   _ _ _ _ _)).
  - vm_compute; reflexivity.
  - vm_compute; reflexivity.
  - vm_compute; reflexivity.
  - vm_compute; reflexivity.
  - intros e H. vm_compute in H. discriminate H.
Defined.

(** C10 as stated fails when [pyproject.toml] exists and cannot be read:
    the run raises in the BuildManifest extractor, before the SetupScript
    extractor is called, and the line is printed once. *)
Lemma delegation_prints_twice_counterexample :
  let fs := Scenario.delegating_setup_unreadable_pyproject in
  let content := lines [lit "from setuptools import setup";
                        lit "setup(name='pkg', version_info=find_version())"] in
  fs init_file = Absent /\
  fs setup_file = Text content /\
  Re.search setup_pattern content = None /\
  contains (lit "find_version()") content = true /\
  run fs = (Raised PermissionError, [banner; init_not_found_line]) /\
  count_occ str_eq_dec (stdout fs) init_not_found_line = 1%nat.
Proof. repeat split; vm_compute; reflexivity. Qed.

(** ** Optional artifacts *)

Lemma init_yields fs v out :
  yields fs init_file init_pattern v ->
  extract_version_from_init fs out = (Returned (Some v), out).
Proof.
  intros (content & E & Hv). rewrite (init_text _ _ E).
  destruct (Re.search init_pattern content); simpl in Hv; [|discriminate].
  rewrite Hv. reflexivity.
Qed.

Lemma pyproject_yields fs v out :
  yields fs pyproject_file pyproject_pattern v ->
  extract_version_from_pyproject fs out = (Returned (Some v), out).
Proof.
  intros (content & E & Hv). rewrite (pyproject_text _ _ E).
  destruct (Re.search pyproject_pattern content); simpl in Hv; [|discriminate].
  rewrite Hv. reflexivity.
Qed.

(** With a version in [__init__.py], the SetupScript extractor prints
    nothing, delegation included. *)
Lemma setup_silent fs v :
  yields fs init_file init_pattern v ->
  silent (extract_version_from_setup fs).
Proof.
  intros Hy out. destruct (fs setup_file) as [|content|e] eqn:E.
  - rewrite !(setup_absent _ _ E); reflexivity.
  - rewrite !(setup_text _ _ E).
    destruct (Re.search setup_pattern content); [reflexivity|].
    destruct (contains _ content); [|reflexivity].
    rewrite !(init_yields _ Hy). reflexivity.
  - rewrite !(setup_unreadable _ _ E); reflexivity.
Qed.

Lemma extract_all_agree fs v out :
  mandatory_agree fs v ->
  extract_all fs out =
  match fst (extract_version_from_setup fs []) with
  | Raised x => (Raised x, out)
  | Returned c =>
      match fst (extract_version_from_dockerfile fs []) with
      | Raised x => (Raised x, out)
      | Returned d =>
          match fst (extract_version_from_github_workflow fs []) with
          | Raised x => (Raised x, out)
          | Returned e => (Returned (agreeing v c d e), out)
          end
      end
  end.
Proof.
  intros (Hi & Hp & _). unfold extract_all.
  erewrite bind_returned by (apply init_yields; exact Hi).
  erewrite bind_returned by (apply pyproject_yields; exact Hp).
  unfold bind.
  rewrite (setup_silent Hi out).
  destruct (fst (extract_version_from_setup fs [])) as [c|x]; [|reflexivity].
  rewrite (dockerfile_silent fs out).
  destruct (fst (extract_version_from_dockerfile fs [])) as [d|x];
    [|reflexivity].
  rewrite (workflow_silent fs out).
  destruct (fst (extract_version_from_github_workflow fs [])) as [e|x];
    reflexivity.
Qed.

Lemma agreeing_success v c d e out :
  validate_version_format v = true ->
  absent_or v c -> absent_or v d -> absent_or v e ->
  reconcile (agreeing v c d e) out =
  (Returned 0%Z,
   out ++ [consistent_line v;
           found_in_line (map fst (found_of (agreeing v c d e)))]).
Proof.
  intros Hok Hc Hd He.
  rewrite (@reconcile_unanimous _ out v).
  - rewrite Hok. cbn [negb].
    replace (missing_of (found_of (agreeing v c d e))) with (@nil str);
      [reflexivity|].
    symmetry. apply missing_of_nil. split; reflexivity.
  - discriminate.
  - intros [file version] Hin. simpl.
    destruct Hc as [-> | ->], Hd as [-> | ->], He as [-> | ->];
      simpl in Hin; intuition (try congruence).
Qed.

Lemma agreeing_success_inv v c d e out out' :
  reconcile (agreeing v c d e) out = (Returned 0%Z, out') ->
  absent_or v c /\ absent_or v d /\ absent_or v e.
Proof.
  intros R.
  destruct (reconcile_cases (agreeing v c d e) out)
    as [[_ R']|[[_ R']|(v' & _ & Hall & [[_ R']|[(_ & _ & R')|(_ & _ & _)]])]];
    try (rewrite R' in R; discriminate R).
  assert (v = v') by (apply (Hall (lit "__init__.py")); left; reflexivity).
  subst v'. unfold absent_or.
  repeat split.
  - destruct c as [x|]; [right|left; reflexivity].
    f_equal. apply (Hall (lit "setup.py")). simpl; auto.
  - destruct d as [x|]; [right|left; reflexivity].
    f_equal. apply (Hall (lit "Dockerfile")).
    destruct c; simpl; auto.
  - destruct e as [x|]; [right|left; reflexivity].
    f_equal. apply (Hall (lit "GitHub workflow")).
    destruct c, d; simpl; auto 6.
Qed.

Lemma mandatory_agree_remove fs v p :
  In p optional_files -> mandatory_agree fs v ->
  mandatory_agree (remove p fs) v.
Proof.
  intros Hp H. simpl in Hp.
  destruct Hp as [<-|[<-|[<-|[]]]]; exact H.
Qed.

Lemma run_agreeing fs v c d e :
  mandatory_agree fs v ->
  fst (extract_version_from_setup fs []) = Returned c ->
  fst (extract_version_from_dockerfile fs []) = Returned d ->
  fst (extract_version_from_github_workflow fs []) = Returned e ->
  run fs = reconcile (agreeing v c d e) [banner].
Proof.
  intros H Rc Rd Re. apply run_collects. unfold collects.
  rewrite (extract_all_agree [banner] H), Rc, Rd, Re. reflexivity.
Qed.

Lemma run_agreeing_success fs v c d e :
  mandatory_agree fs v ->
  fst (extract_version_from_setup fs []) = Returned c ->
  fst (extract_version_from_dockerfile fs []) = Returned d ->
  fst (extract_version_from_github_workflow fs []) = Returned e ->
  absent_or v c -> absent_or v d -> absent_or v e ->
  run fs = (Returned 0%Z,
            [ banner; consistent_line v;
              found_in_line (map fst (found_of (agreeing v c d e))) ]).
Proof.
  intros H Rc Rd Re Hc Hd He.
  rewrite (run_agreeing H Rc Rd Re).
  rewrite agreeing_success by (assumption || apply H). reflexivity.
Qed.

(** C6 (optional silence).  Let the two mandatory artifacts agree on a
    well-formed version [v].  An absent optional artifact makes its extractor
    return nothing without printing; if every optional artifact is absent or
    returns [v], the run succeeds and prints the banner and the two success
    lines only; and removing an optional artifact from a successful run
    leaves it successful, again with those three lines only. *)
Theorem optional_absence_is_silent fs v :
  mandatory_agree fs v ->
  (forall out, fs setup_file = Absent ->
               extract_version_from_setup fs out = (Returned None, out))
  /\ (forall out, fs dockerfile = Absent ->
                  extract_version_from_dockerfile fs out = (Returned None, out))
  /\ (forall out, fs workflow_file = Absent ->
                  extract_version_from_github_workflow fs out
                  = (Returned None, out))
  /\ (forall c d e,
         absent_or_yields fs setup_file (extract_version_from_setup fs) v c ->
         absent_or_yields fs dockerfile (extract_version_from_dockerfile fs) v d ->
         absent_or_yields fs workflow_file
                          (extract_version_from_github_workflow fs) v e ->
         run fs = (Returned 0%Z,
                   [ banner; consistent_line v;
                     found_in_line (map fst (found_of (agreeing v c d e))) ]))
  /\ (forall p,
         In p optional_files -> exit_code fs = 0%Z ->
         exists c d e,
           run (remove p fs) =
           (Returned 0%Z,
            [ banner; consistent_line v;
              found_in_line (map fst (found_of (agreeing v c d e))) ])).
Proof.
  intros H.
  split; [intros out E; apply setup_absent; exact E|].
  split; [intros out E; apply dockerfile_absent; exact E|].
  split; [intros out E; apply workflow_absent; exact E|].
  split.
  - intros c d e Hc Hd He.
    apply run_agreeing_success; try assumption.
    + destruct Hc as [[E ->]|[R ->]]; [rewrite (setup_absent _ _ E)|]; auto.
    + destruct Hd as [[E ->]|[R ->]]; [rewrite (dockerfile_absent _ _ E)|]; auto.
    + destruct He as [[E ->]|[R ->]]; [rewrite (workflow_absent _ _ E)|]; auto.
    + destruct Hc as [[_ ->]|[_ ->]]; [left|right]; reflexivity.
    + destruct Hd as [[_ ->]|[_ ->]]; [left|right]; reflexivity.
    + destruct He as [[_ ->]|[_ ->]]; [left|right]; reflexivity.
  - intros p Hp H0. unfold exit_code in H0.
    (* the successful run on [fs] *)
    assert (Hres : exists c d e,
               fst (extract_version_from_setup fs []) = Returned c /\
               fst (extract_version_from_dockerfile fs []) = Returned d /\
               fst (extract_version_from_github_workflow fs []) = Returned e /\
               absent_or v c /\ absent_or v d /\ absent_or v e).
    { pose proof (extract_all_agree [banner] H) as R.
      destruct (fst (extract_version_from_setup fs [])) as [c|x];
        [|rewrite (run_raises _ R) in H0; discriminate H0] .
      destruct (fst (extract_version_from_dockerfile fs [])) as [d|x];
        [|rewrite (run_raises _ R) in H0; discriminate H0].
      destruct (fst (extract_version_from_github_workflow fs [])) as [e|x];
        [|rewrite (run_raises _ R) in H0; discriminate H0].
      exists c, d, e. repeat (split; [reflexivity|]).
      pose proof (run_collects R) as Hrun.
      destruct (reconcile_emits (agreeing v c d e) [banner])
        as (code & l & R' & _).
      rewrite R' in Hrun. rewrite Hrun in H0.
      simpl in H0. subst code.
      exact (@agreeing_success_inv _ _ _ _ _ _ R'). }
    destruct Hres as (c & d & e & Rc & Rd & Re & Hc & Hd & He).
    pose proof (mandatory_agree_remove Hp H) as H'.
    simpl in Hp. destruct Hp as [<-|[<-|[<-|[]]]].
    + exists None, d, e. apply run_agreeing_success; try assumption.
      * rewrite setup_absent; reflexivity.
      * left; reflexivity.
    + exists c, None, e. apply run_agreeing_success; try assumption.
      * rewrite dockerfile_absent; reflexivity.
      * left; reflexivity.
    + exists c, d, None. apply run_agreeing_success; try assumption.
      * rewrite workflow_absent; reflexivity.
      * left; reflexivity.
Qed.

Lemma optional_absence_is_silent_witness :
  mandatory_agree (Scenario.agree (lit "1.2.3")) (lit "1.2.3") /\
  run (Scenario.agree (lit "1.2.3")) =
  (Returned 0%Z,
   [ banner; consistent_line (lit "1.2.3");
     found_in_line [lit "__init__.py"; lit "pyproject.toml"] ]) /\
  mandatory_agree (Scenario.all_agree (lit "2.0.0-rc.1")) (lit "2.0.0-rc.1") /\
  exit_code (Scenario.all_agree (lit "2.0.0-rc.1")) = 0%Z /\
  exists c d e,
    run (remove dockerfile (Scenario.all_agree (lit "2.0.0-rc.1"))) =
    (Returned 0%Z,
     [ banner; consistent_line (lit "2.0.0-rc.1");
       found_in_line
         (map fst (found_of (agreeing (lit "2.0.0-rc.1") c d e))) ]).
Proof.
  assert (H1 : mandatory_agree (Scenario.agree (lit "1.2.3")) (lit "1.2.3")).
  { split; [|split];
      [ eexists; split; [vm_compute; reflexivity | vm_compute; reflexivity] ..
      | vm_compute; reflexivity ]. }
  assert (H2 : mandatory_agree (Scenario.all_agree (lit "2.0.0-rc.1"))
                               (lit "2.0.0-rc.1")).
  { split; [|split];
      [ eexists; split; [vm_compute; reflexivity | vm_compute; reflexivity] ..
      | vm_compute; reflexivity ]. }
  assert (H3 : exit_code (Scenario.all_agree (lit "2.0.0-rc.1")) = 0%Z)
    by (vm_compute; reflexivity).
  split; [exact H1|]. split.
  - refine (proj1 (proj2 (proj2 (proj2 (optional_absence_is_silent H1))))
              None None None _ _ _);
      left; split; vm_compute; reflexivity.
  - split; [exact H2|]. split; [exact H3|].
    refine (proj2 (proj2 (proj2 (proj2 (optional_absence_is_silent H2))))
              dockerfile _ H3).
    simpl; auto.
Defined.

(* ================================================================== *)
(** * The matcher and what patterns match *)

Module ReFacts.
Import Re.

Lemma last_char_app p w1 w2 :
  last_char p (w1 ++ w2) = last_char (last_char p w1) w2.
Proof. revert p; induction w1 as [|c w1 IH]; intros p; simpl; auto. Qed.

Lemma after_nil st : after st [] (rest st) = st.
Proof. destruct st; reflexivity. Qed.

Lemma after_after st w1 w2 f :
  after (after st w1 (w2 ++ f)) w2 f = after st (w1 ++ w2) f.
Proof. unfold after; simpl. rewrite last_char_app. reflexivity. Qed.

Lemma or_else_some A (a b : option A) :
  match a with Some x => Some x | None => b end <> None <->
  a <> None \/ b <> None.
Proof.
  destruct a; split; intros H; try tauto; try discriminate.
Qed.

Lemma app_shorter (w f : str) :
  (length f <? length (w ++ f))%nat = true <-> w <> [].
Proof.
  rewrite Nat.ltb_lt, length_app.
  destruct w; simpl; split; intros H; try lia; congruence.
Qed.

Section Correct.
Variable A : Type.

Lemma iterate_accepts r :
  accepts A r ->
  forall fuel st (k : state -> option A),
    (length (rest st) <= fuel)%nat ->
    iterate (exec r) fuel st k <> None <->
    exists w f,
      rest st = w ++ f /\ matches (Star r) (prev st) w f /\
      k (after st w f) <> None.
Proof.
  unfold accepts. intros Hr fuel. induction fuel as [|n IH]; intros st k Hlen.
  - assert (E : rest st = []) by (destruct (rest st); simpl in *; [auto|lia]).
    pose proof (after_nil st) as Ea. rewrite E in Ea.
    simpl. split.
    + intros H. exists [], []. rewrite E, Ea. repeat split; [constructor|].
      assumption.
    + intros (w & f & Ew & _ & H). rewrite E in Ew.
      symmetry in Ew. apply app_eq_nil in Ew. destruct Ew as [-> ->].
      rewrite Ea in H. assumption.
  - cbn [iterate]. rewrite or_else_some, Hr. split.
    + intros [(w1 & f1 & E1 & M1 & H1)|H].
      * cbn [after rest] in H1.
        destruct (length f1 <? length (rest st))%nat eqn:Hlt; [|congruence].
        apply IH in H1; [|cbn [after rest]; apply Nat.ltb_lt in Hlt; lia].
        destruct H1 as (w2 & f & E2 & M2 & H2).
        cbn [after rest prev] in E2, M2. subst f1.
        rewrite E1 in Hlt. apply app_shorter in Hlt.
        exists (w1 ++ w2), f. rewrite <- app_assoc. split; [assumption|].
        split; [apply M_Star_more; assumption|].
        rewrite <- after_after. assumption.
      * exists [], (rest st). split; [reflexivity|]. split; [constructor|].
        rewrite after_nil; assumption.
    + intros (w & f & E & M & H). inversion M; subst.
      * right. simpl in E. subst f. rewrite after_nil in H. assumption.
      * left. exists w1, (w2 ++ f). rewrite <- app_assoc in E.
        split; [assumption|]. split; [assumption|].
        cbn [after rest]. rewrite E.
        rewrite (proj2 (app_shorter w1 (w2 ++ f))) by assumption.
        apply IH.
        -- cbn [after rest]. rewrite E, length_app in Hlen.
           destruct w1; [congruence|]. simpl in Hlen. lia.
        -- exists w2, f. cbn [after rest prev]. split; [reflexivity|].
           split; [assumption|].
           rewrite after_after. assumption.
Qed.

Theorem exec_accepts r : group_free r = true -> accepts A r.
Proof.
  induction r as [ |c|negate items|r1 IH1 r2 IH2|r1 IH1|r1 IH1|r1 IH1|r1 IH1| | | ];
    unfold accepts in *; intros G st k; simpl in G.
  - (* Eps *)
    simpl. split.
    + intros H. exists [], (rest st). rewrite after_nil. repeat split; auto.
      constructor.
    + intros (w & f & E & M & H). inversion M; subst. simpl in E; subst f.
      rewrite after_nil in H. assumption.
  - (* Lit *)
    simpl. split.
    + intros H. destruct (rest st) as [|x t] eqn:E; [congruence|].
      destruct (N.eqb_spec x c) as [->|]; [|congruence].
      exists [c], t. repeat split; auto. constructor.
    + intros (w & f & E & M & H). inversion M; subst.
      rewrite E. simpl. rewrite N.eqb_refl. assumption.
  - (* In *)
    simpl. split.
    + intros H. destruct (rest st) as [|x t] eqn:E; [congruence|].
      destruct (in_set negate items x) eqn:S; [|congruence].
      exists [x], t. repeat split; auto. constructor; assumption.
    + intros (w & f & E & M & H). inversion M; subst.
      rewrite E. simpl.
      match goal with S : in_set _ _ _ = true |- _ => rewrite S end.
      assumption.
  - (* Cat *)
    apply andb_true_iff in G. destruct G as [G1 G2].
    simpl. rewrite (IH1 G1). split.
    + intros (w1 & f1 & E1 & M1 & H1). apply (IH2 G2) in H1.
      destruct H1 as (w2 & f & E2 & M2 & H2).
      cbn [after rest prev] in E2, M2. subst f1.
      exists (w1 ++ w2), f. rewrite <- app_assoc. split; [assumption|].
      split; [constructor; assumption|].
      rewrite <- after_after. assumption.
    + intros (w & f & E & M & H). inversion M; subst.
      exists w1, (w2 ++ f). rewrite <- app_assoc in E.
      split; [assumption|]. split; [assumption|].
      apply (IH2 G2). exists w2, f. cbn [after rest prev].
      split; [reflexivity|]. split; [assumption|].
      rewrite after_after. assumption.
  - (* Star *)
    simpl. apply iterate_accepts; [exact (IH1 G) | apply le_n].
  - (* Plus *)
    simpl. rewrite (IH1 G). split.
    + intros (w1 & f1 & E1 & M1 & H1).
      apply (iterate_accepts (IH1 G)) in H1; [|apply le_n].
      destruct H1 as (w2 & f & E2 & M2 & H2).
      cbn [after rest prev] in E2, M2. subst f1.
      exists (w1 ++ w2), f. rewrite <- app_assoc. split; [assumption|].
      split; [constructor; assumption|].
      rewrite <- after_after. assumption.
    + intros (w & f & E & M & H). inversion M; subst.
      exists w1, (w2 ++ f). rewrite <- app_assoc in E.
      split; [assumption|]. split; [assumption|].
      apply (iterate_accepts (IH1 G)); [apply le_n|].
      exists w2, f. cbn [after rest prev].
      split; [reflexivity|]. split; [assumption|].
      rewrite after_after. assumption.
  - (* Opt *)
    simpl. rewrite or_else_some, (IH1 G). split.
    + intros [(w & f & E & M & H)|H].
      * exists w, f. repeat split; auto. constructor; assumption.
      * exists [], (rest st). rewrite after_nil. repeat split; auto.
        apply M_Opt_none.
    + intros (w & f & E & M & H). inversion M; subst.
      * left. exists w, f. auto.
      * right. simpl in E; subst f. rewrite after_nil in H. assumption.
  - (* Group *) discriminate.
  - (* AtBeginning *)
    simpl. unfold at_beginning. split.
    + intros H. destruct (prev st) eqn:P; [congruence|].
      exists [], (rest st). rewrite after_nil. repeat split; auto. constructor.
    + intros (w & f & E & M & H). inversion M; subst.
      simpl in E; subst f. rewrite after_nil in H. assumption.
  - (* AtBeginningLine *)
    simpl. unfold at_beginning_line. split.
    + intros H. exists [], (rest st). rewrite after_nil.
      split; [reflexivity|]. split; [|destruct (prev st) as [c|]; [destruct (N.eqb_spec c NEWLINE)|]; congruence].
      constructor. destruct (prev st) as [c|]; [|auto].
      destruct (N.eqb_spec c NEWLINE); [subst; auto | congruence].
    + intros (w & f & E & M & H). inversion M; subst.
      simpl in E; subst f. rewrite after_nil in H.
      match goal with P : _ \/ _ |- _ => destruct P as [P|P]; rewrite P end;
        [assumption | rewrite N.eqb_refl; assumption].
  - (* AtEnd *)
    simpl. unfold at_end. split.
    + intros H. exists [], (rest st). rewrite after_nil.
      split; [reflexivity|]. split; [|destruct (rest st) as [|c [|? ?]]; [ |destruct (N.eqb_spec c NEWLINE)|]; congruence].
      constructor. destruct (rest st) as [|c [|? ?]]; [auto| |congruence].
      destruct (N.eqb_spec c NEWLINE); [subst; auto | congruence].
    + intros (w & f & E & M & H). inversion M; subst.
      simpl in E; subst f. rewrite after_nil in H.
      match goal with P : _ \/ _ |- _ => destruct P as [P|P]; rewrite P end;
        [assumption | rewrite N.eqb_refl; assumption].
Qed.
End Correct.

End ReFacts.

(* ================================================================== *)
(** * The Format Validator *)

Module SemverFacts.
Import Re Semver.

Lemma matches_set_star negate items p w f :
  matches (Star (In negate items)) p w f <->
  all_of (in_set negate items) w.
Proof.
  unfold all_of. split.
  - intros M. remember (Star (In negate items)) as r eqn:Er.
    induction M; try discriminate; inversion Er; subst.
    + constructor.
    + match goal with M1 : matches (In _ _) _ _ _ |- _ => inversion M1; subst end.
      simpl. constructor; auto.
  - revert p. induction w as [|c w IH]; intros p Hall.
    + constructor.
    + inversion Hall; subst. change (c :: w) with ([c] ++ w).
      apply M_Star_more; [discriminate | constructor; assumption | auto].
Qed.

Lemma matches_set_plus negate items p w f :
  matches (Plus (In negate items)) p w f <->
  w <> [] /\ all_of (in_set negate items) w.
Proof.
  split.
  - intros M. inversion M; subst.
    match goal with M1 : matches (In _ _) _ _ _ |- _ => inversion M1; subst end.
    split; [discriminate|]. constructor; [assumption|].
    eapply matches_set_star; eassumption.
  - intros [Hne Hall]. destruct w as [|c w]; [congruence|].
    inversion Hall; subst. change (c :: w) with ([c] ++ w).
    constructor; [constructor; assumption|].
    apply matches_set_star; assumption.
Qed.

Lemma digit_set c : in_set false [Digit] c = decimal_digit c.
Proof. unfold in_set, decimal_digit. simpl. apply orb_false_r. Qed.

Lemma ident_set c :
  in_set false [Rng (ord "a") (ord "z"); Rng (ord "A") (ord "Z");
                Rng (ord "0") (ord "9"); Chr (ord "-")] c
  = alphanumeric_or_hyphen c.
Proof.
  unfold in_set, alphanumeric_or_hyphen. simpl.
  rewrite orb_false_r, !orb_assoc. reflexivity.
Qed.

Lemma all_of_ext (P Q : char -> bool) w :
  (forall c, P c = Q c) -> all_of P w <-> all_of Q w.
Proof.
  intros H. unfold all_of. rewrite !Forall_forall.
  split; intros Hw c Hc; [rewrite <- H | rewrite H]; auto.
Qed.

Lemma matches_component p w f :
  matches (Plus digit) p w f <-> component w.
Proof.
  unfold digit, component. rewrite matches_set_plus.
  rewrite (all_of_ext _ _ w digit_set). reflexivity.
Qed.

Lemma matches_identifier p w f :
  matches (Plus ident_char) p w f <-> identifier w.
Proof.
  unfold ident_char, identifier. rewrite matches_set_plus.
  rewrite (all_of_ext _ _ w ident_set). reflexivity.
Qed.

Lemma join_cons (i : str) (ids : list str) :
  join [DOT] (i :: ids) = i ++ dotted_tail ids.
Proof.
  revert i. induction ids as [|j ids IH]; intros i.
  - simpl. rewrite app_nil_r. reflexivity.
  - change (join [DOT] (i :: j :: ids)) with (i ++ [DOT] ++ join [DOT] (j :: ids)).
    rewrite IH. reflexivity.
Qed.

Lemma matches_dotted_tail p w f :
  matches (Star (Lit (ord ".") @@ Plus ident_char)) p w f <->
  exists ids, Forall identifier ids /\ w = dotted_tail ids.
Proof.
  split.
  - intros M. remember (Star (Lit (ord ".") @@ Plus ident_char)) as r eqn:Er.
    induction M; try discriminate; inversion Er; subst.
    + exists []. split; [constructor | reflexivity].
    + destruct (IHM2 eq_refl) as (ids & Hids & ->).
      match goal with M1 : matches (Cat _ _) _ _ _ |- _ => inversion M1; subst end.
      match goal with M1 : matches (Lit _) _ _ _ |- _ => inversion M1; subst end.
      match goal with
        M1 : matches (Plus ident_char) _ ?i _ |- _ =>
          apply matches_identifier in M1; exists (i :: ids)
      end.
      split; [constructor; assumption | reflexivity].
  - intros (ids & Hids & ->). revert p.
    induction Hids as [|i ids Hi Hids IH]; intros p.
    + constructor.
    + change (dotted_tail (i :: ids)) with (([DOT] ++ i) ++ dotted_tail ids).
      apply M_Star_more; [discriminate | | apply IH].
      constructor; [constructor | apply matches_identifier; assumption].
Qed.

Lemma matches_identifiers p w f :
  matches identifiers p w f <->
  exists ids, ids <> [] /\ Forall identifier ids /\ w = join [DOT] ids.
Proof.
  unfold identifiers. split.
  - intros M. inversion M; subst.
    match goal with M1 : matches (Plus ident_char) _ _ _ |- _ =>
      apply matches_identifier in M1 end.
    match goal with M2 : matches (Star _) _ _ _ |- _ =>
      apply matches_dotted_tail in M2; destruct M2 as (ids & Hids & ->) end.
    exists (w1 :: ids). split; [discriminate|].
    split; [constructor; assumption | symmetry; apply join_cons].
  - intros (ids & Hne & Hids & ->). destruct ids as [|i ids]; [congruence|].
    inversion Hids; subst. rewrite join_cons.
    constructor; [apply matches_identifier; assumption|].
    apply matches_dotted_tail. eauto.
Qed.

Lemma matches_suffix mark p w f :
  matches (Opt (Lit mark @@ identifiers)) p w f <-> suffix mark w.
Proof.
  unfold suffix. split.
  - intros M. inversion M; subst; [|left; reflexivity].
    right.
    match goal with M1 : matches (Cat _ _) _ _ _ |- _ => inversion M1; subst end.
    match goal with M1 : matches (Lit _) _ _ _ |- _ => inversion M1; subst end.
    match goal with M1 : matches identifiers _ _ _ |- _ =>
      apply matches_identifiers in M1;
      destruct M1 as (ids & Hne & Hids & ->) end.
    exists ids. auto.
  - intros [->|(ids & Hne & Hids & ->)]; [apply M_Opt_none|].
    apply M_Opt_some. change (mark :: join [DOT] ids)
      with ([mark] ++ join [DOT] ids).
    constructor; [constructor|]. apply matches_identifiers. eauto.
Qed.

(** What the whole pattern matches: a well-formed version at the start of
    the string, followed by nothing or by one final newline. *)
Lemma matches_semver p w f :
  matches semver_pattern p w f <->
  p = None /\ (f = [] \/ f = [NEWLINE]) /\ well_formed w.
Proof.
  unfold semver_pattern. split.
  - intros M.
    repeat match goal with
           | M1 : matches (Cat _ _) _ _ _ |- _ => inversion M1; clear M1; subst
           end.
    repeat match goal with
           | M1 : matches (Lit _) _ _ _ |- _ => inversion M1; clear M1; subst
           | M1 : matches AtBeginning _ _ _ |- _ => inversion M1; clear M1; subst
           | M1 : matches AtEnd _ _ _ |- _ => inversion M1; clear M1; subst
           | M1 : matches (Plus digit) _ _ _ |- _ => apply matches_component in M1
           | M1 : matches (Opt _) _ _ _ |- _ => apply matches_suffix in M1
           end.
    split; [reflexivity|]. split; [assumption|].
    unfold well_formed.
    match goal with
    | |- exists _ _ _ _ _, _ /\ _ /\ _ /\ _ /\ _ /\
           [] ++ ?a ++ _ ++ ?b ++ _ ++ ?c ++ ?d ++ ?e ++ [] = _ =>
        exists a, b, c, d, e
    end.
    repeat (split; [assumption|]).
    simpl. rewrite app_nil_r. reflexivity.
  - intros (-> & Hf & major & minor & patch & pre & build
            & H1 & H2 & H3 & H4 & H5 & ->).
    change (major ++ [DOT] ++ minor ++ [DOT] ++ patch ++ pre ++ build)
      with ([] ++ major ++ [DOT] ++ minor ++ [DOT] ++ patch ++ pre ++ build).
    rewrite <- (app_nil_r build).
    repeat (apply M_Cat;
            [ first [ apply M_AtBeginning | apply M_Lit
                    | apply matches_component; assumption
                    | apply matches_suffix; assumption ] | ]).
    apply M_AtEnd; assumption.
Qed.

(** The validator, characterised: it accepts the well-formed versions and
    the well-formed versions followed by one newline, and nothing else. *)
Theorem validate_version_format_spec (s : str) :
  validate_version_format s = true <->
  well_formed s \/ exists v, well_formed v /\ s = v ++ [NEWLINE].
Proof.
  unfold validate_version_format, match_.
  assert (G : group_free semver_pattern = true) by reflexivity.
  pose proof (@ReFacts.exec_accepts state semver_pattern G (start s)
                (@Some state)) as Hx.
  split.
  - intros H.
    assert (Hn : exec semver_pattern (start s) (@Some state) <> None)
      by (destruct (exec _ _ _); [discriminate | discriminate H]).
    apply Hx in Hn. destruct Hn as (w & f & E & M & _).
    apply matches_semver in M. destruct M as (_ & [->| ->] & Hw).
    + left. simpl in E. rewrite app_nil_r in E. subst; assumption.
    + right. exists w. simpl in E. auto.
  - intros H.
    assert (Hn : exec semver_pattern (start s) (@Some state) <> None).
    { apply Hx. destruct H as [Hw|(v & Hw & ->)].
      - exists s, []. simpl. rewrite app_nil_r.
        split; [reflexivity|]. split; [|discriminate].
        apply matches_semver. auto.
      - exists v, [NEWLINE]. simpl.
        split; [reflexivity|]. split; [|discriminate].
        apply matches_semver. auto. }
    destruct (exec _ _ _); [reflexivity | congruence].
Qed.

End SemverFacts.

(** ** Trailing newline *)

Lemma version_char_component w :
  Semver.component w -> Semver.all_of Semver.version_char w.
Proof.
  intros [_ H]. unfold Semver.all_of in *. rewrite Forall_forall in *.
  intros c Hc. unfold Semver.version_char. rewrite (H c Hc). reflexivity.
Qed.

Lemma version_char_identifier w :
  Semver.identifier w -> Semver.all_of Semver.version_char w.
Proof.
  intros [_ H]. unfold Semver.all_of in *. rewrite Forall_forall in *.
  intros c Hc. unfold Semver.version_char. rewrite (H c Hc).
  rewrite orb_true_r. reflexivity.
Qed.

Lemma version_char_dotted_tail ids :
  Forall Semver.identifier ids ->
  Semver.all_of Semver.version_char (Semver.dotted_tail ids).
Proof.
  induction 1 as [|i ids Hi _ IH]; [constructor|].
  change (Semver.dotted_tail (i :: ids))
    with (Semver.DOT :: i ++ Semver.dotted_tail ids).
  constructor; [reflexivity|].
  apply Forall_app. split; [apply version_char_identifier; assumption | exact IH].
Qed.

Lemma version_char_suffix mark w :
  Semver.version_char mark = true ->
  Semver.suffix mark w -> Semver.all_of Semver.version_char w.
Proof.
  intros Hm [->|(ids & Hne & Hids & ->)]; [constructor|].
  destruct ids as [|i ids]; [congruence|]. inversion Hids; subst.
  rewrite SemverFacts.join_cons.
  constructor; [assumption|].
  apply Forall_app. split;
    [apply version_char_identifier | apply version_char_dotted_tail];
    assumption.
Qed.

(** A well-formed version holds digits, letters, hyphens, dots and plus
    signs only. *)
Lemma well_formed_chars s :
  Semver.well_formed s -> Semver.all_of Semver.version_char s.
Proof.
  intros (major & minor & patch & pre & build
          & H1 & H2 & H3 & H4 & H5 & ->).
  unfold Semver.all_of.
  repeat (apply Forall_app; split);
    try (apply version_char_component; assumption);
    try (constructor; [reflexivity | constructor]).
  - apply (version_char_suffix (mark := Semver.HYPHEN)); [reflexivity | assumption].
  - apply (version_char_suffix (mark := Semver.PLUS)); [reflexivity | assumption].
Qed.

Lemma well_formed_no_newline s :
  Semver.well_formed s -> ~ In NEWLINE s.
Proof.
  intros H Hin. apply well_formed_chars in H.
  unfold Semver.all_of in H. rewrite Forall_forall in H.
  specialize (H _ Hin). vm_compute in H. discriminate H.
Qed.

(** The examples of the specification. *)
Lemma validator_examples :
  map validate_version_format
      [ lit "1.0.0"; lit "2.3.4-alpha.1"; lit "1.0.0+build.5";
        lit "1.0.0-rc.1+exp.sha.abc" ] = [true; true; true; true]
  /\ map validate_version_format
         [ lit "1.0"; lit "v1.0.0"; lit "1.0.0 "; lit "1.0.0-" ]
     = [false; false; false; false].
Proof. split; vm_compute; reflexivity. Qed.

(** [\d] is not limited to ASCII: Arabic-Indic digits pass. *)
Lemma validator_accepts_non_ascii_digits :
  validate_version_format [0x661; ord "."; 0x660; ord "."; 0x660] = true.
Proof. vm_compute; reflexivity. Qed.

(** C3.  The validator accepts [1.0.0] followed by a newline, which is not of
    the form of the grammar: [$] also matches just before a final newline.
    The value reaches the validator in a run: with that text between the
    quotes of both mandatory files the run succeeds. *)
Theorem validator_accepts_trailing_newline :
  validate_version_format (lit "1.0.0" ++ [NEWLINE]) = true
  /\ ~ Semver.well_formed (lit "1.0.0" ++ [NEWLINE])
  /\ Semver.well_formed (lit "1.0.0")
  /\ run (Scenario.agree (lit "1.0.0" ++ [NEWLINE])) =
     (Returned 0%Z,
      [ banner; consistent_line (lit "1.0.0" ++ [NEWLINE]);
        found_in_line [lit "__init__.py"; lit "pyproject.toml"] ]).
Proof.
  split; [vm_compute; reflexivity|].
  split; [|split].
  - intros H. apply well_formed_no_newline in H. apply H.
    apply in_or_app; right; left; reflexivity.
  - assert (V : validate_version_format (lit "1.0.0") = true)
      by (vm_compute; reflexivity).
    apply SemverFacts.validate_version_format_spec in V.
    destruct V as [V|(v & Hv & E)]; [exact V|].
    exfalso. vm_compute in E.
    destruct v as [|? [|? [|? [|? [|? [|? ?]]]]]]; discriminate E.
  - vm_compute; reflexivity.
Qed.

(* ================================================================== *)
(** * The matcher and the capture *)

Module ReCaptureFacts.
Import Re ReCapture.

Lemma consumed_app st w f g' :
  rest st = w ++ f ->
  capture st (reached st w f g') = reached st w f (Some w).
Proof.
  intros E. unfold capture, reached, consumed. cbn [prev rest group1].
  rewrite E, length_app.
  replace (length w + length f - length f)%nat with (length w) by lia.
  rewrite firstn_app, Nat.sub_diag, firstn_all. simpl. rewrite app_nil_r.
  reflexivity.
Qed.

Lemma reached_nil st : reached st [] (rest st) (group1 st) = st.
Proof. destruct st; reflexivity. Qed.

Lemma reached_reached st w1 w2 f f1 g1 g2 :
  reached (reached st w1 f1 g1) w2 f g2 = reached st (w1 ++ w2) f g2.
Proof. unfold reached; simpl. rewrite ReFacts.last_char_app. reflexivity. Qed.

Lemma or_else_eq A (a b : option A) x :
  match a with Some y => Some y | None => b end = Some x ->
  a = Some x \/ b = Some x.
Proof. destruct a; auto. Qed.

Section Sound.
Variable A : Type.

Lemma iterate_sound r :
  sound A r ->
  forall fuel st (k : state -> option A) x,
    iterate (exec r) fuel st k = Some x ->
    exists w f g',
      rest st = w ++ f /\
      captures (Star r) (prev st) (group1 st) w f g' /\
      k (reached st w f g') = Some x.
Proof.
  unfold sound. intros Hr fuel.
  induction fuel as [|n IH]; intros st k x H.
  - simpl in H. exists [], (rest st), (group1 st).
    rewrite reached_nil. repeat split; [constructor | assumption].
  - cbn [iterate] in H. apply or_else_eq in H. destruct H as [H|H].
    + apply Hr in H. destruct H as (w1 & f1 & g1 & E1 & M1 & H1).
      cbn [reached rest] in H1.
      destruct (length f1 <? length (rest st))%nat eqn:Hlt; [|discriminate].
      apply IH in H1. destruct H1 as (w2 & f & g2 & E2 & M2 & H2).
      cbn [reached rest prev group1] in E2, M2. subst f1.
      rewrite E1 in Hlt. apply ReFacts.app_shorter in Hlt.
      exists (w1 ++ w2), f, g2. rewrite <- app_assoc. split; [assumption|].
      split; [eapply C_Star_more; eassumption|].
      rewrite reached_reached in H2. assumption.
    + exists [], (rest st), (group1 st).
      rewrite reached_nil. repeat split; [constructor | assumption].
Qed.

Theorem exec_sound r : sound A r.
Proof.
  induction r as [ |c|negate items|r1 IH1 r2 IH2|r1 IH1|r1 IH1|r1 IH1|r1 IH1| | | ];
    unfold sound in *; intros st k x H; simpl in H.
  - exists [], (rest st), (group1 st).
    rewrite reached_nil. repeat split; [constructor | assumption].
  - destruct (rest st) as [|y t] eqn:E; [discriminate|].
    destruct (N.eqb_spec y c) as [->|]; [|discriminate].
    exists [c], t, (group1 st). repeat split; [constructor | assumption].
  - destruct (rest st) as [|y t] eqn:E; [discriminate|].
    destruct (in_set negate items y) eqn:S; [|discriminate].
    exists [y], t, (group1 st).
    repeat split; [constructor; assumption | assumption].
  - apply IH1 in H. destruct H as (w1 & f1 & g1 & E1 & M1 & H1).
    apply IH2 in H1. destruct H1 as (w2 & f & g2 & E2 & M2 & H2).
    cbn [reached rest prev group1] in E2, M2. subst f1.
    exists (w1 ++ w2), f, g2. rewrite <- app_assoc. split; [assumption|].
    split; [econstructor; eassumption|].
    rewrite reached_reached in H2. assumption.
  - apply (iterate_sound IH1) in H. assumption.
  - apply IH1 in H. destruct H as (w1 & f1 & g1 & E1 & M1 & H1).
    apply (iterate_sound IH1) in H1.
    destruct H1 as (w2 & f & g2 & E2 & M2 & H2).
    cbn [reached rest prev group1] in E2, M2. subst f1.
    exists (w1 ++ w2), f, g2. rewrite <- app_assoc. split; [assumption|].
    split; [econstructor; eassumption|].
    rewrite reached_reached in H2. assumption.
  - apply or_else_eq in H. destruct H as [H|H].
    + apply IH1 in H. destruct H as (w & f & g' & E & M & H).
      exists w, f, g'. repeat split; [assumption | constructor; assumption | assumption].
    + exists [], (rest st), (group1 st).
      rewrite reached_nil. repeat split; [apply C_Opt_none | assumption].
  - apply IH1 in H. destruct H as (w & f & g' & E & M & H).
    rewrite (@consumed_app st w f g' E) in H.
    exists w, f, (Some w).
    repeat split; [assumption | econstructor; eassumption | assumption].
  - unfold at_beginning in H. destruct (prev st) eqn:P; [discriminate|].
    exists [], (rest st), (group1 st). rewrite reached_nil.
    repeat split; [constructor | assumption].
  - unfold at_beginning_line in H.
    exists [], (rest st), (group1 st). rewrite reached_nil.
    split; [reflexivity|].
    destruct (prev st) as [c|] eqn:P.
    + destruct (N.eqb_spec c NEWLINE) as [->|]; [|discriminate].
      split; [constructor; auto | assumption].
    + split; [constructor; auto | assumption].
  - unfold at_end in H.
    exists [], (rest st), (group1 st). rewrite reached_nil.
    split; [reflexivity|].
    destruct (rest st) as [|c [|? ?]] eqn:R; try discriminate.
    + split; [constructor; auto | assumption].
    + destruct (N.eqb_spec c NEWLINE) as [->|]; [|discriminate].
      split; [constructor; auto | assumption].
Qed.
End Sound.

(** [re.search] returns a match that starts somewhere in the string. *)
Lemma search_from_sound r p s m :
  search_from r p s = Some m ->
  exists pre w f,
    s = pre ++ w ++ f /\
    captures r (last_char p pre) None w f (group1 m) /\
    rest m = f.
Proof.
  revert p. induction s as [|c s IH]; intros p H; simpl in H.
  - destruct (exec r _ _) as [m'|] eqn:X; [|discriminate].
    inversion H; subst m'. apply exec_sound in X.
    destruct X as (w & f & g' & E & M & K). cbn [rest prev group1] in E, M.
    inversion K; subst m. exists [], w, f. simpl. auto.
  - destruct (exec r _ _) as [m'|] eqn:X.
    + inversion H; subst m'. apply exec_sound in X.
      destruct X as (w & f & g' & E & M & K). cbn [rest prev group1] in E, M.
      inversion K; subst m. exists [], w, f. simpl. auto.
    + apply IH in H. destruct H as (pre & w & f & E & M & R).
      exists (c :: pre), w, f. simpl. subst s. auto.
Qed.

End ReCaptureFacts.

(* ================================================================== *)
(** * What the extractors return *)

Module ShapeFacts.
Import Re ReCapture Shape.

Lemma captures_lits L p g w f g' :
  captures (lits L) p g w f g' -> w = L /\ g' = g.
Proof.
  revert p w. induction L as [|c L IH]; intros p w M; simpl in M.
  - inversion M; subst; auto.
  - inversion M; subst.
    match goal with M1 : captures (Lit _) _ _ _ _ _ |- _ => inversion M1; subst end.
    match goal with M2 : captures (lits _) _ _ _ _ _ |- _ =>
      apply IH in M2; destruct M2 as [-> ->] end.
    auto.
Qed.

Lemma captures_set_star negate items p g w f g' :
  captures (Star (In negate items)) p g w f g' ->
  Forall (fun c => in_set negate items c = true) w /\ g' = g.
Proof.
  intros M. remember (Star (In negate items)) as r eqn:Er.
  induction M; try discriminate; inversion Er; subst.
  - auto.
  - match goal with M1 : captures (In _ _) _ _ _ _ _ |- _ => inversion M1; subst end.
    destruct (IHM2 eq_refl) as [Hall ->]. simpl. auto.
Qed.

Lemma captures_set_plus negate items p g w f g' :
  captures (Plus (In negate items)) p g w f g' ->
  w <> [] /\ Forall (fun c => in_set negate items c = true) w /\ g' = g.
Proof.
  intros M. inversion M; subst.
  match goal with M1 : captures (In _ _) _ _ _ _ _ |- _ => inversion M1; subst end.
  match goal with M2 : captures (Star _) _ _ _ _ _ |- _ =>
    apply captures_set_star in M2; destruct M2 as [Hall ->] end.
  simpl. repeat split; [discriminate | auto].
Qed.

Lemma captures_group_plus negate items p g w f g' :
  captures (Group (Plus (In negate items))) p g w f g' ->
  w <> [] /\ Forall (fun c => in_set negate items c = true) w /\ g' = Some w.
Proof.
  intros M. inversion M; subst.
  match goal with M1 : captures (Plus _) _ _ _ _ _ |- _ =>
    apply captures_set_plus in M1; destruct M1 as (Hne & Hall & _) end.
  auto.
Qed.

Lemma ws_set c : in_set false [Space] c = is_space c.
Proof. unfold in_set, is_space. simpl. apply orb_false_r. Qed.

Lemma quote_set c :
  in_set false [Chr DQUOTE; Chr SQUOTE] c = true <-> is_quote c.
Proof.
  unfold in_set, is_quote. cbn [existsb item_matches].
  destruct (N.eqb_spec c DQUOTE), (N.eqb_spec c SQUOTE); simpl;
    intuition congruence.
Qed.

Lemma not_quote_set c :
  in_set true [Chr DQUOTE; Chr SQUOTE] c = true <-> ~ is_quote c.
Proof.
  unfold in_set, is_quote. cbn [existsb item_matches].
  destruct (N.eqb_spec c DQUOTE), (N.eqb_spec c SQUOTE); simpl;
    intuition congruence.
Qed.

Lemma not_quote_space_set c :
  in_set true [Chr DQUOTE; Chr SQUOTE; Space] c = true <->
  ~ is_quote c /\ is_space c = false.
Proof.
  unfold in_set, is_quote, is_space. cbn [existsb item_matches].
  destruct (N.eqb_spec c DQUOTE), (N.eqb_spec c SQUOTE),
    (in_ranges space_ranges c); simpl; intuition congruence.
Qed.

Lemma blank_of_ws w :
  Forall (fun c => in_set false [Space] c = true) w -> blank w.
Proof.
  unfold blank. rewrite !Forall_forall. intros H c Hc.
  rewrite <- ws_set. auto.
Qed.

Lemma quote_free_of_set v :
  Forall (fun c => in_set true [Chr DQUOTE; Chr SQUOTE] c = true) v ->
  quote_free v.
Proof.
  rewrite Forall_forall. intros H.
  split; intros Hin; apply H in Hin; apply not_quote_set in Hin;
    apply Hin; [left | right]; reflexivity.
Qed.

Lemma bare_of_set v :
  Forall (fun c => in_set true [Chr DQUOTE; Chr SQUOTE; Space] c = true) v ->
  bare v.
Proof.
  rewrite Forall_forall. intros H. split; [split|].
  - intros Hin. apply H, not_quote_space_set in Hin. apply Hin; left; reflexivity.
  - intros Hin. apply H, not_quote_space_set in Hin. apply Hin; right; reflexivity.
  - rewrite Forall_forall. intros c Hc. apply H, not_quote_space_set in Hc.
    apply Hc.
Qed.

Lemma captures_opt_quote p g w f g' :
  captures (Opt quote) p g w f g' -> opening w /\ g' = g.
Proof.
  unfold quote, opening. intros M. inversion M; subst; [|auto].
  match goal with M1 : captures (In _ _) _ _ _ _ _ |- _ => inversion M1; subst end.
  split; [|reflexivity]. right. eexists; split; [|reflexivity].
  apply quote_set; assumption.
Qed.

Lemma line_start_of_last_char pre :
  last_char None pre = None \/ last_char None pre = Some NEWLINE ->
  at_line_start pre.
Proof.
  unfold at_line_start.
  destruct pre as [|c pre] using rev_ind; [auto|].
  rewrite ReFacts.last_char_app. simpl.
  intros [H|H]; [discriminate|]. inversion H; subst. eauto.
Qed.

(** The tail shared by the three quoted patterns. *)
Lemma captures_quoted_tail p g w f g' :
  captures (Star ws @@ Lit (ord "=") @@ Star ws @@ quote @@
            Group (Plus not_quote) @@ quote) p g w f g' ->
  exists gap1 gap2 q1 q2 v,
    blank gap1 /\ blank gap2 /\ is_quote q1 /\ is_quote q2 /\
    v <> [] /\ quote_free v /\ g' = Some v /\
    w = gap1 ++ [EQUALS] ++ gap2 ++ [q1] ++ v ++ [q2].
Proof.
  unfold ws, quote, not_quote. intros M.
  repeat match goal with
         | M1 : captures (Cat _ _) _ _ _ _ _ |- _ => inversion M1; clear M1; subst
         end.
  repeat match goal with
         | M1 : captures (Lit _) _ _ _ _ _ |- _ => inversion M1; clear M1; subst
         | M1 : captures (In _ _) _ _ _ _ _ |- _ => inversion M1; clear M1; subst
         | M1 : captures (Star (In _ _)) _ _ _ _ _ |- _ =>
             apply captures_set_star in M1; destruct M1 as [? ?]; subst
         | M1 : captures (Group _) _ _ _ _ _ |- _ =>
             apply captures_group_plus in M1; destruct M1 as (? & ? & ?); subst
         end.
  repeat match goal with
         | H : in_set false [Chr DQUOTE; Chr SQUOTE] _ = true |- _ =>
             apply quote_set in H
         end.
  match goal with
  | |- exists _ _ _ _ _, _ /\ _ /\ _ /\ _ /\ _ /\ _ /\ Some ?v = _ /\
         ?a ++ _ ++ ?b ++ [?q1] ++ _ ++ [?q2] = _ =>
      exists a, b, q1, q2, v
  end.
  repeat split; auto using blank_of_ws; apply quote_free_of_set; assumption.
Qed.

End ShapeFacts.

(* ================================================================== *)
(** * Further properties of the extractors *)

Module ExtractorFacts.
Import Re ReCapture Shape ShapeFacts.

(** A match of a line-anchored [key = "value"] pattern. *)
Lemma captures_anchored_assignment key p w f g' :
  captures (AtBeginningLine @@ lits key @@ Star ws @@ Lit (ord "=") @@
            Star ws @@ quote @@ Group (Plus not_quote) @@ quote)
           p None w f g' ->
  (p = None \/ p = Some NEWLINE) /\
  exists v, g' = Some v /\ v <> [] /\ quote_free v /\
            quoted_assignment key v w.
Proof.
  intros M. inversion M; clear M; subst.
  match goal with M1 : captures AtBeginningLine _ _ _ _ _ |- _ =>
    inversion M1; clear M1; subst end.
  match goal with M1 : captures (Cat (lits _) _) _ _ _ _ _ |- _ =>
    inversion M1; clear M1; subst end.
  match goal with M1 : captures (lits _) _ _ _ _ _ |- _ =>
    apply captures_lits in M1; destruct M1 as [-> ->] end.
  match goal with M1 : captures _ _ _ _ _ _ |- _ =>
    apply captures_quoted_tail in M1;
    destruct M1 as (gap1 & gap2 & q1 & q2 & v & B1 & B2 & Q1 & Q2
                    & Hne & Hq & -> & ->) end.
  split; [assumption|]. exists v. repeat split; try assumption; try apply Hq.
  exists gap1, gap2, q1, q2. simpl. auto.
Qed.

Lemma captures_assignment key p w f g' :
  captures (lits key @@ Star ws @@ Lit (ord "=") @@
            Star ws @@ quote @@ Group (Plus not_quote) @@ quote)
           p None w f g' ->
  exists v, g' = Some v /\ v <> [] /\ quote_free v /\
            quoted_assignment key v w.
Proof.
  intros M. inversion M; clear M; subst.
  match goal with M1 : captures (lits _) _ _ _ _ _ |- _ =>
    apply captures_lits in M1; destruct M1 as [-> ->] end.
  match goal with M1 : captures _ _ _ _ _ _ |- _ =>
    apply captures_quoted_tail in M1;
    destruct M1 as (gap1 & gap2 & q1 & q2 & v & B1 & B2 & Q1 & Q2
                    & Hne & Hq & -> & ->) end.
  exists v. repeat split; try assumption; try apply Hq.
  exists gap1, gap2, q1, q2. auto.
Qed.

Lemma search_init content m :
  search init_pattern content = Some m ->
  exists v pre w post,
    group1 m = Some v /\ v <> [] /\ quote_free v /\
    content = pre ++ w ++ post /\ at_line_start pre /\
    quoted_assignment (lit "__version__") v w.
Proof.
  intros H. apply ReCaptureFacts.search_from_sound in H.
  destruct H as (pre & w & f & E & M & _).
  apply captures_anchored_assignment in M.
  destruct M as (Hp & v & G & Hne & Hq & Hw).
  exists v, pre, w, f. repeat split; try assumption; try apply Hq.
  apply line_start_of_last_char; assumption.
Qed.

Lemma search_pyproject content m :
  search pyproject_pattern content = Some m ->
  exists v pre w post,
    group1 m = Some v /\ v <> [] /\ quote_free v /\
    content = pre ++ w ++ post /\ at_line_start pre /\
    quoted_assignment (lit "version") v w.
Proof.
  intros H. apply ReCaptureFacts.search_from_sound in H.
  destruct H as (pre & w & f & E & M & _).
  apply captures_anchored_assignment in M.
  destruct M as (Hp & v & G & Hne & Hq & Hw).
  exists v, pre, w, f. repeat split; try assumption; try apply Hq.
  apply line_start_of_last_char; assumption.
Qed.

Lemma search_setup content m :
  search setup_pattern content = Some m ->
  exists v pre w post,
    group1 m = Some v /\ v <> [] /\ quote_free v /\
    content = pre ++ w ++ post /\
    quoted_assignment (lit "version") v w.
Proof.
  intros H. apply ReCaptureFacts.search_from_sound in H.
  destruct H as (pre & w & f & E & M & _).
  apply captures_assignment in M.
  destruct M as (v & G & Hne & Hq & Hw).
  exists v, pre, w, f. repeat split; try assumption; apply Hq.
Qed.

Lemma search_dockerfile content m :
  search dockerfile_pattern content = Some m ->
  exists v pre w post,
    group1 m = Some v /\ v <> [] /\ bare v /\
    content = pre ++ w ++ post /\ arg_version v w.
Proof.
  intros H. apply ReCaptureFacts.search_from_sound in H.
  destruct H as (pre & w & f & E & M & _).
  unfold dockerfile_pattern, ws, not_quote_space in M.
  repeat match goal with
         | M1 : captures (Cat _ _) _ _ _ _ _ |- _ => inversion M1; clear M1; subst
         end.
  repeat match goal with
         | M1 : captures (Lit _) _ _ _ _ _ |- _ => inversion M1; clear M1; subst
         | M1 : captures Eps _ _ _ _ _ |- _ => inversion M1; clear M1; subst
         | M1 : captures (Star (In _ _)) _ _ _ _ _ |- _ =>
             apply captures_set_star in M1; destruct M1 as [? ?]; subst
         | M1 : captures (Plus (In _ _)) _ _ _ _ _ |- _ =>
             apply captures_set_plus in M1; destruct M1 as (? & ? & ?); subst
         | M1 : captures (Opt quote) _ _ _ _ _ |- _ =>
             apply captures_opt_quote in M1; destruct M1 as [? ?]; subst
         | M1 : captures (Group _) _ _ _ _ _ |- _ =>
             apply captures_group_plus in M1; destruct M1 as (? & ? & ?); subst
         end.
  match goal with
  | G : group1 m = Some ?v
    |- context [ ?pre ++ (_ ++ ?g0 ++ _ ++ ?g1 ++ _ ++ ?g2 ++ ?oq ++ ?v) ++ ?f ] =>
      exists v, pre, (lit "ARG" ++ g0 ++ lit "VERSION" ++ g1 ++ [EQUALS]
                          ++ g2 ++ oq ++ v), f;
      split; [exact G|]; split; [assumption|];
      split; [apply bare_of_set; assumption|];
      split; [reflexivity|];
      exists g0, g1, g2, oq
  end.
  repeat split; auto using blank_of_ws.
Qed.

Lemma search_workflow content m :
  search workflow_pattern content = Some m ->
  exists v pre w post,
    group1 m = Some v /\ v <> [] /\ bare v /\
    content = pre ++ w ++ post /\ version_key v w.
Proof.
  intros H. apply ReCaptureFacts.search_from_sound in H.
  destruct H as (pre & w & f & E & M & _).
  unfold workflow_pattern, ws, not_quote_space in M.
  repeat match goal with
         | M1 : captures (Cat _ _) _ _ _ _ _ |- _ => inversion M1; clear M1; subst
         end.
  repeat match goal with
         | M1 : captures (Lit _) _ _ _ _ _ |- _ => inversion M1; clear M1; subst
         | M1 : captures Eps _ _ _ _ _ |- _ => inversion M1; clear M1; subst
         | M1 : captures (Star (In _ _)) _ _ _ _ _ |- _ =>
             apply captures_set_star in M1; destruct M1 as [? ?]; subst
         | M1 : captures (Opt quote) _ _ _ _ _ |- _ =>
             apply captures_opt_quote in M1; destruct M1 as [? ?]; subst
         | M1 : captures (Group _) _ _ _ _ _ |- _ =>
             apply captures_group_plus in M1; destruct M1 as (? & ? & ?); subst
         end.
  match goal with
  | G : group1 m = Some ?v
    |- context [ ?pre ++ (_ ++ ?g ++ ?oq ++ ?v) ++ ?f ] =>
      exists v, pre, (lit "VERSION:" ++ g ++ oq ++ v), f;
      split; [exact G|]; split; [assumption|];
      split; [apply bare_of_set; assumption|];
      split; [reflexivity|];
      exists g, oq
  end.
  repeat split; auto using blank_of_ws.
Qed.

(** A value of the PackageInit extractor is the capture of a match. *)
Lemma init_some_inv fs out v out' :
  extract_version_from_init fs out = (Returned (Some v), out') ->
  out' = out /\
  exists content m,
    fs init_file = Text content /\
    search init_pattern content = Some m /\ group1 m = Some v.
Proof.
  intros H. destruct (fs init_file) as [|content|e] eqn:E.
  - rewrite (init_absent _ _ E) in H. discriminate H.
  - rewrite (init_text _ _ E) in H.
    destruct (search init_pattern content) as [m|] eqn:S; [|discriminate H].
    inversion H; subst out'. split; [reflexivity|].
    exists content, m. auto.
  - rewrite (init_unreadable _ _ E) in H. discriminate H.
Qed.

Lemma pyproject_some_inv fs out v out' :
  extract_version_from_pyproject fs out = (Returned (Some v), out') ->
  out' = out /\
  exists content m,
    fs pyproject_file = Text content /\
    search pyproject_pattern content = Some m /\ group1 m = Some v.
Proof.
  intros H. destruct (fs pyproject_file) as [|content|e] eqn:E.
  - rewrite (pyproject_absent _ _ E) in H. discriminate H.
  - rewrite (pyproject_text _ _ E) in H.
    destruct (search pyproject_pattern content) as [m|] eqn:S;
      [|discriminate H].
    inversion H; subst out'. split; [reflexivity|].
    exists content, m. auto.
  - rewrite (pyproject_unreadable _ _ E) in H. discriminate H.
Qed.

End ExtractorFacts.

(* ================================================================== *)
(** * Where an extracted version comes from *)

(** X1.  A version returned by the PackageInit extractor is not empty, holds
    no quote character, and stands in [__init__.py] between two quote
    characters after [__version__], optional whitespace, [=] and optional
    whitespace, the [__version__] being at the start of a line; the
    extractor then prints nothing. *)
Theorem init_value_from_file fs out v out' :
  extract_version_from_init fs out = (Returned (Some v), out') ->
  out' = out /\ v <> [] /\ Shape.quote_free v /\
  exists content pre w post,
    fs init_file = Text content /\ content = pre ++ w ++ post /\
    Shape.at_line_start pre /\
    Shape.quoted_assignment (lit "__version__") v w.
Proof.
  intros H.
  destruct (ExtractorFacts.init_some_inv _ _ H) as (-> & content & m & E & S & G).
  destruct (ExtractorFacts.search_init _ S)
    as (v' & pre & w & post & G' & Hne & Hq & Ec & Hp & Hw).
  assert (v' = v) by congruence. subst v'.
  repeat split; try assumption; try apply Hq.
  exists content, pre, w, post. auto.
Qed.

Lemma init_value_from_file_witness :
  extract_version_from_init (Scenario.agree (lit "1.2.3")) []
  = (Returned (Some (lit "1.2.3")), []) /\
  Shape.quote_free (lit "1.2.3").
Proof.
  assert (H : extract_version_from_init (Scenario.agree (lit "1.2.3")) []
              = (Returned (Some (lit "1.2.3")), []))
    by (vm_compute; reflexivity).
  split; [exact H|].
  exact (proj1 (proj2 (proj2 (init_value_from_file _ _ H)))).
Defined.

(** X2.  A version returned by the BuildManifest extractor is not empty,
    holds no quote character, and stands in [pyproject.toml] between two
    quote characters after [version], optional whitespace, [=] and optional
    whitespace, the [version] being at the start of a line; the extractor
    then prints nothing. *)
Theorem pyproject_value_from_file fs out v out' :
  extract_version_from_pyproject fs out = (Returned (Some v), out') ->
  out' = out /\ v <> [] /\ Shape.quote_free v /\
  exists content pre w post,
    fs pyproject_file = Text content /\ content = pre ++ w ++ post /\
    Shape.at_line_start pre /\
    Shape.quoted_assignment (lit "version") v w.
Proof.
  intros H.
  destruct (ExtractorFacts.pyproject_some_inv _ _ H)
    as (-> & content & m & E & S & G).
  destruct (ExtractorFacts.search_pyproject _ S)
    as (v' & pre & w & post & G' & Hne & Hq & Ec & Hp & Hw).
  assert (v' = v) by congruence. subst v'.
  repeat split; try assumption; try apply Hq.
  exists content, pre, w, post. auto.
Qed.

Lemma pyproject_value_from_file_witness :
  extract_version_from_pyproject (Scenario.agree (lit "1.2.3")) []
  = (Returned (Some (lit "1.2.3")), []) /\
  Shape.quote_free (lit "1.2.3").
Proof.
  assert (H : extract_version_from_pyproject (Scenario.agree (lit "1.2.3")) []
              = (Returned (Some (lit "1.2.3")), []))
    by (vm_compute; reflexivity).
  split; [exact H|].
  exact (proj1 (proj2 (proj2 (pyproject_value_from_file _ _ H)))).
Defined.

(** X3.  A version returned by the SetupScript extractor is not empty and
    holds no quote character.  Either it stands in [setup.py] between two
    quote characters after [version], optional whitespace, [=] and optional
    whitespace, anywhere in the text, and nothing is printed; or [setup.py]
    has no such text, contains [find_version()], and the value and the
    output are those of the PackageInit extractor. *)
Theorem setup_value_from_file fs out v out' :
  extract_version_from_setup fs out = (Returned (Some v), out') ->
  v <> [] /\ Shape.quote_free v /\ out' = out /\
  exists content,
    fs setup_file = Text content /\
    ((exists pre w post,
         content = pre ++ w ++ post /\
         Shape.quoted_assignment (lit "version") v w)
     \/ (Re.search setup_pattern content = None /\
         contains (lit "find_version()") content = true /\
         extract_version_from_init fs out = (Returned (Some v), out))).
Proof.
  intros H. destruct (fs setup_file) as [|content|e] eqn:E.
  - rewrite (setup_absent _ _ E) in H. discriminate H.
  - rewrite (setup_text _ _ E) in H.
    destruct (Re.search setup_pattern content) as [m|] eqn:S.
    + inversion H; subst out'.
      destruct (ExtractorFacts.search_setup _ S)
        as (v' & pre & w & post & G & Hne & Hq & Ec & Hw).
      assert (v' = v) by congruence. subst v'.
      repeat split; try assumption; try apply Hq.
      exists content. split; [reflexivity|]. left. exists pre, w, post. auto.
    + destruct (contains (lit "find_version()") content) eqn:C;
        [|discriminate H].
      destruct (ExtractorFacts.init_some_inv _ _ H)
        as (-> & content' & m & E' & S' & G).
      destruct (ExtractorFacts.search_init _ S')
        as (v' & _ & _ & _ & G' & Hne & Hq & _).
      assert (v' = v) by congruence. subst v'.
      repeat split; try assumption; try apply Hq.
      exists content. split; [reflexivity|]. right. auto.
  - rewrite (setup_unreadable _ _ E) in H. discriminate H.
Qed.

Lemma setup_value_from_file_witness :
  extract_version_from_setup (Scenario.all_agree (lit "2.0.0-rc.1")) []
  = (Returned (Some (lit "2.0.0-rc.1")), []) /\
  Shape.quote_free (lit "2.0.0-rc.1").
Proof.
  assert (H : extract_version_from_setup
                (Scenario.all_agree (lit "2.0.0-rc.1")) []
              = (Returned (Some (lit "2.0.0-rc.1")), []))
    by (vm_compute; reflexivity).
  split; [exact H|].
  exact (proj1 (proj2 (setup_value_from_file _ _ H))).
Defined.

(** X4.  A version returned by the ContainerFile extractor is not empty and
    holds no quote and no whitespace character; it stands in
    [docker/Dockerfile] after [ARG], whitespace, [VERSION], optional
    whitespace, [=], optional whitespace and an optional opening quote. *)
Theorem dockerfile_value_from_file fs out v out' :
  extract_version_from_dockerfile fs out = (Returned (Some v), out') ->
  out' = out /\ v <> [] /\ Shape.bare v /\
  exists content pre w post,
    fs dockerfile = Text content /\ content = pre ++ w ++ post /\
    Shape.arg_version v w.
Proof.
  intros H. destruct (fs dockerfile) as [|content|e] eqn:E.
  - rewrite (dockerfile_absent _ _ E) in H. discriminate H.
  - rewrite (dockerfile_text _ _ E) in H.
    destruct (Re.search dockerfile_pattern content) as [m|] eqn:S;
      [|discriminate H].
    inversion H; subst out'.
    destruct (ExtractorFacts.search_dockerfile _ S)
      as (v' & pre & w & post & G & Hne & Hq & Ec & Hw).
    assert (v' = v) by (simpl in *; congruence). subst v'.
    repeat split; try assumption; try apply Hq.
    exists content, pre, w, post. auto.
  - rewrite (dockerfile_unreadable _ _ E) in H. discriminate H.
Qed.

Lemma dockerfile_value_from_file_witness :
  extract_version_from_dockerfile (Scenario.all_agree (lit "2.0.0-rc.1")) []
  = (Returned (Some (lit "2.0.0-rc.1")), []) /\
  Shape.bare (lit "2.0.0-rc.1").
Proof.
  assert (H : extract_version_from_dockerfile
                (Scenario.all_agree (lit "2.0.0-rc.1")) []
              = (Returned (Some (lit "2.0.0-rc.1")), []))
    by (vm_compute; reflexivity).
  split; [exact H|].
  exact (proj1 (proj2 (proj2 (dockerfile_value_from_file _ _ H)))).
Defined.

(** X5.  A version returned by the CIWorkflow extractor is not empty and
    holds no quote and no whitespace character; it stands in
    [.github/workflows/ci.yml] after the text [VERSION:], optional
    whitespace and an optional opening quote. *)
Theorem workflow_value_from_file fs out v out' :
  extract_version_from_github_workflow fs out = (Returned (Some v), out') ->
  out' = out /\ v <> [] /\ Shape.bare v /\
  exists content pre w post,
    fs workflow_file = Text content /\ content = pre ++ w ++ post /\
    Shape.version_key v w.
Proof.
  intros H. destruct (fs workflow_file) as [|content|e] eqn:E.
  - rewrite (workflow_absent _ _ E) in H. discriminate H.
  - rewrite (workflow_text _ _ E) in H.
    destruct (Re.search workflow_pattern content) as [m|] eqn:S;
      [|discriminate H].
    inversion H; subst out'.
    destruct (ExtractorFacts.search_workflow _ S)
      as (v' & pre & w & post & G & Hne & Hq & Ec & Hw).
    assert (v' = v) by (simpl in *; congruence). subst v'.
    repeat split; try assumption; try apply Hq.
    exists content, pre, w, post. auto.
  - rewrite (workflow_unreadable _ _ E) in H. discriminate H.
Qed.

Lemma workflow_value_from_file_witness :
  extract_version_from_github_workflow
    (Scenario.all_agree (lit "2.0.0-rc.1")) []
  = (Returned (Some (lit "2.0.0-rc.1")), []) /\
  Shape.bare (lit "2.0.0-rc.1").
Proof.
  assert (H : extract_version_from_github_workflow
                (Scenario.all_agree (lit "2.0.0-rc.1")) []
              = (Returned (Some (lit "2.0.0-rc.1")), []))
    by (vm_compute; reflexivity).
  split; [exact H|].
  exact (proj1 (proj2 (proj2 (workflow_value_from_file _ _ H)))).
Defined.

(** X6.  The two mandatory extractors never fail silently: when one returns
    nothing, its file is absent and it printed the [not found] line, or its
    file is text without a match and it printed the [No ... found] line. *)
Theorem mandatory_failure_is_reported fs out out' :
  (extract_version_from_init fs out = (Returned None, out') ->
   (fs init_file = Absent /\ out' = out ++ [init_not_found_line]) \/
   (exists content,
       fs init_file = Text content /\
       Re.search init_pattern content = None /\
       out' = out ++ [init_no_version_line]))
  /\
  (extract_version_from_pyproject fs out = (Returned None, out') ->
   (fs pyproject_file = Absent /\ out' = out ++ [pyproject_not_found_line]) \/
   (exists content,
       fs pyproject_file = Text content /\
       Re.search pyproject_pattern content = None /\
       out' = out ++ [pyproject_no_version_line])).
Proof.
  split; intros H.
  - destruct (fs init_file) as [|content|e] eqn:E.
    + rewrite (init_absent _ _ E) in H. inversion H. auto.
    + rewrite (init_text _ _ E) in H.
      destruct (Re.search init_pattern content) as [m|] eqn:S.
      * destruct (ExtractorFacts.search_init _ S) as (v & _ & _ & _ & G & _).
        rewrite G in H. discriminate H.
      * inversion H. right. exists content. auto.
    + rewrite (init_unreadable _ _ E) in H. discriminate H.
  - destruct (fs pyproject_file) as [|content|e] eqn:E.
    + rewrite (pyproject_absent _ _ E) in H. inversion H. auto.
    + rewrite (pyproject_text _ _ E) in H.
      destruct (Re.search pyproject_pattern content) as [m|] eqn:S.
      * destruct (ExtractorFacts.search_pyproject _ S)
          as (v & _ & _ & _ & G & _).
        rewrite G in H. discriminate H.
      * inversion H. right. exists content. auto.
    + rewrite (pyproject_unreadable _ _ E) in H. discriminate H.
Qed.

Lemma mandatory_failure_is_reported_witness :
  extract_version_from_init Scenario.empty []
  = (Returned None, [init_not_found_line]) /\
  Scenario.empty init_file = Absent.
Proof.
  assert (H : extract_version_from_init Scenario.empty []
              = (Returned None, [init_not_found_line]))
    by (vm_compute; reflexivity).
  split; [exact H|].
  destruct (proj1 (mandatory_failure_is_reported Scenario.empty [] _) H)
    as [[E _]|(content & E & _)]; [exact E | vm_compute in E; discriminate E].
Defined.

(* ================================================================== *)
(** * Running the matcher forward *)

Module Forward.
Import Re ReCapture Shape.

Section Run.
Variable A : Type.
Implicit Types (k : state -> option A) (st : state).

Lemma exec_cat r1 r2 st k :
  exec (Cat r1 r2) st k = exec r1 st (fun st1 => exec r2 st1 k).
Proof. reflexivity. Qed.

Lemma exec_star r st k :
  exec (Star r) st k = iterate (exec r) (length (rest st)) st k.
Proof. reflexivity. Qed.

Lemma exec_plus r st k :
  exec (Plus r) st k =
  exec r st (fun st1 => iterate (exec r) (length (rest st1)) st1 k).
Proof. reflexivity. Qed.

Lemma exec_opt r st k :
  exec (Opt r) st k =
  match exec r st k with Some x => Some x | None => k st end.
Proof. reflexivity. Qed.

Lemma exec_group r st k :
  exec (Group r) st k = exec r st (fun st1 => k (capture st st1)).
Proof. reflexivity. Qed.

Lemma exec_lits_ok L st t k :
  rest st = L ++ t ->
  exec (lits L) st k = k (reached st L t (group1 st)).
Proof.
  revert st. induction L as [|c L IH]; intros st E; simpl in *.
  - rewrite <- E. destruct st; reflexivity.
  - rewrite E, N.eqb_refl. rewrite (IH (step c (L ++ t) st)) by reflexivity.
    reflexivity.
Qed.

Lemma exec_lits_fail L st k :
  starts_with L (rest st) = false -> exec (lits L) st k = None.
Proof.
  revert st. induction L as [|c L IH]; intros st E; simpl in *.
  - discriminate E.
  - destruct (rest st) as [|y t] eqn:R; [reflexivity|].
    rewrite N.eqb_sym in E.
    destruct (N.eqb y c); [|reflexivity].
    apply IH. simpl in *. exact E.
Qed.

Lemma exec_in_ok negate items st c t k :
  rest st = c :: t -> in_set negate items c = true ->
  exec (In negate items) st k = k (reached st [c] t (group1 st)).
Proof. intros E Hc. cbn [exec]. rewrite E, Hc. reflexivity. Qed.

Lemma exec_lit_ok st c t k :
  rest st = c :: t ->
  exec (Lit c) st k = k (reached st [c] t (group1 st)).
Proof. intros E. cbn [exec]. rewrite E, N.eqb_refl. reflexivity. Qed.

Lemma iterate_class negate items fuel st w f k x :
  rest st = w ++ f ->
  Forall (fun c => in_set negate items c = true) w ->
  stops negate items f ->
  (length (rest st) <= fuel)%nat ->
  k (reached st w f (group1 st)) = Some x ->
  iterate (exec (In negate items)) fuel st k = Some x.
Proof.
  revert fuel st. induction w as [|c w IH]; intros fuel st E Hall Hs Hf Hk.
  - simpl in E. assert (Est : reached st [] f (group1 st) = st)
      by (rewrite <- E; destruct st; reflexivity).
    rewrite Est in Hk.
    destruct fuel as [|n]; [exact Hk|]. cbn [iterate exec].
    rewrite E. destruct f as [|y f']; [exact Hk|].
    simpl in Hs. rewrite Hs. exact Hk.
  - destruct fuel as [|n]; [rewrite E in Hf; simpl in Hf; lia|].
    inversion Hall as [|? ? Hc Hw]; subst. simpl in E.
    cbn [iterate]. erewrite exec_in_ok; [|exact E|exact Hc].
    cbn [reached rest]. rewrite E. cbn [length].
    replace (length (w ++ f) <? S (length (w ++ f)))%nat with true
      by (symmetry; apply Nat.ltb_lt; lia).
    rewrite (IH n (reached st [c] (w ++ f) (group1 st)));
      try reflexivity; try assumption.
    rewrite E in Hf. simpl in *. lia.
Qed.

Lemma exec_star_class negate items st w f k x :
  rest st = w ++ f ->
  Forall (fun c => in_set negate items c = true) w ->
  stops negate items f ->
  k (reached st w f (group1 st)) = Some x ->
  exec (Star (In negate items)) st k = Some x.
Proof.
  intros E Hall Hs Hk. rewrite exec_star.
  eapply iterate_class; eauto.
Qed.

Lemma exec_plus_class negate items st w f k x :
  w <> [] ->
  rest st = w ++ f ->
  Forall (fun c => in_set negate items c = true) w ->
  stops negate items f ->
  k (reached st w f (group1 st)) = Some x ->
  exec (Plus (In negate items)) st k = Some x.
Proof.
  intros Hne E Hall Hs Hk. destruct w as [|c w]; [congruence|].
  inversion Hall as [|? ? Hc Hw]; subst. simpl in E.
  rewrite exec_plus. erewrite exec_in_ok; [|exact E|exact Hc].
  eapply iterate_class; [ | exact Hw | exact Hs | | ];
    [reflexivity | apply le_n | exact Hk].
Qed.

Lemma exec_group_plus_class negate items st w f k x :
  w <> [] ->
  rest st = w ++ f ->
  Forall (fun c => in_set negate items c = true) w ->
  stops negate items f ->
  k (reached st w f (Some w)) = Some x ->
  exec (Group (Plus (In negate items))) st k = Some x.
Proof.
  intros Hne E Hall Hs Hk. rewrite exec_group.
  eapply exec_plus_class; [exact Hne | exact E | exact Hall | exact Hs | ].
  rewrite (@ReCaptureFacts.consumed_app st w f (group1 st) E). exact Hk.
Qed.

End Run.
End Forward.

(* ================================================================== *)
(** * What the extractors find *)

Module RoundTrip.
Import Re ReCapture Shape ShapeFacts Forward.

Lemma ws_of_blank w :
  blank w -> Forall (fun c => in_set false [Space] c = true) w.
Proof.
  unfold blank. rewrite !Forall_forall. intros H c Hc.
  rewrite ws_set. auto.
Qed.

Lemma set_of_quote_free v :
  quote_free v ->
  Forall (fun c => in_set true [Chr DQUOTE; Chr SQUOTE] c = true) v.
Proof.
  intros [H1 H2]. rewrite Forall_forall. intros c Hc.
  apply not_quote_set. intros [->| ->]; auto.
Qed.

Lemma set_of_bare v :
  bare v ->
  Forall (fun c => in_set true [Chr DQUOTE; Chr SQUOTE; Space] c = true) v.
Proof.
  intros [[H1 H2] H3]. rewrite Forall_forall in *. intros c Hc.
  apply not_quote_space_set. split; [intros [->| ->]; auto | auto].
Qed.

Lemma quote_not_space q : is_quote q -> in_set false [Space] q = false.
Proof. intros [->| ->]; vm_compute; reflexivity. Qed.

Lemma quote_stops_value q t :
  is_quote q -> stops true [Chr DQUOTE; Chr SQUOTE] (q :: t).
Proof. intros [->| ->]; vm_compute; reflexivity. Qed.

(** The tail of the quoted patterns, run on a quoted assignment. *)
Lemma exec_quoted_tail A st (k : state -> option A)
      gap1 gap2 q1 q2 v post x :
  rest st = gap1 ++ [EQUALS] ++ gap2 ++ [q1] ++ v ++ [q2] ++ post ->
  blank gap1 -> blank gap2 -> is_quote q1 -> is_quote q2 ->
  v <> [] -> quote_free v ->
  k (reached st (gap1 ++ [EQUALS] ++ gap2 ++ [q1] ++ v ++ [q2]) post (Some v))
  = Some x ->
  exec (Star ws @@ Lit (ord "=") @@ Star ws @@ quote @@
        Group (Plus not_quote) @@ quote) st k = Some x.
Proof.
  intros E B1 B2 Q1 Q2 Hne Hq Hk. unfold ws, quote, not_quote.
  rewrite exec_cat.
  eapply exec_star_class;
    [exact E | apply ws_of_blank; exact B1 | vm_compute; reflexivity | ].
  rewrite exec_cat. erewrite exec_lit_ok by reflexivity.
  rewrite exec_cat.
  eapply exec_star_class;
    [reflexivity | apply ws_of_blank; exact B2
    | apply quote_not_space; exact Q1 | ].
  rewrite exec_cat.
  erewrite exec_in_ok; [|reflexivity|apply quote_set; exact Q1].
  rewrite exec_cat.
  eapply exec_group_plus_class;
    [exact Hne | reflexivity | apply set_of_quote_free; exact Hq
    | apply quote_stops_value; exact Q2 | ].
  erewrite exec_in_ok; [|reflexivity|apply quote_set; exact Q2].
  rewrite <- Hk. f_equal. unfold reached. cbn [prev rest group1].
  rewrite !ReFacts.last_char_app. reflexivity.
Qed.

Lemma exec_bol_ok A st (k : state -> option A) :
  prev st = None \/ prev st = Some NEWLINE ->
  exec AtBeginningLine st k = k st.
Proof.
  intros [H|H]; cbn [exec]; unfold at_beginning_line; rewrite H; reflexivity.
Qed.

Lemma exec_bol_fail A st (k : state -> option A) c :
  prev st = Some c -> c <> NEWLINE -> exec AtBeginningLine st k = None.
Proof.
  intros H Hc. cbn [exec]. unfold at_beginning_line. rewrite H.
  apply N.eqb_neq in Hc. rewrite Hc. reflexivity.
Qed.

Lemma search_from_here r p s m :
  exec r {| prev := p; rest := s; group1 := None |} (@Some state) = Some m ->
  search_from r p s = Some m.
Proof. intros H. destruct s; simpl; rewrite H; reflexivity. Qed.

Lemma search_from_next r p c s :
  exec r {| prev := p; rest := c :: s; group1 := None |} (@Some state) = None ->
  search_from r p (c :: s) = search_from r (Some c) s.
Proof. intros H. simpl. rewrite H. reflexivity. Qed.

Lemma starts_with_app key t : starts_with key (key ++ t) = true.
Proof.
  induction key as [|c key IH]; [reflexivity|].
  simpl. rewrite N.eqb_refl. exact IH.
Qed.

(** A line that does not start with [key] does not start with it either
    with its newline and more text appended. *)
Lemma starts_with_line key l t :
  ~ List.In NEWLINE key -> starts_with key l = false ->
  starts_with key (l ++ NEWLINE :: t) = false.
Proof.
  revert l. induction key as [|x key IH]; intros l Hn H; [discriminate H|].
  destruct l as [|y l]; simpl in *.
  - destruct (N.eqb_spec x NEWLINE) as [->|]; [tauto | reflexivity].
  - destruct (N.eqb x y); [|reflexivity]. simpl in *.
    apply IH; [tauto | exact H].
Qed.

Section Anchored.
Variable key : str.
Variable tail : regex.
Local Abbreviation pattern := (AtBeginningLine @@ lits key @@ tail).

Lemma exec_anchored_fail_inside c s :
  c <> NEWLINE ->
  exec pattern {| prev := Some c; rest := s; group1 := None |} (@Some state)
  = None.
Proof.
  intros Hc. rewrite exec_cat.
  eapply exec_bol_fail; [reflexivity | exact Hc].
Qed.

Lemma exec_anchored_fail_key p s :
  starts_with key s = false ->
  exec pattern {| prev := p; rest := s; group1 := None |} (@Some state)
  = None.
Proof.
  intros H. rewrite exec_cat.
  destruct p as [c|]; [destruct (N.eq_dec c NEWLINE) as [->|Hc]|].
  - rewrite exec_bol_ok by (right; reflexivity).
    rewrite exec_cat. apply exec_lits_fail. exact H.
  - eapply exec_bol_fail; [reflexivity | exact Hc].
  - rewrite exec_bol_ok by (left; reflexivity).
    rewrite exec_cat. apply exec_lits_fail. exact H.
Qed.

Lemma search_skip_inside c l t :
  c <> NEWLINE -> ~ List.In NEWLINE l ->
  search_from pattern (Some c) (l ++ NEWLINE :: t)
  = search_from pattern (Some NEWLINE) t.
Proof.
  revert c. induction l as [|y l IH]; intros c Hc Hl.
  - simpl app. apply search_from_next, exec_anchored_fail_inside; exact Hc.
  - simpl app. rewrite search_from_next
      by (apply exec_anchored_fail_inside; exact Hc).
    apply IH; simpl in Hl; intuition.
Qed.

Lemma search_skip_line p l t :
  ~ List.In NEWLINE key -> ~ List.In NEWLINE l -> starts_with key l = false ->
  search_from pattern p (l ++ NEWLINE :: t)
  = search_from pattern (Some NEWLINE) t.
Proof.
  intros Hk Hl Hs.
  pose proof (@starts_with_line key l t Hk Hs) as Hs'.
  destruct l as [|y l].
  - simpl app in *. apply search_from_next, exec_anchored_fail_key; exact Hs'.
  - simpl app in *.
    rewrite search_from_next by (apply exec_anchored_fail_key; exact Hs').
    apply search_skip_inside; simpl in Hl; intuition.
Qed.

Lemma search_skip_lines p ls t :
  ~ List.In NEWLINE key -> lines_without key ls ->
  p = None \/ p = Some NEWLINE ->
  exists p',
    (p' = None \/ p' = Some NEWLINE) /\
    search_from pattern p (lines ls ++ t) = search_from pattern p' t.
Proof.
  intros Hk Hls. revert p. induction Hls as [|l ls [Hl Hs] _ IH]; intros p Hp.
  - exists p. auto.
  - destruct (IH (Some NEWLINE)) as (p' & Hp' & E); [auto|].
    exists p'. split; [exact Hp'|]. rewrite <- E.
    unfold lines. cbn [flat_map]. rewrite <- !app_assoc. cbn [app].
    apply search_skip_line; assumption.
Qed.
End Anchored.

(** [re.search] with a line-anchored [key = "value"] pattern, on lines that
    do not start with the key followed by a quoted assignment. *)
Lemma search_anchored_assignment key ls v w post :
  ~ List.In NEWLINE key ->
  lines_without key ls ->
  quoted_assignment key v w -> v <> [] -> quote_free v ->
  exists m,
    search (AtBeginningLine @@ lits key @@ Star ws @@ Lit (ord "=") @@
            Star ws @@ quote @@ Group (Plus not_quote) @@ quote)
           (lines ls ++ w ++ post) = Some m /\
    group1 m = Some v.
Proof.
  intros Hk Hls (gap1 & gap2 & q1 & q2 & B1 & B2 & Q1 & Q2 & ->) Hne Hq.
  unfold search.
  destruct (@search_skip_lines key
              (Star ws @@ Lit (ord "=") @@ Star ws @@ quote @@
               Group (Plus not_quote) @@ quote)
              None ls
              ((key ++ gap1 ++ [EQUALS] ++ gap2 ++ [q1] ++ v ++ [q2]) ++ post)
              Hk Hls (or_introl eq_refl))
    as (p' & Hp' & ->).
  eexists. split.
  - apply search_from_here. rewrite exec_cat.
    rewrite exec_bol_ok by exact Hp'.
    rewrite exec_cat.
    erewrite exec_lits_ok by (cbn [rest]; rewrite <- app_assoc; reflexivity).
    eapply exec_quoted_tail with (post := post);
      [ | exact B1 | exact B2 | exact Q1 | exact Q2 | exact Hne | exact Hq | ];
      [ cbn [reached rest]; rewrite <- !app_assoc; reflexivity
      | reflexivity ].
  - reflexivity.
Qed.

Lemma exec_in_fail A negate items st (k : state -> option A) c t :
  rest st = c :: t -> in_set negate items c = false ->
  exec (In negate items) st k = None.
Proof. intros E Hc. cbn [exec]. rewrite E, Hc. reflexivity. Qed.

(** [re.search] passes the positions at which the literal start of the
    pattern is not found. *)
Lemma search_skip_prefix key tail p pre s :
  not_before key pre s = true ->
  search_from (lits key @@ tail) p (pre ++ s)
  = search_from (lits key @@ tail) (last_char p pre) s.
Proof.
  revert p. induction pre as [|c pre IH]; intros p H; [reflexivity|].
  cbn [not_before] in H. apply andb_true_iff in H. destruct H as [H1 H2].
  apply negb_true_iff in H1. cbn [app].
  rewrite search_from_next.
  - cbn [last_char]. apply IH. exact H2.
  - rewrite exec_cat. apply exec_lits_fail. exact H1.
Qed.

Lemma ends_value_stops post :
  ends_value post -> stops true [Chr DQUOTE; Chr SQUOTE; Space] post.
Proof.
  destruct post as [|c post]; [trivial|]. unfold ends_value, stops. intros H.
  destruct (in_set true [Chr DQUOTE; Chr SQUOTE; Space] c) eqn:S;
    [|reflexivity].
  apply not_quote_space_set in S. destruct S as [Hq Hs].
  destruct H as [H|H]; [tauto | congruence].
Qed.

(** The tail of the two bare patterns, run on whitespace, an optional
    opening quote and a bare value. *)
Lemma exec_bare_tail A st (k : state -> option A) gap oq v post x :
  rest st = gap ++ oq ++ v ++ post ->
  blank gap -> opening oq -> v <> [] -> bare v -> ends_value post ->
  k (reached st (gap ++ oq ++ v) post (Some v)) = Some x ->
  exec (Star ws @@ Opt quote @@ Group (Plus not_quote_space)) st k = Some x.
Proof.
  intros E B O Hne Hb Hp Hk. unfold ws, quote, not_quote_space.
  destruct v as [|c v']; [congruence|].
  assert (Hc : ~ is_quote c /\ is_space c = false).
  { apply not_quote_space_set.
    pose proof (set_of_bare Hb) as Hall. inversion Hall; assumption. }
  destruct Hc as [Hcq Hcs].
  rewrite exec_cat. destruct O as [->|(q & Q & ->)].
  - eapply exec_star_class with (f := (c :: v') ++ post);
      [exact E | apply ws_of_blank; exact B
      | unfold stops; cbn [app]; rewrite ws_set; exact Hcs | ].
    rewrite exec_cat, exec_opt.
    erewrite exec_in_fail;
      [ | reflexivity
        | destruct (in_set false [Chr DQUOTE; Chr SQUOTE] c) eqn:S;
          [apply quote_set in S; tauto | reflexivity] ].
    eapply exec_group_plus_class with (f := post);
      [ | | apply set_of_bare; exact Hb | apply ends_value_stops; exact Hp | ];
      [ discriminate | reflexivity | ].
    rewrite <- Hk. f_equal. unfold reached. cbn [prev rest group1].
    rewrite !ReFacts.last_char_app. reflexivity.
  - eapply exec_star_class with (f := [q] ++ (c :: v') ++ post);
      [exact E | apply ws_of_blank; exact B
      | apply quote_not_space; exact Q | ].
    rewrite exec_cat, exec_opt.
    erewrite exec_in_ok; [|reflexivity|apply quote_set; exact Q].
    match goal with
    | |- match ?e with _ => _ end = _ => assert (Hin : e = Some x)
    end.
    { eapply exec_group_plus_class with (f := post);
        [ | | apply set_of_bare; exact Hb | apply ends_value_stops; exact Hp | ];
        [ discriminate | reflexivity | ].
      rewrite <- Hk. f_equal. unfold reached. cbn [prev rest group1].
      rewrite !ReFacts.last_char_app. reflexivity. }
    rewrite Hin. reflexivity.
Qed.

Lemma search_setup_assignment pre v w post :
  not_before (lit "version") pre (w ++ post) = true ->
  quoted_assignment (lit "version") v w -> v <> [] -> quote_free v ->
  exists m,
    search setup_pattern (pre ++ w ++ post) = Some m /\ group1 m = Some v.
Proof.
  intros Hn (gap1 & gap2 & q1 & q2 & B1 & B2 & Q1 & Q2 & ->) Hne Hq.
  unfold search, setup_pattern. rewrite search_skip_prefix by exact Hn.
  eexists. split.
  - apply search_from_here. rewrite exec_cat.
    erewrite exec_lits_ok by (cbn [rest]; rewrite <- app_assoc; reflexivity).
    eapply exec_quoted_tail with (post := post);
      [ | exact B1 | exact B2 | exact Q1 | exact Q2 | exact Hne | exact Hq | ];
      [ cbn [reached rest]; rewrite <- !app_assoc; reflexivity
      | reflexivity ].
  - reflexivity.
Qed.

Lemma search_workflow_key pre v w post :
  not_before (lit "VERSION:") pre (w ++ post) = true ->
  version_key v w -> v <> [] -> bare v -> ends_value post ->
  exists m,
    search workflow_pattern (pre ++ w ++ post) = Some m /\ group1 m = Some v.
Proof.
  intros Hn (gap & oq & B & O & ->) Hne Hb Hp.
  unfold search, workflow_pattern. rewrite search_skip_prefix by exact Hn.
  eexists. split.
  - apply search_from_here. rewrite exec_cat.
    erewrite exec_lits_ok by (cbn [rest]; rewrite <- app_assoc; reflexivity).
    eapply exec_bare_tail with (post := post);
      [ | exact B | exact O | exact Hne | exact Hb | exact Hp | ];
      [ cbn [reached rest]; rewrite <- !app_assoc; reflexivity
      | reflexivity ].
  - reflexivity.
Qed.

Lemma search_dockerfile_arg pre v w post :
  not_before (lit "ARG") pre (w ++ post) = true ->
  arg_version v w -> v <> [] -> bare v -> ends_value post ->
  exists m,
    search dockerfile_pattern (pre ++ w ++ post) = Some m /\
    group1 m = Some v.
Proof.
  intros Hn (gap0 & gap1 & gap2 & oq & N0 & B0 & B1 & B2 & O & ->) Hne Hb Hp.
  unfold search, dockerfile_pattern. rewrite search_skip_prefix by exact Hn.
  eexists. split.
  - apply search_from_here. rewrite exec_cat.
    erewrite exec_lits_ok by (cbn [rest]; rewrite <- app_assoc; reflexivity).
    rewrite exec_cat. unfold ws at 1.
    eapply exec_plus_class
      with (w := gap0)
           (f := lit "VERSION" ++ gap1 ++ [EQUALS] ++ gap2 ++ oq ++ v ++ post);
      [ exact N0
      | cbn [reached rest]; rewrite <- !app_assoc; reflexivity
      | apply ws_of_blank; exact B0
      | vm_compute; reflexivity | ].
    rewrite exec_cat. erewrite exec_lits_ok by reflexivity.
    rewrite exec_cat. unfold ws at 1.
    eapply exec_star_class
      with (w := gap1) (f := [EQUALS] ++ gap2 ++ oq ++ v ++ post);
      [ reflexivity | apply ws_of_blank; exact B1 | vm_compute; reflexivity | ].
    rewrite exec_cat. erewrite exec_lit_ok by reflexivity.
    eapply exec_bare_tail with (post := post);
      [ | exact B2 | exact O | exact Hne | exact Hb | exact Hp | ];
      [ reflexivity | reflexivity ].
  - cbn [reached group1]. reflexivity.
Qed.

End RoundTrip.

(* ================================================================== *)
(** * What an extractor finds in a file of a given form *)

Lemma no_newline_in_init_key : ~ In NEWLINE (lit "__version__").
Proof. intros H. vm_compute in H. intuition discriminate. Qed.

Lemma no_newline_in_version_key : ~ In NEWLINE (lit "version").
Proof. intros H. vm_compute in H. intuition discriminate. Qed.

(** X7.  When [__init__.py] consists of lines that do not start with
    [__version__], then [__version__ = "v"] (any whitespace around [=],
    either quote character on either side, [v] not empty and without
    quotes) and any further text, the PackageInit extractor returns [v] and
    prints nothing: the first assignment wins. *)
Theorem init_finds_first_assignment fs out ls v w post :
  fs init_file = Text (lines ls ++ w ++ post) ->
  Shape.lines_without (lit "__version__") ls ->
  Shape.quoted_assignment (lit "__version__") v w ->
  v <> [] -> Shape.quote_free v ->
  extract_version_from_init fs out = (Returned (Some v), out).
Proof.
  intros E Hls Hw Hne Hq. rewrite (init_text _ _ E).
  destruct (RoundTrip.search_anchored_assignment post
              no_newline_in_init_key Hls Hw Hne Hq) as (m & S & G).
  change (Re.search init_pattern (lines ls ++ w ++ post) = Some m) in S.
  rewrite S, G. reflexivity.
Qed.

Lemma init_finds_first_assignment_witness :
  extract_version_from_init (Scenario.agree (lit "1.2.3")) []
  = (Returned (Some (lit "1.2.3")), []).
Proof.
  apply (@init_finds_first_assignment (Scenario.agree (lit "1.2.3")) []
           [lit "# package"] (lit "1.2.3")
           (lit "__version__" ++ [ord " "] ++ [Shape.EQUALS] ++ [ord " "]
                ++ [DQUOTE] ++ lit "1.2.3" ++ [DQUOTE])
           [NEWLINE]).
  - vm_compute; reflexivity.
  - repeat constructor; [intros H; vm_compute in H; intuition discriminate].
  - exists [ord " "], [ord " "], DQUOTE, DQUOTE.
    split; [repeat constructor|]. split; [repeat constructor|].
    split; [left; reflexivity|]. split; [left; reflexivity | reflexivity].
  - discriminate.
  - split; intros H; vm_compute in H; intuition discriminate.
Defined.

(** X8.  When [pyproject.toml] consists of lines that do not start with
    [version], then [version = "v"] (any whitespace around [=], either quote
    character on either side, [v] not empty and without quotes) and any
    further text, the BuildManifest extractor returns [v] and prints
    nothing. *)
Theorem pyproject_finds_first_assignment fs out ls v w post :
  fs pyproject_file = Text (lines ls ++ w ++ post) ->
  Shape.lines_without (lit "version") ls ->
  Shape.quoted_assignment (lit "version") v w ->
  v <> [] -> Shape.quote_free v ->
  extract_version_from_pyproject fs out = (Returned (Some v), out).
Proof.
  intros E Hls Hw Hne Hq. rewrite (pyproject_text _ _ E).
  destruct (RoundTrip.search_anchored_assignment post
              no_newline_in_version_key Hls Hw Hne Hq) as (m & S & G).
  change (Re.search pyproject_pattern (lines ls ++ w ++ post) = Some m) in S.
  rewrite S, G. reflexivity.
Qed.

Lemma pyproject_finds_first_assignment_witness :
  extract_version_from_pyproject (Scenario.agree (lit "1.2.3")) []
  = (Returned (Some (lit "1.2.3")), []).
Proof.
  apply (@pyproject_finds_first_assignment (Scenario.agree (lit "1.2.3")) []
           [lit "[project]"; lit "name = " ++ quoted (lit "pkg")]
           (lit "1.2.3")
           (lit "version" ++ [ord " "] ++ [Shape.EQUALS] ++ [ord " "]
                ++ [DQUOTE] ++ lit "1.2.3" ++ [DQUOTE])
           [NEWLINE]).
  - vm_compute; reflexivity.
  - repeat constructor; intros H; vm_compute in H; intuition discriminate.
  - exists [ord " "], [ord " "], DQUOTE, DQUOTE.
    split; [repeat constructor|]. split; [repeat constructor|].
    split; [left; reflexivity|]. split; [left; reflexivity | reflexivity].
  - discriminate.
  - split; intros H; vm_compute in H; intuition discriminate.
Defined.

(** X9.  When [setup.py] holds [version="v"] (any whitespace around [=],
    either quote character on either side, [v] not empty and without
    quotes) and the text [version] does not occur before it, the SetupScript
    extractor returns [v] and prints nothing, whether or not the file also
    calls [find_version()]. *)
Theorem setup_finds_first_assignment fs out pre v w post :
  fs setup_file = Text (pre ++ w ++ post) ->
  Shape.not_before (lit "version") pre (w ++ post) = true ->
  Shape.quoted_assignment (lit "version") v w ->
  v <> [] -> Shape.quote_free v ->
  extract_version_from_setup fs out = (Returned (Some v), out).
Proof.
  intros E Hn Hw Hne Hq. rewrite (setup_text _ _ E).
  destruct (RoundTrip.search_setup_assignment pre post Hn Hw Hne Hq)
    as (m & S & G).
  rewrite S, G. reflexivity.
Qed.

Lemma setup_finds_first_assignment_witness :
  extract_version_from_setup (Scenario.all_agree (lit "2.0.0-rc.1")) []
  = (Returned (Some (lit "2.0.0-rc.1")), []).
Proof.
  apply (@setup_finds_first_assignment
           (Scenario.all_agree (lit "2.0.0-rc.1")) []
           (lit "setup(name='pkg', ") (lit "2.0.0-rc.1")
           (lit "version" ++ [] ++ [Shape.EQUALS] ++ []
                ++ [DQUOTE] ++ lit "2.0.0-rc.1" ++ [DQUOTE])
           (lit ")" ++ [NEWLINE])).
  - vm_compute; reflexivity.
  - vm_compute; reflexivity.
  - exists [], [], DQUOTE, DQUOTE.
    split; [constructor|]. split; [constructor|].
    split; [left; reflexivity|]. split; [left; reflexivity | reflexivity].
  - discriminate.
  - split; intros H; vm_compute in H; intuition discriminate.
Defined.

(** X10.  When [docker/Dockerfile] holds [ARG VERSION=v] (whitespace after
    [ARG], any whitespace around [=], an optional opening quote, [v] not
    empty and without quotes or whitespace, then the end of the text, a
    quote or whitespace) and the text [ARG] does not occur before it, the
    ContainerFile extractor returns [v]. *)
Theorem dockerfile_finds_first_arg fs out pre v w post :
  fs dockerfile = Text (pre ++ w ++ post) ->
  Shape.not_before (lit "ARG") pre (w ++ post) = true ->
  Shape.arg_version v w ->
  v <> [] -> Shape.bare v -> Shape.ends_value post ->
  extract_version_from_dockerfile fs out = (Returned (Some v), out).
Proof.
  intros E Hn Hw Hne Hb Hp. rewrite (dockerfile_text _ _ E).
  destruct (RoundTrip.search_dockerfile_arg pre post Hn Hw Hne Hb Hp)
    as (m & S & G).
  rewrite S. simpl. rewrite G. reflexivity.
Qed.

Lemma dockerfile_finds_first_arg_witness :
  extract_version_from_dockerfile (Scenario.all_agree (lit "2.0.0-rc.1")) []
  = (Returned (Some (lit "2.0.0-rc.1")), []).
Proof.
  apply (@dockerfile_finds_first_arg
           (Scenario.all_agree (lit "2.0.0-rc.1")) []
           (lit "FROM python:3.11" ++ [NEWLINE]) (lit "2.0.0-rc.1")
           (lit "ARG" ++ [ord " "] ++ lit "VERSION" ++ [] ++ [Shape.EQUALS]
                ++ [] ++ [] ++ lit "2.0.0-rc.1")
           [NEWLINE]).
  - vm_compute; reflexivity.
  - vm_compute; reflexivity.
  - exists [ord " "], [], [], [].
    split; [discriminate|]. split; [repeat constructor|].
    split; [constructor|]. split; [constructor|].
    split; [left; reflexivity | reflexivity].
  - discriminate.
  - split; [split; intros H; vm_compute in H; intuition discriminate|].
    repeat constructor.
  - right. vm_compute; reflexivity.
Defined.

(** X11.  When [.github/workflows/ci.yml] holds [VERSION: v] (any
    whitespace after the colon, an optional opening quote, [v] not empty and
    without quotes or whitespace, then the end of the text, a quote or
    whitespace) and the text [VERSION:] does not occur before it, the
    CIWorkflow extractor returns [v], whatever precedes [VERSION:] on its
    line. *)
Theorem workflow_finds_first_key fs out pre v w post :
  fs workflow_file = Text (pre ++ w ++ post) ->
  Shape.not_before (lit "VERSION:") pre (w ++ post) = true ->
  Shape.version_key v w ->
  v <> [] -> Shape.bare v -> Shape.ends_value post ->
  extract_version_from_github_workflow fs out = (Returned (Some v), out).
Proof.
  intros E Hn Hw Hne Hb Hp. rewrite (workflow_text _ _ E).
  destruct (RoundTrip.search_workflow_key pre post Hn Hw Hne Hb Hp)
    as (m & S & G).
  rewrite S. simpl. rewrite G. reflexivity.
Qed.

Lemma workflow_finds_first_key_witness :
  extract_version_from_github_workflow
    (Scenario.all_agree (lit "2.0.0-rc.1")) []
  = (Returned (Some (lit "2.0.0-rc.1")), []).
Proof.
  apply (@workflow_finds_first_key
           (Scenario.all_agree (lit "2.0.0-rc.1")) []
           (lit "env:" ++ [NEWLINE] ++ lit "  ") (lit "2.0.0-rc.1")
           (lit "VERSION:" ++ [ord " "] ++ [DQUOTE] ++ lit "2.0.0-rc.1")
           [DQUOTE; NEWLINE]).
  - vm_compute; reflexivity.
  - vm_compute; reflexivity.
  - exists [ord " "], [DQUOTE].
    split; [repeat constructor|]. split; [|reflexivity].
    right. exists DQUOTE. split; [left|]; reflexivity.
  - discriminate.
  - split; [split; intros H; vm_compute in H; intuition discriminate|].
    repeat constructor.
  - left. left. reflexivity.
Defined.

(* ================================================================== *)
(** * Further properties of a run *)

Lemma collects_inv fs versions diag :
  collects fs versions diag ->
  exists a b c d e o1 o2 o3 o4,
    extract_version_from_init fs [banner] = (Returned a, o1) /\
    extract_version_from_pyproject fs o1 = (Returned b, o2) /\
    extract_version_from_setup fs o2 = (Returned c, o3) /\
    extract_version_from_dockerfile fs o3 = (Returned d, o4) /\
    extract_version_from_github_workflow fs o4 = (Returned e, diag) /\
    versions = [ (lit "__init__.py", a); (lit "pyproject.toml", b);
                 (lit "setup.py", c); (lit "Dockerfile", d);
                 (lit "GitHub workflow", e) ].
Proof.
  unfold collects, extract_all, bind. intros H.
  destruct (extract_version_from_init fs _) as [[a|?] o1] eqn:Ra;
    [|discriminate].
  destruct (extract_version_from_pyproject fs _) as [[b|?] o2] eqn:Rb;
    [|discriminate].
  destruct (extract_version_from_setup fs _) as [[c|?] o3] eqn:Rc;
    [|discriminate].
  destruct (extract_version_from_dockerfile fs _) as [[d|?] o4] eqn:Rd;
    [|discriminate].
  destruct (extract_version_from_github_workflow fs _) as [[e|?] o5] eqn:Re';
    [|discriminate].
  unfold ret in H. inversion H; subst.
  exists a, b, c, d, e, o1, o2, o3, o4. repeat split; assumption.
Qed.

Lemma yields_of_some_init fs out v out' :
  extract_version_from_init fs out = (Returned (Some v), out') ->
  yields fs init_file init_pattern v /\ out' = out.
Proof.
  intros H.
  destruct (ExtractorFacts.init_some_inv _ _ H) as (-> & content & m & E & S & G).
  split; [|reflexivity]. exists content. split; [exact E|].
  rewrite S. exact G.
Qed.

Lemma yields_of_some_pyproject fs out v out' :
  extract_version_from_pyproject fs out = (Returned (Some v), out') ->
  yields fs pyproject_file pyproject_pattern v /\ out' = out.
Proof.
  intros H.
  destruct (ExtractorFacts.pyproject_some_inv _ _ H)
    as (-> & content & m & E & S & G).
  split; [|reflexivity]. exists content. split; [exact E|].
  rewrite S. exact G.
Qed.

(** X12.  When [__init__.py] and [pyproject.toml] both carry a version and
    the two differ, the exit code is 1, whatever the optional artifacts
    hold. *)
Theorem disagreeing_mandatory_files_fail fs v1 v2 :
  yields fs init_file init_pattern v1 ->
  yields fs pyproject_file pyproject_pattern v2 ->
  v1 <> v2 ->
  exit_code fs = 1%Z.
Proof.
  intros H1 H2 Hneq.
  destruct (run_cases fs) as [(e & diag & _ & R)|(versions & diag & Hc & R)].
  - unfold exit_code. rewrite R. reflexivity.
  - destruct (collects_inv Hc)
      as (a & b & c & d & e & o1 & o2 & o3 & o4 & Ra & Rb & _ & _ & _ & ->).
    rewrite (init_yields _ H1) in Ra. rewrite (pyproject_yields _ H2) in Rb.
    inversion Ra; subst. inversion Rb; subst.
    rewrite reconcile_mismatch in R.
    + unfold exit_code. rewrite R. reflexivity.
    + apply set_of_size_gt_1. exists v1, v2. simpl. auto.
Qed.

Lemma disagreeing_mandatory_files_fail_witness :
  exit_code Scenario.disagree = 1%Z.
Proof.
  apply (@disagreeing_mandatory_files_fail Scenario.disagree
           (lit "1.2.3") (lit "1.2.4")).
  - eexists; split; [vm_compute; reflexivity | vm_compute; reflexivity].
  - eexists; split; [vm_compute; reflexivity | vm_compute; reflexivity].
  - discriminate.
Defined.

(** Of the calls modelled as able to raise, [read_text] and
    [next(iter(...))], only a [read_text] of an existing artifact does: when
    a run raises [e], one of the five artifact files exists and its
    [read_text] raises [e]. *)
Lemma run_raises_only_on_unreadable fs e out :
  run fs = (Raised e, out) ->
  exists p, In p artifact_files /\ fs p = Unreadable e.
Proof.
  intros R.
  destruct (extract_all fs [banner]) as [[versions|e'] diag] eqn:X.
  { rewrite (run_collects X) in R.
    destruct (reconcile_emits versions diag) as (code & d & R' & _).
    rewrite R' in R. discriminate R. }
  rewrite (run_raises _ X) in R. inversion R; subst e' diag. clear R.
  unfold extract_all in X.
  destruct (unreadable_dec (fs init_file)) as [[e1 E1]|N1].
  { erewrite bind_raised in X by (apply init_unreadable; exact E1).
    inversion X; subst. exists init_file. split; [simpl; tauto | assumption]. }
  destruct (init_returns fs [banner] N1) as (a & o1 & R1).
  erewrite bind_returned in X by exact R1.
  destruct (unreadable_dec (fs pyproject_file)) as [[e2 E2]|N2].
  { erewrite bind_raised in X by (apply pyproject_unreadable; exact E2).
    inversion X; subst. exists pyproject_file. split; [simpl; tauto | assumption]. }
  destruct (pyproject_returns fs o1 N2) as (b & o2 & R2).
  erewrite bind_returned in X by exact R2.
  destruct (unreadable_dec (fs setup_file)) as [[e3 E3]|N3].
  { erewrite bind_raised in X by (apply setup_unreadable; exact E3).
    inversion X; subst. exists setup_file. split; [simpl; tauto | assumption]. }
  destruct (setup_returns fs o2 N1 N3) as (c & o3 & R3).
  erewrite bind_returned in X by exact R3.
  destruct (unreadable_dec (fs dockerfile)) as [[e4 E4]|N4].
  { erewrite bind_raised in X by (apply dockerfile_unreadable; exact E4).
    inversion X; subst. exists dockerfile. split; [simpl; tauto | assumption]. }
  destruct (dockerfile_returns fs o3 N4) as (d & R4).
  erewrite bind_returned in X by exact R4.
  destruct (unreadable_dec (fs workflow_file)) as [[e5 E5]|N5].
  { erewrite bind_raised in X by (apply workflow_unreadable; exact E5).
    inversion X; subst. exists workflow_file. split; [simpl; tauto | assumption]. }
  destruct (workflow_returns fs o3 N5) as (e5 & R5).
  erewrite bind_returned in X by exact R5.
  discriminate X.
Qed.

(** X13.  The guarded calls do not raise.  [next(iter(unique_versions))] is
    reached only with a non-empty set, so a run never raises [StopIteration]
    from it; and [read_text] is called only on a path that exists, so an
    absent artifact never gives [FileNotFoundError].  Unless the [read_text]
    of an existing artifact itself raises one of the two, no run ends in
    either. *)
Theorem guarded_calls_never_raise fs out :
  (forall p, In p artifact_files ->
             fs p <> Unreadable StopIteration /\
             fs p <> Unreadable FileNotFoundError) ->
  run fs <> (Raised StopIteration, out) /\
  run fs <> (Raised FileNotFoundError, out).
Proof.
  intros H. split; intros R;
    destruct (run_raises_only_on_unreadable _ R) as (p & Hp & E);
    destruct (H p Hp) as [H1 H2]; [exact (H1 E) | exact (H2 E)].
Qed.

Lemma guarded_calls_never_raise_witness :
  Scenario.missing_pyproject pyproject_file = Absent /\
  (forall out,
      run Scenario.missing_pyproject <> (Raised StopIteration, out) /\
      run Scenario.missing_pyproject <> (Raised FileNotFoundError, out)).
Proof.
  split; [vm_compute; reflexivity|]. intros out.
  apply (@guarded_calls_never_raise Scenario.missing_pyproject out).
  intros p Hp. simpl in Hp.
  destruct Hp as [<-|[<-|[<-|[<-|[<-|[]]]]]];
    split; vm_compute; discriminate.
Defined.

Lemma init_ext fs fs' :
  fs' init_file = fs init_file ->
  extract_version_from_init fs' = extract_version_from_init fs.
Proof.
  unfold extract_version_from_init, path_exists, read_text.
  intros ->. reflexivity.
Qed.

Lemma pyproject_ext fs fs' :
  fs' pyproject_file = fs pyproject_file ->
  extract_version_from_pyproject fs' = extract_version_from_pyproject fs.
Proof.
  unfold extract_version_from_pyproject, path_exists, read_text.
  intros ->. reflexivity.
Qed.

Lemma setup_ext fs fs' :
  fs' setup_file = fs setup_file ->
  fs' init_file = fs init_file ->
  extract_version_from_setup fs' = extract_version_from_setup fs.
Proof.
  unfold extract_version_from_setup, path_exists, read_text.
  intros -> E. rewrite (init_ext _ _ E). reflexivity.
Qed.

Lemma dockerfile_ext fs fs' :
  fs' dockerfile = fs dockerfile ->
  extract_version_from_dockerfile fs' = extract_version_from_dockerfile fs.
Proof.
  unfold extract_version_from_dockerfile, path_exists, read_text.
  intros ->. reflexivity.
Qed.

Lemma workflow_ext fs fs' :
  fs' workflow_file = fs workflow_file ->
  extract_version_from_github_workflow fs' =
  extract_version_from_github_workflow fs.
Proof.
  unfold extract_version_from_github_workflow, path_exists, read_text.
  intros ->. reflexivity.
Qed.

(** X14.  A run looks at the five artifact paths and at nothing else: two
    filesystems that hold the same at these paths give the same outcome and
    the same output. *)
Theorem run_reads_only_artifacts fs fs' :
  (forall p, In p artifact_files -> fs' p = fs p) ->
  run fs' = run fs.
Proof.
  intros H. unfold run, main, extract_all.
  rewrite (init_ext fs fs'), (pyproject_ext fs fs'), (setup_ext fs fs'),
    (dockerfile_ext fs fs'), (workflow_ext fs fs');
    try reflexivity; apply H; simpl; tauto.
Qed.

Lemma run_reads_only_artifacts_witness :
  run (Scenario.agree_with_readme (lit "1.2.3"))
  = run (Scenario.agree (lit "1.2.3")).
Proof.
  apply run_reads_only_artifacts.
  intros p Hp. simpl in Hp.
  destruct Hp as [<-|[<-|[<-|[<-|[<-|[]]]]]]; vm_compute; reflexivity.
Defined.

Lemma has_key_head_some (key : str) (a : option str) (tl : dict (option str)) :
  has_key key (found_of ((key, a) :: tl)) = true ->
  has_key key (found_of tl) = false ->
  exists v, a = Some v.
Proof.
  destruct a as [v|]; [eauto|]. simpl. intros H1 H2. congruence.
Qed.

(** X15.  A run with exit code 0 printed three lines and nothing else: the
    banner, the line with the common version, and the list of contributing
    artifacts, which starts with [__init__.py, pyproject.toml]; the common
    version is the one both mandatory files carry and the validator accepts
    it. *)
Theorem successful_run_output fs :
  exit_code fs = 0%Z ->
  exists v files,
    run fs = (Returned 0%Z,
              [ banner; consistent_line v;
                found_in_line
                  (lit "__init__.py" :: lit "pyproject.toml" :: files) ])
    /\ validate_version_format v = true
    /\ yields fs init_file init_pattern v
    /\ yields fs pyproject_file pyproject_pattern v.
Proof.
  intros H0. unfold exit_code in H0.
  destruct (run_cases fs) as [(e & diag & _ & R)|(versions & diag & Hc & R)];
    [rewrite R in H0; discriminate H0|].
  destruct (collects_inv Hc)
    as (a & b & c & d & e & o1 & o2 & o3 & o4 & Ra & Rb & Rc & Rd & Re' & E).
  destruct (reconcile_cases versions diag)
    as [[_ R']|[[_ R']|(v & Hne & Hall & [[_ R']|[(_ & _ & R')|(Hok & Hm & R')]])]];
    rewrite R' in R; rewrite R in H0; try discriminate H0.
  apply missing_of_nil in Hm. destruct Hm as [K1 K2]. subst versions.
  assert (Ha : exists va, a = Some va).
  { apply (has_key_head_some _ _ _ K1).
    destruct b, c, d, e; reflexivity. }
  destruct Ha as (va & ->).
  assert (Hb : exists vb, b = Some vb).
  { destruct b as [vb|]; [eauto|]. exfalso.
    destruct c, d, e; vm_compute in K2; discriminate K2. }
  destruct Hb as (vb & ->).
  assert (va = v) by (apply (Hall (lit "__init__.py")); left; reflexivity).
  assert (vb = v)
    by (apply (Hall (lit "pyproject.toml")); right; left; reflexivity).
  subst va vb.
  destruct (yields_of_some_init _ _ Ra) as [Y1 ->].
  destruct (yields_of_some_pyproject _ _ Rb) as [Y2 ->].
  rewrite (setup_silent Y1) in Rc. inversion Rc; subst o3.
  rewrite (dockerfile_silent fs) in Rd. inversion Rd; subst o4.
  rewrite (workflow_silent fs) in Re'. inversion Re'; subst diag.
  exists v. eexists. split; [|auto]. rewrite R. reflexivity.
Qed.

Lemma successful_run_output_witness :
  exit_code (Scenario.all_agree (lit "2.0.0-rc.1")) = 0%Z /\
  exists v files,
    run (Scenario.all_agree (lit "2.0.0-rc.1")) =
    (Returned 0%Z,
     [ banner; consistent_line v;
       found_in_line (lit "__init__.py" :: lit "pyproject.toml" :: files) ]).
Proof.
  assert (H : exit_code (Scenario.all_agree (lit "2.0.0-rc.1")) = 0%Z)
    by (vm_compute; reflexivity).
  split; [exact H|].
  destruct (successful_run_output _ H) as (v & files & R & _).
  exists v, files. exact R.
Defined.

Lemma init_result_indep fs out out' :
  fst (extract_version_from_init fs out)
  = fst (extract_version_from_init fs out').
Proof.
  destruct (fs init_file) as [|content|e] eqn:E.
  - rewrite !(init_absent _ _ E). reflexivity.
  - rewrite !(init_text _ _ E). destruct (Re.search _ _); reflexivity.
  - rewrite !(init_unreadable _ _ E). reflexivity.
Qed.

(** X16.  A [setup.py] that delegates (no [version=] assignment, the text
    [find_version()]) never disagrees with [__init__.py]: in the dictionary
    of the run its entry equals that of [__init__.py]. *)
Theorem delegating_setup_agrees_with_init fs versions diag content :
  collects fs versions diag ->
  fs setup_file = Text content ->
  Re.search setup_pattern content = None ->
  contains (lit "find_version()") content = true ->
  exists a b d e,
    versions = [ (lit "__init__.py", a); (lit "pyproject.toml", b);
                 (lit "setup.py", a); (lit "Dockerfile", d);
                 (lit "GitHub workflow", e) ].
Proof.
  intros Hc E S C.
  destruct (collects_inv Hc)
    as (a & b & c & d & e & o1 & o2 & o3 & o4 & Ra & _ & Rc & _ & _ & ->).
  rewrite (setup_text _ _ E), S, C in Rc.
  pose proof (init_result_indep fs [banner] o2) as Hi.
  rewrite Ra, Rc in Hi. simpl in Hi. inversion Hi; subst c.
  exists a, b, d, e. reflexivity.
Qed.

Lemma delegating_setup_agrees_with_init_witness :
  collects Scenario.delegating_setup
    [ (lit "__init__.py", None); (lit "pyproject.toml", Some (lit "1.0.0"));
      (lit "setup.py", None); (lit "Dockerfile", None);
      (lit "GitHub workflow", None) ]
    [banner; init_not_found_line; init_not_found_line] /\
  exists a b d e,
    [ (lit "__init__.py", None); (lit "pyproject.toml", Some (lit "1.0.0"));
      (lit "setup.py", None); (lit "Dockerfile", None);
      (lit "GitHub workflow", @None str) ]
    = [ (lit "__init__.py", a); (lit "pyproject.toml", b);
        (lit "setup.py", a); (lit "Dockerfile", d);
        (lit "GitHub workflow", e) ].
Proof.
  assert (H : collects Scenario.delegating_setup
                [ (lit "__init__.py", None);
                  (lit "pyproject.toml", Some (lit "1.0.0"));
                  (lit "setup.py", None); (lit "Dockerfile", None);
                  (lit "GitHub workflow", None) ]
                [banner; init_not_found_line; init_not_found_line])
    by (vm_compute; reflexivity).
  split; [exact H|].
  refine (@delegating_setup_agrees_with_init _ _ _
            (lines [lit "from setuptools import setup";
                    lit "setup(name='pkg', version_info=find_version())"])
            H _ _ _); vm_compute; reflexivity.
Defined.

Lemma found_of_In (versions : dict (option str)) file version :
  In (file, version) (found_of versions) <-> In (file, Some version) versions.
Proof.
  induction versions as [|[f [v|]] versions IH]; simpl.
  - tauto.
  - rewrite IH. split; intros [H|H]; auto; left; congruence.
  - rewrite IH. split; [auto|]. intros [H|H]; [discriminate H | exact H].
Qed.

Lemma has_key_In {V} (key : str) (d : dict V) :
  has_key key d = true <-> exists v, In (key, v) d.
Proof.
  unfold has_key. rewrite existsb_exists. split.
  - intros ([k v] & Hin & Hk). simpl in Hk. apply str_eqb_eq in Hk. subst.
    eauto.
  - intros (v & Hin). exists (key, v). split; [exact Hin|].
    simpl. apply str_eqb_refl.
Qed.

(** The exit code of the reconciler is 0 when all checks pass and 1
    otherwise. *)
Lemma reconcile_code versions out :
  (fst (reconcile versions out) = Returned 0%Z /\ all_checks_pass versions)
  \/ (fst (reconcile versions out) = Returned 1%Z /\
      ~ all_checks_pass versions).
Proof.
  unfold all_checks_pass.
  destruct (reconcile_cases versions out)
    as [[He R]|[[Hgt R]|(v & Hne & Hall & [[Hbad R]|[(Hok & Hm & R)|(Hok & Hm & R)]])]];
    rewrite R; simpl.
  - right. split; [reflexivity|]. intros (Hne & _). congruence.
  - right. split; [reflexivity|]. intros (_ & (v & Hall & _) & _).
    apply set_of_size_gt_1 in Hgt. destruct Hgt as (a & b & Ha & Hb & Hab).
    apply in_map_iff in Ha, Hb.
    destruct Ha as ([fa va] & <- & Ha), Hb as ([fb vb] & <- & Hb).
    simpl in Hab. apply Hall in Ha, Hb. congruence.
  - right. split; [reflexivity|]. intros (_ & (v' & Hall' & Hok') & _).
    destruct (found_of versions) as [|[f0 v0] found] eqn:E; [congruence|].
    assert (v0 = v) by (apply (Hall f0); left; reflexivity).
    assert (v0 = v') by (apply (Hall' f0); left; reflexivity).
    congruence.
  - right. split; [reflexivity|]. intros (_ & _ & Hkeys).
    apply missing_of_nil in Hkeys. congruence.
  - left. split; [reflexivity|]. apply missing_of_nil in Hm.
    split; [assumption|]. split; [exists v; auto | assumption].
Qed.

Lemma all_checks_pass_same_entries versions versions' :
  (forall kv, In kv versions <-> In kv versions') ->
  all_checks_pass versions -> all_checks_pass versions'.
Proof.
  intros Hsame (Hne & (v & Hall & Hok) & K1 & K2).
  assert (Hf : forall file version,
             In (file, version) (found_of versions') ->
             In (file, version) (found_of versions)).
  { intros file version H. apply found_of_In. apply Hsame.
    apply found_of_In. exact H. }
  assert (Hk : forall key,
             has_key key (found_of versions) = true ->
             has_key key (found_of versions') = true).
  { intros key H. apply has_key_In in H. destruct H as (x & H).
    apply has_key_In. exists x. apply found_of_In. apply Hsame.
    apply found_of_In. exact H. }
  repeat split.
  - intros E. specialize (Hk _ K1). rewrite E in Hk. discriminate Hk.
  - exists v. split; [|exact Hok]. intros file version H. eauto.
  - auto.
  - auto.
Qed.

(** X17.  The verdict of the reconciler depends on the entries of the
    dictionary only, not on their order or on repetitions, and not on the
    output printed before: two dictionaries with the same entries give the
    same exit code. *)
Theorem verdict_ignores_order versions versions' out out' :
  (forall kv, In kv versions <-> In kv versions') ->
  fst (reconcile versions out) = fst (reconcile versions' out').
Proof.
  intros Hsame.
  assert (Hsame' : forall kv, In kv versions' <-> In kv versions)
    by (intros kv; symmetry; apply Hsame).
  destruct (reconcile_code versions out) as [[-> P]|[-> P]],
           (reconcile_code versions' out') as [[-> P']|[-> P']];
    try reflexivity; exfalso.
  - apply P'. exact (@all_checks_pass_same_entries _ _ Hsame P).
  - apply P. exact (@all_checks_pass_same_entries _ _ Hsame' P').
Qed.

Lemma verdict_ignores_order_witness :
  fst (reconcile [ (lit "__init__.py", Some (lit "1.0.0"));
                   (lit "pyproject.toml", Some (lit "1.0.0"));
                   (lit "setup.py", None) ] [])
  = fst (reconcile [ (lit "setup.py", None);
                     (lit "pyproject.toml", Some (lit "1.0.0"));
                     (lit "__init__.py", Some (lit "1.0.0")) ] [banner]).
Proof.
  apply verdict_ignores_order.
  intros kv. simpl. tauto.
Defined.

(** X18.  The Format Validator accepts exactly the strings of the grammar
    [MAJOR.MINOR.PATCH[-identifiers][+identifiers]] and those strings
    followed by one newline. *)
Theorem validator_accepts_exactly (s : str) :
  validate_version_format s = true <->
  Semver.well_formed s \/
  exists v, Semver.well_formed v /\ s = v ++ [NEWLINE].
Proof. apply SemverFacts.validate_version_format_spec. Qed.

Lemma valid_is_quotable v :
  validate_version_format v = true -> v <> [] /\ Shape.quote_free v.
Proof.
  intros H. apply SemverFacts.validate_version_format_spec in H.
  assert (Hw : forall w, Semver.well_formed w ->
                         w <> [] /\ Shape.quote_free w).
  { intros w Hw. split.
    - destruct Hw as (major & minor & patch & pre & build
                      & [Hm _] & _ & _ & _ & _ & ->).
      destruct major; [congruence | discriminate].
    - apply well_formed_chars in Hw. unfold Semver.all_of in Hw.
      rewrite Forall_forall in Hw.
      split; intros Hin; apply Hw in Hin; vm_compute in Hin; discriminate Hin. }
  destruct H as [H|(w & H & ->)].
  - apply Hw; exact H.
  - destruct (Hw w H) as [Hne [Hd Hs]]. split.
    + destruct w; [congruence | discriminate].
    + split; intros Hin; apply in_app_or in Hin;
        destruct Hin as [Hin|[Hin|[]]]; try tauto; discriminate Hin.
Qed.

(** X19.  A project whose two mandatory files assign the same version [v],
    accepted by the validator, on their first [__version__] and [version]
    lines, and which has none of the optional files, passes: exit code 0,
    the banner and the two success lines. *)
Theorem consistent_project_passes fs v ls1 w1 post1 ls2 w2 post2 :
  validate_version_format v = true ->
  fs init_file = Text (lines ls1 ++ w1 ++ post1) ->
  Shape.lines_without (lit "__version__") ls1 ->
  Shape.quoted_assignment (lit "__version__") v w1 ->
  fs pyproject_file = Text (lines ls2 ++ w2 ++ post2) ->
  Shape.lines_without (lit "version") ls2 ->
  Shape.quoted_assignment (lit "version") v w2 ->
  fs setup_file = Absent -> fs dockerfile = Absent ->
  fs workflow_file = Absent ->
  run fs = (Returned 0%Z,
            [ banner; consistent_line v;
              found_in_line [lit "__init__.py"; lit "pyproject.toml"] ]).
Proof.
  intros Hok E1 L1 W1 E2 L2 W2 A3 A4 A5.
  destruct (valid_is_quotable _ Hok) as [Hne Hq].
  assert (H : mandatory_agree fs v).
  { split; [|split; [|exact Hok]].
    - destruct (RoundTrip.search_anchored_assignment post1
                  no_newline_in_init_key L1 W1 Hne Hq) as (m & S & G).
      exists (lines ls1 ++ w1 ++ post1). split; [exact E1|].
      change (Re.search init_pattern (lines ls1 ++ w1 ++ post1) = Some m) in S.
      rewrite S. exact G.
    - destruct (RoundTrip.search_anchored_assignment post2
                  no_newline_in_version_key L2 W2 Hne Hq) as (m & S & G).
      exists (lines ls2 ++ w2 ++ post2). split; [exact E2|].
      change (Re.search pyproject_pattern (lines ls2 ++ w2 ++ post2) = Some m)
        in S.
      rewrite S. exact G. }
  apply (@run_agreeing_success fs v None None None H).
  - rewrite (setup_absent _ _ A3). reflexivity.
  - rewrite (dockerfile_absent _ _ A4). reflexivity.
  - rewrite (workflow_absent _ _ A5). reflexivity.
  - left; reflexivity.
  - left; reflexivity.
  - left; reflexivity.
Qed.

Lemma consistent_project_passes_witness :
  run (Scenario.agree (lit "1.2.3")) =
  (Returned 0%Z,
   [ banner; consistent_line (lit "1.2.3");
     found_in_line [lit "__init__.py"; lit "pyproject.toml"] ]).
Proof.
  apply (@consistent_project_passes (Scenario.agree (lit "1.2.3"))
           (lit "1.2.3")
           [lit "# package"]
           (lit "__version__" ++ [ord " "] ++ [Shape.EQUALS] ++ [ord " "]
                ++ [DQUOTE] ++ lit "1.2.3" ++ [DQUOTE])
           [NEWLINE]
           [lit "[project]"; lit "name = " ++ quoted (lit "pkg")]
           (lit "version" ++ [ord " "] ++ [Shape.EQUALS] ++ [ord " "]
                ++ [DQUOTE] ++ lit "1.2.3" ++ [DQUOTE])
           [NEWLINE]).
  - vm_compute; reflexivity.
  - vm_compute; reflexivity.
  - repeat constructor; intros H; vm_compute in H; intuition discriminate.
  - exists [ord " "], [ord " "], DQUOTE, DQUOTE.
    split; [repeat constructor|]. split; [repeat constructor|].
    split; [left; reflexivity|]. split; [left; reflexivity | reflexivity].
  - vm_compute; reflexivity.
  - repeat constructor; intros H; vm_compute in H; intuition discriminate.
  - exists [ord " "], [ord " "], DQUOTE, DQUOTE.
    split; [repeat constructor|]. split; [repeat constructor|].
    split; [left; reflexivity|]. split; [left; reflexivity | reflexivity].
  - vm_compute; reflexivity.
  - vm_compute; reflexivity.
  - vm_compute; reflexivity.
Defined.

(** ** The format gate and the grammar *)

(** Up to one final newline the format gate of the code is that of the
    grammar: a unanimous value that is neither of the grammar nor a string of
    the grammar followed by a newline gives exit code 1. *)
Lemma format_gate_up_to_newline fs versions diag v :
  collects fs versions diag ->
  found_of versions <> [] ->
  (forall file version, In (file, version) (found_of versions) -> version = v) ->
  ~ Semver.well_formed v ->
  (forall w, Semver.well_formed w -> v <> w ++ [NEWLINE]) ->
  exit_code fs = 1%Z.
Proof.
  intros Hc Hne Hall Hbad Hnl.
  destruct (validate_version_format v) eqn:V.
  - apply SemverFacts.validate_version_format_spec in V.
    destruct V as [V|(w & Hw & E)]; [contradiction | destruct (Hnl w Hw E)].
  - exact (proj2 (invalid_format_is_failure Hc Hne Hall V)).
Qed.

(** The checks of the specification imply those of the code. *)
Lemma grammar_checks_imply_code_checks versions :
  all_checks_pass_by_grammar versions -> all_checks_pass versions.
Proof.
  intros (Hne & (v & Hall & Hv) & Hk). split; [exact Hne|].
  split; [|exact Hk]. exists v. split; [exact Hall|].
  apply SemverFacts.validate_version_format_spec. left; exact Hv.
Qed.

(** The checks of the code imply those of the specification, except for a
    common value that is a string of the grammar followed by a newline. *)
Lemma code_checks_up_to_newline versions :
  all_checks_pass versions ->
  all_checks_pass_by_grammar versions \/
  exists w, Semver.well_formed w /\
            forall file version,
              In (file, version) (found_of versions) ->
              version = w ++ [NEWLINE].
Proof.
  intros (Hne & (v & Hall & Hv) & Hk).
  apply SemverFacts.validate_version_format_spec in Hv.
  destruct Hv as [Hv|(w & Hw & ->)].
  - left. split; [exact Hne|]. split; [|exact Hk]. exists v. auto.
  - right. exists w. auto.
Qed.

(** C2 (format gate) does not hold of the code.  With [1.0.0] followed by a
    newline between the quotes of both mandatory files, the found results
    are non-empty and all carry that one value, the value is not of the
    semantic-versioning grammar, and yet the run prints the success lines
    and exits with 0.  The cause is in the validator: [$] in the pattern of
    [validate_version_format] also matches just before a final newline. *)
Theorem invalid_format_passes_format_gate :
  let v := lit "1.0.0" ++ [NEWLINE] in
  let fs := Scenario.agree v in
  let versions :=
    [ (lit "__init__.py", Some v); (lit "pyproject.toml", Some v);
      (lit "setup.py", None); (lit "Dockerfile", None);
      (lit "GitHub workflow", None) ] in
  collects fs versions [banner] /\
  found_of versions <> [] /\
  (forall file version, In (file, version) (found_of versions) -> version = v) /\
  ~ Semver.well_formed v /\
  exit_code fs = 0%Z /\
  stdout fs =
  [ banner; consistent_line v;
    found_in_line [lit "__init__.py"; lit "pyproject.toml"] ].
Proof.
  intros v fs versions.
  split; [vm_compute; reflexivity|].
  split; [vm_compute; discriminate|].
  split.
  { intros file version H. vm_compute in H.
    destruct H as [H|[H|[]]]; inversion H; reflexivity. }
  split.
  { intros H. apply well_formed_no_newline in H. apply H.
    apply in_or_app; right; left; reflexivity. }
  split; vm_compute; reflexivity.
Qed.

(** C7 (exit code) does not hold of the code.  In the run on [1.0.0]
    followed by a newline in both mandatory files a value was found, the
    found values are one value and both mandatory artifacts contributed, but
    the value is not of the grammar: the check of the format does not pass,
    the failure condition of an invalid format holds, and the exit code is
    0, not 1.  The checks the code performs all pass: its validator accepts
    the value, [$] matching just before the final newline. *)
Theorem exit_code_zero_with_invalid_format :
  let v := lit "1.0.0" ++ [NEWLINE] in
  let fs := Scenario.agree v in
  let versions :=
    [ (lit "__init__.py", Some v); (lit "pyproject.toml", Some v);
      (lit "setup.py", None); (lit "Dockerfile", None);
      (lit "GitHub workflow", None) ] in
  collects fs versions [banner] /\
  found_of versions <> [] /\
  set_of (map snd (found_of versions)) = [v] /\
  has_key (lit "__init__.py") (found_of versions) = true /\
  has_key (lit "pyproject.toml") (found_of versions) = true /\
  ~ Semver.well_formed v /\
  ~ all_checks_pass_by_grammar versions /\
  all_checks_pass versions /\
  exit_code fs = 0%Z.
Proof.
  intros v fs versions.
  assert (Hbad : ~ Semver.well_formed v).
  { intros H. apply well_formed_no_newline in H. apply H.
    apply in_or_app; right; left; reflexivity. }
  assert (Hall : forall file version,
             In (file, version) (found_of versions) -> version = v).
  { intros file version H. vm_compute in H.
    destruct H as [H|[H|[]]]; inversion H; reflexivity. }
  split; [vm_compute; reflexivity|].
  split; [vm_compute; discriminate|].
  split; [vm_compute; reflexivity|].
  split; [vm_compute; reflexivity|].
  split; [vm_compute; reflexivity|].
  split; [exact Hbad|].
  split.
  { intros (_ & (w & Hw & Hwf) & _).
    assert (E : v = w) by (apply (Hw (lit "__init__.py")); left; reflexivity).
    rewrite <- E in Hwf. exact (Hbad Hwf). }
  split; [|vm_compute; reflexivity].
  split; [vm_compute; discriminate|].
  split; [|split; vm_compute; reflexivity].
  exists v. split; [exact Hall | vm_compute; reflexivity].
Qed.
